(** * pyadtpulse: the session engine of [PyADTPulse]

    A shallow embedding of [pyadtpulse/__init__.py]: the credential check of
    the constructor, the request executor [_async_query], the login and
    logout coroutines, the keepalive and sync-check background tasks, and
    the synchronous entry points that hand coroutines to the session loop.

    Coroutines are functions in a state-and-exception monad over a [World]
    that holds the client object next to its environment (the portal's
    answers, the clock, the response and task stores, the log).  Clock
    readings are kept in whole milliseconds.  A string is a sequence of
    characters: the codes below 128 are the ASCII characters, and each code
    from 128 up stands for a character outside ASCII, about which the
    engine only ever asks Python's Unicode classes. *)

From Stdlib Require Import List String Ascii ZArith NArith Bool Lia Arith.
From Stdlib Require Import DecimalString DecimalN.
Import ListNotations.

Local Open Scope string_scope.
Local Open Scope list_scope.

(* ------------------------------------------------------------------ *)
(** ** Strings as Python uses them *)

Module Py.

(** [str(n)] for a non-negative integer and for any integer. *)
Definition str_of_N (n : N) : string := NilZero.string_of_uint (N.to_uint n).
Definition str_of_Z (z : Z) : string := NilZero.string_of_int (Z.to_int z).

Definition chars (s : string) : list ascii := list_ascii_of_string s.

Fixpoint starts_with (p s : list ascii) : bool :=
  match p, s with
  | [], _ => true
  | a :: p', b :: s' => Ascii.eqb a b && starts_with p' s'
  | _ :: _, [] => false
  end.

(** [s.endswith(suffix)] *)
Definition endswith (s suffix : string) : bool :=
  starts_with (rev (chars suffix)) (rev (chars s)).

(** [x in xs] for a tuple of strings. *)
Definition str_in (x : string) (xs : list string) : bool :=
  existsb (String.eqb x) xs.

(** Truth value of an [Optional[str]]: [None] and [""] are both false. *)
Definition truthy (s : option string) : bool :=
  match s with
  | None => false
  | Some s => negb (String.eqb s "")
  end.

End Py.

(* ------------------------------------------------------------------ *)
(** ** The regular expressions of the source

    The two patterns the engine decides on are sequences of literal
    characters, character classes, repeated classes and word boundaries;
    [re.match] anchors at the start of the string only.  The patterns are
    [str] patterns, so [\d], [\w] and [\b] follow Unicode: on the ASCII
    characters they are fixed here, on the others they are what Python's
    Unicode database says, which the functions below take as [decimal]
    ([str.isdecimal]) and [alnum] ([str.isalnum]). *)

Module Re.

Inductive Atom : Type :=
| Lit (c : ascii)                (* a literal character *)
| One (cls : ascii -> bool)      (* [...] *)
| Plus (cls : ascii -> bool)     (* [...]+ *)
| Star (cls : ascii -> bool)     (* [...]* *)
| WordB.                         (* \b *)

Definition code (c : ascii) : nat := nat_of_ascii c.

Definition between (lo hi : nat) (c : ascii) : bool :=
  (lo <=? code c)%nat && (code c <=? hi)%nat.

Definition is_ascii (c : ascii) : bool := (code c <? 128)%nat.

(** [0-9], [A-Z] and [a-z] inside a character class. *)
Definition is_09 (c : ascii) : bool := between 48 57 c.
Definition is_upper (c : ascii) : bool := between 65 90 c.
Definition is_lower (c : ascii) : bool := between 97 122 c.
Definition one_of (s : string) (c : ascii) : bool :=
  existsb (Ascii.eqb c) (Py.chars s).

(** [\d]: a decimal digit of any script. *)
Definition is_digit (decimal : ascii -> bool) (c : ascii) : bool :=
  if is_ascii c then is_09 c else decimal c.

(** [\w]: a letter or a number of any script, or the underscore. *)
Definition is_word (decimal alnum : ascii -> bool) (c : ascii) : bool :=
  if is_ascii c then is_09 c || is_upper c || is_lower c || Ascii.eqb c "_"
  else alnum c || decimal c.

Section Matching.

(** [\w] as a class. *)
Variable word : ascii -> bool.

Definition word_opt (c : option ascii) : bool :=
  match c with Some c => word c | None => false end.

(** [\b] holds between [prev] and the head of [s] when exactly one of the
    two is a word character. *)
Definition boundary (prev : option ascii) (s : list ascii) : bool :=
  xorb (word_opt prev) (word_opt (hd_error s)).

(** [star cls k prev s]: consume any number of [cls] characters, then go on
    with [k]. *)
Fixpoint star (cls : ascii -> bool) (k : option ascii -> list ascii -> bool)
         (prev : option ascii) (s : list ascii) {struct s} : bool :=
  k prev s ||
  match s with
  | c :: s' => cls c && star cls k (Some c) s'
  | [] => false
  end.

Definition one (cls : ascii -> bool) (k : option ascii -> list ascii -> bool)
           (s : list ascii) : bool :=
  match s with
  | c :: s' => cls c && k (Some c) s'
  | [] => false
  end.

(** Does some prefix of [s] match the atoms, [prev] being the character
    before [s]? *)
Fixpoint matches (r : list Atom) (prev : option ascii) (s : list ascii)
  {struct r} : bool :=
  match r with
  | [] => true
  | Lit c :: r' => one (Ascii.eqb c) (matches r') s
  | One cls :: r' => one cls (matches r') s
  | Plus cls :: r' => one cls (star cls (matches r')) s
  | Star cls :: r' => star cls (matches r') prev s
  | WordB :: r' => boundary prev s && matches r' prev s
  end.

(** [re.match(pattern, s)] is not [None]. *)
Definition re_match (r : list Atom) (s : string) : bool :=
  matches r None (Py.chars s).

End Matching.

(** [\b[A-Za-z0-9._%+-]+@[A-Za-z0-9.-]+\.[A-Z|a-z]{2,}\b] *)
Definition email_local (c : ascii) : bool :=
  is_upper c || is_lower c || is_09 c || one_of "._%+-" c.
Definition email_domain (c : ascii) : bool :=
  is_upper c || is_lower c || is_09 c || one_of ".-" c.
Definition email_tld (c : ascii) : bool :=
  is_upper c || one_of "|" c || is_lower c.

Definition email_pattern : list Atom :=
  [WordB; Plus email_local; Lit "@"; Plus email_domain; Lit ".";
   One email_tld; One email_tld; Star email_tld; WordB].

(** [\d+[-]\d+[-]\d+], [digit] being the class [\d]. *)
Definition sync_pattern (digit : ascii -> bool) : list Atom :=
  [Plus digit; Lit "-"; Plus digit; Lit "-"; Plus digit].

End Re.


(** The sync token the portal sends: three integers joined by dashes. *)
Definition token (a b c : N) : string :=
  (Py.str_of_N a ++ "-" ++ Py.str_of_N b ++ "-" ++ Py.str_of_N c)%string.


(* ------------------------------------------------------------------ *)
(** ** Data model *)

(** Seconds since the epoch, in milliseconds. *)
Definition Time := Z.

Inductive Exn : Type :=
| ValueError (msg : string)
| RuntimeError (msg : string)
| AttributeError (msg : string)
| AssertionError
| CancelledError                       (* asyncio.CancelledError *)
| ClientResponseError (code : Z)       (* aiohttp, from raise_for_status *)
| ClientConnectionError.               (* aiohttp, no answer at all *)

(** The levels of [logging]; [LOG.exception] records at [ERROR]. *)
Inductive Level : Type := DEBUG | INFO | WARNING | ERROR.

Definition levelno (l : Level) : Z :=
  match l with DEBUG => 10 | INFO => 20 | WARNING => 30 | ERROR => 40 end%Z.

(** Which coroutine was entered: a mark in the trace, next to the log
    records the source writes itself. *)
Inductive Entry : Type := InLogin | InLogout | InUpdate.

Definition Dict := list (string * string).

Inductive Event : Type :=
| Log (lvl : Level) (msg : string)
| Slept (d : Time)
| Request (method url : string) (params : option Dict) (headers : option Dict)
          (timeout : option Z)
| Enter (f : Entry).

(** What the portal does with one request. *)
Inductive HttpOutcome : Type :=
| Answer (status : Z) (body : string) (final_url : string)
| NoAnswer.

Record ClientResponse : Type := {
  status : Z;
  text : string;
  url : string;
  closed : bool
}.

Record ClientSession : Type := {
  headers : Dict;
  session_closed : bool
}.

(** asyncio.Event *)
Definition AsyncEvent := bool.

Inductive TaskKind : Type := SyncCheck | Keepalive.

(** Where a background task stands between two runs of the loop: the two
    tasks only ever wait in the [asyncio.sleep] at the head of their [try]
    block, holding their local variable [response]. *)
Inductive TaskPhase : Type :=
| Created
| Sleeping (response : option nat)
| Finished
| Crashed (e : Exn)
| CancelledEarly.

Record Task : Type := {
  kind : TaskKind;
  phase : TaskPhase;
  cancel_requested : bool
}.

(** A coroutine handed to [asyncio.run_coroutine_threadsafe]. *)
Inductive Coro : Type :=
| CoLogin
| CoLogout
| CoUpdate
| CoQuery (uri method : string) (extra_params : option Dict)
          (extra_headers : option Dict) (force_login : bool) (timeout : Z).

(** The loop of the session thread: what was submitted to it and has not
    run yet. *)
Record EventLoop : Type := {
  submitted : list Coro;
  loop_closed : bool
}.

Record Thread : Type := { thread_name : string; daemon : bool }.

Record Creds : Type := {
  _username : string;
  _password : string;
  _fingerprint : string
}.

(** Modelled from the spec: the constants of [pyadtpulse.const], which is
    not under src/ ("one fixed endpoint per role"; the default headers are
    a User-Agent and an Accept entry). *)
Record Const : Type := {
  default_user_agent : string;
  default_accept : string;
  ADT_DEFAULT_VERSION : string;
  ADT_DEVICE_URI : string;
  ADT_HTTP_REFERER_URIS : list string;
  ADT_LOGIN_URI : string;
  ADT_LOGOUT_URI : string;
  ADT_ORB_URI : string;
  ADT_SYNC_CHECK_URI : string;
  ADT_SYSTEM_URI : string;
  ADT_TIMEOUT_INTERVAL : Time;
  ADT_TIMEOUT_URI : string;
  API_PREFIX : string;
  DEFAULT_API_HOST : string;
  ADT_DEFAULT_POLL_INTERVAL : Time
}.

Definition ADT_DEFAULT_HTTP_HEADERS (K : Const) : Dict :=
  [("User-Agent", default_user_agent K); ("Accept", default_accept K)].

(** [d.update(e)] on dictionaries kept as association lists. *)
Fixpoint dict_set (k v : string) (d : Dict) : Dict :=
  match d with
  | [] => [(k, v)]
  | (k', v') :: d' =>
      if String.eqb k k' then (k, v) :: d' else (k', v') :: dict_set k v d'
  end.

Definition dict_update (e d : Dict) : Dict :=
  fold_left (fun acc kv => dict_set (fst kv) (snd kv) acc) e d.

(** Modelled from the spec: the collaborators the engine calls and that are
    not under src/ ([pyadtpulse.util], [pyadtpulse.site], BeautifulSoup);
    parsed pages [Soup] and sites [Site] are opaque to the engine.
    [ext_make_soup] is "extract structured content from a raw page body,
    else report parse failure", [ext_handle_response] tells whether a
    response counts as a success.  The [soup_*] functions are the
    [find] calls of the source: is there a [div] with id [warnMsgContents]
    and what [str] makes of it, the text of the [span] with id
    [p_singlePremise] if there is one, and, if there is an [a] of class
    [p_signoutlink], [str] of its [get("href")].  The [site_*] functions
    are the constructor and methods of [ADTPulseSite], the [re_search_*]
    functions the two [re.search] calls, giving [group(1)] of a match.
    [unicode_decimal] and [unicode_alnum] are [str.isdecimal] and
    [str.isalnum] on the characters outside ASCII, and [float_ms t] is
    [int(t * 1000)] for the float that holds the clock reading [t]. *)
Record External (Soup Site : Type) : Type := {
  ext_handle_response : ClientResponse -> bool;
  ext_make_soup : ClientResponse -> option Soup;
  soup_warnMsgContents : Soup -> bool;
  soup_warnMsgText : Soup -> string;
  soup_singlePremise : Soup -> option string;
  soup_signoutlink : Soup -> option string;
  re_search_version : string -> option string;
  re_search_networkid : string -> option string;
  site_new : string -> string -> Site;
  site_fetch_zones : Site -> Site;
  site_update_alarm_from_soup : Soup -> Site -> Site;
  site_update_zone_from_soup : Soup -> Site -> Site;
  unicode_decimal : ascii -> bool;
  unicode_alnum : ascii -> bool;
  float_ms : Time -> Z
}.

Arguments ext_handle_response {Soup Site} _.
Arguments ext_make_soup {Soup Site} _.
Arguments soup_warnMsgContents {Soup Site} _.
Arguments soup_warnMsgText {Soup Site} _.
Arguments soup_singlePremise {Soup Site} _.
Arguments soup_signoutlink {Soup Site} _.
Arguments re_search_version {Soup Site} _.
Arguments re_search_networkid {Soup Site} _.
Arguments site_new {Soup Site} _.
Arguments site_fetch_zones {Soup Site} _.
Arguments site_update_alarm_from_soup {Soup Site} _.
Arguments site_update_zone_from_soup {Soup Site} _.
Arguments unicode_decimal {Soup Site} _.
Arguments unicode_alnum {Soup Site} _.
Arguments float_ms {Soup Site} _.

Record PyADTPulse (Site : Type) : Type := {
  _session : option ClientSession;
  _creds : Creds;
  _user_agent : string;
  _api_version : string;
  _sync_task : option nat;
  _timeout_task : option nat;
  _authenticated : option AsyncEvent;
  _updates_exist : option AsyncEvent;
  _loop : option EventLoop;
  _session_thread : option Thread;
  _attribute_lock : nat;
  _last_timeout_reset : Time;
  _sync_timestamp : Time;
  _sites : list Site;
  _api_host : string;
  _poll_interval : Time
}.

Arguments _session {Site} _.
Arguments _creds {Site} _.
Arguments _user_agent {Site} _.
Arguments _api_version {Site} _.
Arguments _sync_task {Site} _.
Arguments _timeout_task {Site} _.
Arguments _authenticated {Site} _.
Arguments _updates_exist {Site} _.
Arguments _loop {Site} _.
Arguments _session_thread {Site} _.
Arguments _attribute_lock {Site} _.
Arguments _last_timeout_reset {Site} _.
Arguments _sync_timestamp {Site} _.
Arguments _sites {Site} _.
Arguments _api_host {Site} _.
Arguments _poll_interval {Site} _.

(** The environment of the client: [server n] answers the [n]-th request,
    [served] counts the requests made, [responses] and [tasks] are the
    stores of response and task objects (a handle is an index), [trace]
    the log in order, [cancel_in] the number of suspension points the
    running coroutine still passes before a pending cancellation reaches
    it ([None]: no cancellation is pending), [schedule] the order in which
    the loop will run the background tasks while a coroutine waits for
    them. *)
Record Env : Type := {
  server : nat -> HttpOutcome;
  served : nat;
  clock : Time;
  responses : list ClientResponse;
  tasks : list Task;
  trace : list Event;
  cancel_in : option nat;
  schedule : list nat
}.

Record World (Site : Type) : Type := { self : PyADTPulse Site; env : Env }.

Arguments self {Site} w.
Arguments env {Site} w.


Definition set_served v (o : Env) : Env :=
  {| server := server o; served := v; clock := clock o;
     responses := responses o; tasks := tasks o; trace := trace o;
     cancel_in := cancel_in o; schedule := schedule o |}.

Definition set_clock v (o : Env) : Env :=
  {| server := server o; served := served o; clock := v;
     responses := responses o; tasks := tasks o; trace := trace o;
     cancel_in := cancel_in o; schedule := schedule o |}.

Definition set_responses v (o : Env) : Env :=
  {| server := server o; served := served o; clock := clock o;
     responses := v; tasks := tasks o; trace := trace o;
     cancel_in := cancel_in o; schedule := schedule o |}.

Definition set_tasks v (o : Env) : Env :=
  {| server := server o; served := served o; clock := clock o;
     responses := responses o; tasks := v; trace := trace o;
     cancel_in := cancel_in o; schedule := schedule o |}.

Definition set_trace v (o : Env) : Env :=
  {| server := server o; served := served o; clock := clock o;
     responses := responses o; tasks := tasks o; trace := v;
     cancel_in := cancel_in o; schedule := schedule o |}.

Definition set_cancel_in v (o : Env) : Env :=
  {| server := server o; served := served o; clock := clock o;
     responses := responses o; tasks := tasks o; trace := trace o;
     cancel_in := v; schedule := schedule o |}.

Definition set_schedule v (o : Env) : Env :=
  {| server := server o; served := served o; clock := clock o;
     responses := responses o; tasks := tasks o; trace := trace o;
     cancel_in := cancel_in o; schedule := v |}.

(** The outcome of running a coroutine: a value, an exception, or still
    waiting when the model stops (a loop that has not ended, a wait nobody
    answers). *)
Inductive Res (A : Type) : Type :=
| Ok (a : A)
| Raise (e : Exn)
| Blocked.

Arguments Ok {A} a.
Arguments Raise {A} e.
Arguments Blocked {A}.

Section Engine.

Context {Soup Site : Type}.
Variable X : External Soup Site.
Variable K : Const.

Definition set_session v (o : PyADTPulse Site) : PyADTPulse Site :=
  {| _session := v; _creds := _creds o; _user_agent := _user_agent o;
     _api_version := _api_version o; _sync_task := _sync_task o;
     _timeout_task := _timeout_task o; _authenticated := _authenticated o;
     _updates_exist := _updates_exist o; _loop := _loop o;
     _session_thread := _session_thread o;
     _attribute_lock := _attribute_lock o;
     _last_timeout_reset := _last_timeout_reset o;
     _sync_timestamp := _sync_timestamp o; _sites := _sites o;
     _api_host := _api_host o; _poll_interval := _poll_interval o |}.

Definition set_api_version v (o : PyADTPulse Site) : PyADTPulse Site :=
  {| _session := _session o; _creds := _creds o;
     _user_agent := _user_agent o; _api_version := v;
     _sync_task := _sync_task o; _timeout_task := _timeout_task o;
     _authenticated := _authenticated o; _updates_exist := _updates_exist o;
     _loop := _loop o; _session_thread := _session_thread o;
     _attribute_lock := _attribute_lock o;
     _last_timeout_reset := _last_timeout_reset o;
     _sync_timestamp := _sync_timestamp o; _sites := _sites o;
     _api_host := _api_host o; _poll_interval := _poll_interval o |}.

Definition set_sync_task v (o : PyADTPulse Site) : PyADTPulse Site :=
  {| _session := _session o; _creds := _creds o;
     _user_agent := _user_agent o; _api_version := _api_version o;
     _sync_task := v; _timeout_task := _timeout_task o;
     _authenticated := _authenticated o; _updates_exist := _updates_exist o;
     _loop := _loop o; _session_thread := _session_thread o;
     _attribute_lock := _attribute_lock o;
     _last_timeout_reset := _last_timeout_reset o;
     _sync_timestamp := _sync_timestamp o; _sites := _sites o;
     _api_host := _api_host o; _poll_interval := _poll_interval o |}.

Definition set_timeout_task v (o : PyADTPulse Site) : PyADTPulse Site :=
  {| _session := _session o; _creds := _creds o;
     _user_agent := _user_agent o; _api_version := _api_version o;
     _sync_task := _sync_task o; _timeout_task := v;
     _authenticated := _authenticated o; _updates_exist := _updates_exist o;
     _loop := _loop o; _session_thread := _session_thread o;
     _attribute_lock := _attribute_lock o;
     _last_timeout_reset := _last_timeout_reset o;
     _sync_timestamp := _sync_timestamp o; _sites := _sites o;
     _api_host := _api_host o; _poll_interval := _poll_interval o |}.

Definition set_authenticated v (o : PyADTPulse Site) : PyADTPulse Site :=
  {| _session := _session o; _creds := _creds o;
     _user_agent := _user_agent o; _api_version := _api_version o;
     _sync_task := _sync_task o; _timeout_task := _timeout_task o;
     _authenticated := v; _updates_exist := _updates_exist o;
     _loop := _loop o; _session_thread := _session_thread o;
     _attribute_lock := _attribute_lock o;
     _last_timeout_reset := _last_timeout_reset o;
     _sync_timestamp := _sync_timestamp o; _sites := _sites o;
     _api_host := _api_host o; _poll_interval := _poll_interval o |}.

Definition set_updates_exist v (o : PyADTPulse Site) : PyADTPulse Site :=
  {| _session := _session o; _creds := _creds o;
     _user_agent := _user_agent o; _api_version := _api_version o;
     _sync_task := _sync_task o; _timeout_task := _timeout_task o;
     _authenticated := _authenticated o; _updates_exist := v;
     _loop := _loop o; _session_thread := _session_thread o;
     _attribute_lock := _attribute_lock o;
     _last_timeout_reset := _last_timeout_reset o;
     _sync_timestamp := _sync_timestamp o; _sites := _sites o;
     _api_host := _api_host o; _poll_interval := _poll_interval o |}.

Definition set_loop v (o : PyADTPulse Site) : PyADTPulse Site :=
  {| _session := _session o; _creds := _creds o;
     _user_agent := _user_agent o; _api_version := _api_version o;
     _sync_task := _sync_task o; _timeout_task := _timeout_task o;
     _authenticated := _authenticated o; _updates_exist := _updates_exist o;
     _loop := v; _session_thread := _session_thread o;
     _attribute_lock := _attribute_lock o;
     _last_timeout_reset := _last_timeout_reset o;
     _sync_timestamp := _sync_timestamp o; _sites := _sites o;
     _api_host := _api_host o; _poll_interval := _poll_interval o |}.

Definition set_session_thread v (o : PyADTPulse Site) : PyADTPulse Site :=
  {| _session := _session o; _creds := _creds o;
     _user_agent := _user_agent o; _api_version := _api_version o;
     _sync_task := _sync_task o; _timeout_task := _timeout_task o;
     _authenticated := _authenticated o; _updates_exist := _updates_exist o;
     _loop := _loop o; _session_thread := v;
     _attribute_lock := _attribute_lock o;
     _last_timeout_reset := _last_timeout_reset o;
     _sync_timestamp := _sync_timestamp o; _sites := _sites o;
     _api_host := _api_host o; _poll_interval := _poll_interval o |}.

Definition set_attribute_lock v (o : PyADTPulse Site) : PyADTPulse Site :=
  {| _session := _session o; _creds := _creds o;
     _user_agent := _user_agent o; _api_version := _api_version o;
     _sync_task := _sync_task o; _timeout_task := _timeout_task o;
     _authenticated := _authenticated o; _updates_exist := _updates_exist o;
     _loop := _loop o; _session_thread := _session_thread o;
     _attribute_lock := v; _last_timeout_reset := _last_timeout_reset o;
     _sync_timestamp := _sync_timestamp o; _sites := _sites o;
     _api_host := _api_host o; _poll_interval := _poll_interval o |}.

Definition set_last_timeout_reset v (o : PyADTPulse Site) : PyADTPulse Site :=
  {| _session := _session o; _creds := _creds o;
     _user_agent := _user_agent o; _api_version := _api_version o;
     _sync_task := _sync_task o; _timeout_task := _timeout_task o;
     _authenticated := _authenticated o; _updates_exist := _updates_exist o;
     _loop := _loop o; _session_thread := _session_thread o;
     _attribute_lock := _attribute_lock o; _last_timeout_reset := v;
     _sync_timestamp := _sync_timestamp o; _sites := _sites o;
     _api_host := _api_host o; _poll_interval := _poll_interval o |}.

Definition set_sync_timestamp v (o : PyADTPulse Site) : PyADTPulse Site :=
  {| _session := _session o; _creds := _creds o;
     _user_agent := _user_agent o; _api_version := _api_version o;
     _sync_task := _sync_task o; _timeout_task := _timeout_task o;
     _authenticated := _authenticated o; _updates_exist := _updates_exist o;
     _loop := _loop o; _session_thread := _session_thread o;
     _attribute_lock := _attribute_lock o;
     _last_timeout_reset := _last_timeout_reset o; _sync_timestamp := v;
     _sites := _sites o; _api_host := _api_host o;
     _poll_interval := _poll_interval o |}.

Definition set_sites v (o : PyADTPulse Site) : PyADTPulse Site :=
  {| _session := _session o; _creds := _creds o;
     _user_agent := _user_agent o; _api_version := _api_version o;
     _sync_task := _sync_task o; _timeout_task := _timeout_task o;
     _authenticated := _authenticated o; _updates_exist := _updates_exist o;
     _loop := _loop o; _session_thread := _session_thread o;
     _attribute_lock := _attribute_lock o;
     _last_timeout_reset := _last_timeout_reset o;
     _sync_timestamp := _sync_timestamp o; _sites := v;
     _api_host := _api_host o; _poll_interval := _poll_interval o |}.

Definition set_api_host v (o : PyADTPulse Site) : PyADTPulse Site :=
  {| _session := _session o; _creds := _creds o;
     _user_agent := _user_agent o; _api_version := _api_version o;
     _sync_task := _sync_task o; _timeout_task := _timeout_task o;
     _authenticated := _authenticated o; _updates_exist := _updates_exist o;
     _loop := _loop o; _session_thread := _session_thread o;
     _attribute_lock := _attribute_lock o;
     _last_timeout_reset := _last_timeout_reset o;
     _sync_timestamp := _sync_timestamp o; _sites := _sites o;
     _api_host := v; _poll_interval := _poll_interval o |}.

Definition set_poll_interval v (o : PyADTPulse Site) : PyADTPulse Site :=
  {| _session := _session o; _creds := _creds o;
     _user_agent := _user_agent o; _api_version := _api_version o;
     _sync_task := _sync_task o; _timeout_task := _timeout_task o;
     _authenticated := _authenticated o; _updates_exist := _updates_exist o;
     _loop := _loop o; _session_thread := _session_thread o;
     _attribute_lock := _attribute_lock o;
     _last_timeout_reset := _last_timeout_reset o;
     _sync_timestamp := _sync_timestamp o; _sites := _sites o;
     _api_host := _api_host o; _poll_interval := v |}.


(* ------------------------------------------------------------------ *)
(** ** Coroutines as state-and-exception computations *)

Definition M (A : Type) : Type := World Site -> Res A * World Site.

Definition ret {A} (a : A) : M A := fun w => (Ok a, w).

Definition bind {A B} (m : M A) (f : A -> M B) : M B :=
  fun w =>
    match m w with
    | (Ok a, w') => f a w'
    | (Raise e, w') => (Raise e, w')
    | (Blocked, w') => (Blocked, w')
    end.

Notation "x <- m ;; k" := (bind m (fun x => k))
  (at level 61, m at next level, right associativity).
Notation "m ;; k" := (bind m (fun _ => k))
  (at level 61, right associativity).

Definition raise {A} (e : Exn) : M A := fun w => (Raise e, w).

Definition blocked {A} : M A := fun w => (Blocked, w).

(** [try: body except ...: handler]; [handler e = None] lets [e] pass. *)
Definition try_except {A} (body : M A) (handler : Exn -> option (M A)) : M A :=
  fun w =>
    match body w with
    | (Raise e, w') =>
        match handler e with
        | Some h => h w'
        | None => (Raise e, w')
        end
    | other => other
    end.

(** [try: body finally: cleanup] *)
Definition try_finally {A} (body : M A) (cleanup : M unit) : M A :=
  fun w =>
    match body w with
    | (r, w') =>
        match cleanup w' with
        | (Ok _, w'') => (r, w'')
        | (Raise e, w'') => (Raise e, w'')
        | (Blocked, w'') => (Blocked, w'')
        end
    end.

Definition gets {A} (f : World Site -> A) : M A := fun w => (Ok (f w), w).

Definition attr {A} (f : PyADTPulse Site -> A) : M A := gets (fun w => f (self w)).

(** A change of the client's attributes, and one of its environment. *)
Definition on_self (f : PyADTPulse Site -> PyADTPulse Site) (w : World Site)
  : World Site :=
  {| self := f (self w); env := env w |}.

Definition on_env (f : Env -> Env) (w : World Site) : World Site :=
  {| self := self w; env := f (env w) |}.

Definition assign (f : PyADTPulse Site -> PyADTPulse Site) : M unit :=
  fun w => (Ok tt, on_self f w).

Definition around (f : Env -> Env) : M unit :=
  fun w => (Ok tt, on_env f w).

Definition emit (e : Event) : M unit :=
  around (fun v => set_trace (trace v ++ [e]) v).

Definition LOG (lvl : Level) (msg : string) : M unit := emit (Log lvl msg).

(** [time.time()] *)
Definition time_time : M Time := gets (fun w => clock (env w)).

(** A point where the running coroutine gives up control: a pending
    cancellation reaches it here, as [CancelledError]. *)
Definition suspend : M unit :=
  n <- gets (fun w => cancel_in (env w)) ;;
  match n with
  | None => ret tt
  | Some O => around (set_cancel_in None) ;; raise CancelledError
  | Some (S k) => around (set_cancel_in (Some k))
  end.

(** [await asyncio.sleep(d)] *)
Definition asyncio_sleep (d : Time) : M unit :=
  suspend ;;
  around (fun v => set_clock (clock v + d)%Z v) ;;
  emit (Slept d).

(** The re-entrant [_attribute_lock], by its hold count. *)
Definition lock_acquire : M unit :=
  assign (fun o => set_attribute_lock (S (_attribute_lock o)) o).

Definition lock_release : M unit :=
  n <- attr _attribute_lock ;;
  match n with
  | O => raise (RuntimeError "cannot release un-acquired lock")
  | S k => assign (set_attribute_lock k)
  end.

(** [with self._attribute_lock: ...] *)
Definition with_lock {A} (body : M A) : M A :=
  lock_acquire ;; try_finally body lock_release.

Definition is_set (e : option AsyncEvent) : bool :=
  match e with Some true => true | _ => false end.

(** *** Responses and the session *)

(** The object behind a handle; handles are only made by allocation, so
    the default is never read. *)
Definition no_response : ClientResponse :=
  {| status := 0; text := ""; url := ""; closed := true |}.

Definition response_at (id : nat) : M ClientResponse :=
  gets (fun w => nth id (responses (env w)) no_response).

Definition mark_closed (r : ClientResponse) : ClientResponse :=
  {| status := status r; text := text r; url := url r; closed := true |}.

Fixpoint update_nth {A} (n : nat) (f : A -> A) (l : list A) : list A :=
  match l, n with
  | [], _ => []
  | x :: l', O => f x :: l'
  | x :: l', S n' => x :: update_nth n' f l'
  end.

(** [response.close()] and [response.release()] *)
Definition response_close (id : nat) : M unit :=
  around (fun v => set_responses (update_nth id mark_closed (responses v)) v).

(** [await response.text()] *)
Definition response_text (id : nat) : M string :=
  r <- response_at id ;; ret (text r).

(** [response.raise_for_status()] *)
Definition raise_for_status (id : nat) : M unit :=
  r <- response_at id ;;
  if (400 <=? status r)%Z then raise (ClientResponseError (status r)) else ret tt.

(** Entering [self._session.get(...)] or [.post(...)]: the request goes
    out, and the portal's answer becomes a response object or
    [ClientConnectionError]. *)
Definition session_request (method url : string) (params : option Dict)
           (hdrs : option Dict) (timeout : option Z) : M nat :=
  suspend ;;
  emit (Request method url params hdrs timeout) ;;
  n <- gets (fun w => served (env w)) ;;
  o <- gets (fun w => server (env w) n) ;;
  around (set_served (S n)) ;;
  match o with
  | NoAnswer => raise ClientConnectionError
  | Answer st body final =>
      id <- gets (fun w => List.length (responses (env w))) ;;
      around (fun v =>
                set_responses
                  (responses v ++
                   [{| status := st; text := body; url := final; closed := false |}])
                  v) ;;
      ret id
  end.

(** [async with <request> as response: body]; leaving the block releases
    the response. *)
Definition async_with {A} (request : M nat) (body : nat -> M A) : M A :=
  id <- request ;; try_finally (body id) (response_close id).

(** [self._session.headers.update(d)] *)
Definition session_headers_update (d : Dict) : M unit :=
  s <- attr _session ;;
  match s with
  | None => raise (AttributeError "'NoneType' object has no attribute 'headers'")
  | Some s =>
      assign (set_session
                (Some {| headers := dict_update d (headers s);
                         session_closed := session_closed s |}))
  end.

(** *** Properties of the client *)

Definition is_threaded : M bool :=
  with_lock (l <- attr _loop ;; ret (match l with Some _ => true | None => false end)).

Definition version : M string :=
  t <- is_threaded ;;
  if t then with_lock (attr _api_version) else attr _api_version.

Definition make_url (uri : string) : M string :=
  t <- is_threaded ;;
  let render :=
    h <- attr _api_host ;; v <- version ;; ret (h ++ API_PREFIX K ++ v ++ uri)%string in
  if t then with_lock render else render.

Definition poll_interval : M Time :=
  t <- is_threaded ;;
  if t then with_lock (attr _poll_interval) else attr _poll_interval.

Definition poll_interval_setter (interval : Time) : M unit :=
  t <- is_threaded ;;
  if t then
    lock_acquire ;; assign (set_poll_interval interval) ;; lock_release
  else assign (set_poll_interval interval).

Definition username : M string :=
  t <- is_threaded ;;
  if t then with_lock (attr (fun o => _username (_creds o)))
  else attr (fun o => _username (_creds o)).

Definition set_service_host (host : string) : M unit :=
  t <- is_threaded ;;
  (if t then lock_acquire else ret tt) ;;
  assign (set_api_host ("https://" ++ host)%string) ;;
  s <- attr _session ;;
  match s with
  | Some _ =>
      session_headers_update [("Host", host)] ;;
      session_headers_update (ADT_DEFAULT_HTTP_HEADERS K)
  | None => ret tt
  end ;;
  t' <- is_threaded ;;
  if t' then lock_release else ret tt.

Definition loop : M (option EventLoop) :=
  t <- is_threaded ;;
  if t then with_lock (attr _loop) else attr _loop.

Definition sites : M (list Site) :=
  t <- is_threaded ;;
  if t then with_lock (attr _sites) else attr _sites.

Definition is_connected : M bool :=
  t <- is_threaded ;;
  (if t then lock_acquire else ret tt) ;;
  a <- attr _authenticated ;;
  match a with
  | None =>
      t' <- is_threaded ;;
      (if t' then lock_release else ret tt) ;;
      ret false
  | Some _ =>
      t' <- is_threaded ;;
      (if t' then lock_release else ret tt) ;;
      a' <- attr _authenticated ;;
      ret (is_set a')
  end.

Definition updates_exist : M bool :=
  t <- is_threaded ;;
  (if t then lock_acquire else ret tt) ;;
  u <- attr _updates_exist ;;
  match u with
  | None =>
      t' <- is_threaded ;;
      (if t' then lock_release else ret tt) ;;
      ret false
  | Some true =>
      assign (set_updates_exist (Some false)) ;;
      t' <- is_threaded ;;
      (if t' then lock_release else ret tt) ;;
      ret true
  | Some false =>
      t' <- is_threaded ;;
      (if t' then lock_release else ret tt) ;;
      ret false
  end.

(** [await self._updates_exist.wait()] returns at once when the event is
    set; otherwise the caller waits for another task to set it. *)
Definition wait_for_update : M unit :=
  u <- attr _updates_exist ;;
  match u with
  | None => raise (RuntimeError "Update event does not exist")
  | Some true => assign (set_updates_exist (Some false))
  | Some false => suspend ;; blocked
  end.


(* ------------------------------------------------------------------ *)
(** ** The constructor's credential check *)

(** [\d] and [\w] with Python's Unicode classes, [re.match], and the
    pattern of the sync check. *)
Definition is_digit : ascii -> bool := Re.is_digit (unicode_decimal X).

Definition is_word : ascii -> bool :=
  Re.is_word (unicode_decimal X) (unicode_alnum X).

Definition re_match (r : list Re.Atom) (s : string) : bool :=
  Re.re_match is_word r s.

Definition email_pattern : list Re.Atom := Re.email_pattern.

Definition sync_pattern : list Re.Atom := Re.sync_pattern is_digit.

(** [_init_login_info]: the three attributes it sets, or the [ValueError]
    it raises. *)
Definition _init_login_info (username password fingerprint : option string)
  : Res Creds :=
  match username with
  | None | Some "" => Raise (ValueError "Username is madatory")
  | Some u =>
      if negb (re_match email_pattern u) then
        Raise (ValueError "Username must be an email address")
      else
        match password with
        | None | Some "" => Raise (ValueError "Password is mandatory")
        | Some p =>
            match fingerprint with
            | None | Some "" => Raise (ValueError "Fingerprint is required")
            | Some f =>
                Ok {| _username := u; _password := p; _fingerprint := f |}
            end
        end
  end.

(** [__repr__]: the class name and the username. *)
Definition __repr__ : M string :=
  c <- attr _creds ;;
  ret ("<PyADTPulse: " ++ _username c ++ ">")%string.

(* ------------------------------------------------------------------ *)
(** ** Helpers of [pyadtpulse.util] *)

(** [handle_response(response, level, error_message)]: no response, or one
    that does not count as a success, is a failure, and the message is
    logged at [level]. *)
Definition handle_response (response : option nat) (level : Level)
           (error_message : string) : M bool :=
  match response with
  | None => LOG level error_message ;; ret false
  | Some id =>
      r <- response_at id ;;
      if ext_handle_response X r then ret true
      else LOG level error_message ;; ret false
  end.

(** [await make_soup(response, level, error_message)]: the parsed body of
    the response, or [None] (and the message in the log) when there is
    nothing to parse. *)
Definition make_soup (response : option nat) (level : Level)
           (error_message : string) : M (option Soup) :=
  match response with
  | None => LOG level error_message ;; ret None
  | Some id =>
      r <- response_at id ;;
      match ext_make_soup X r with
      | Some soup => ret (Some soup)
      | None => LOG level error_message ;; ret None
      end
  end.

(* ------------------------------------------------------------------ *)
(** ** Version discovery *)

Definition version_fallback : M unit :=
  LOG WARNING
      ("Error occurred during API version fetch, defaulting to"
         ++ ADT_DEFAULT_VERSION K)%string ;;
  assign (set_api_version (ADT_DEFAULT_VERSION K)).

(** The [try] block of [_async_fetch_version] gives [inl tt] when its
    handler returned from the function, and [inr result] otherwise. *)
Definition _async_fetch_version : M unit :=
  s <- attr _session ;;
  fetched <-
    match s with
    | Some _ =>
        try_except
          (host <- attr _api_host ;;
           async_with (session_request "GET" host None None None)
             (fun response =>
                result <- response_text response ;;
                raise_for_status response ;;
                ret (inr (Some result))))
          (fun e =>
             match e with
             | ClientResponseError _ | ClientConnectionError =>
                 Some (version_fallback ;; ret (inl tt))
             | _ => None
             end)
    | None => ret (inr None)
    end ;;
  match fetched with
  | inl _ => ret tt
  | inr None => version_fallback
  | inr (Some result) =>
      match re_search_version X result with
      | Some v =>
          assign (set_api_version v) ;;
          host <- attr _api_host ;;
          LOG DEBUG ("Discovered ADT Pulse version " ++ v ++ " at " ++ host)%string
      | None =>
          assign (set_api_version (ADT_DEFAULT_VERSION K)) ;;
          LOG WARNING
              ("Couldn't auto-detect ADT Pulse version, defaulting to "
                 ++ ADT_DEFAULT_VERSION K)%string
      end
  end.

(* ------------------------------------------------------------------ *)
(** ** Sites *)

Definition _initialize_sites (soup : Soup) : M unit :=
  match soup_singlePremise X soup with
  | Some site_name =>
      match soup_signoutlink X soup with
      | None => raise (AttributeError "'NoneType' object has no attribute 'get'")
      | Some signout_link =>
          if negb (String.eqb signout_link "") then
            match re_search_networkid X signout_link with
            | Some site_id =>
                if negb (String.eqb site_id "") then
                  LOG DEBUG
                      ("Discovered site id " ++ site_id ++ ": " ++ site_name)%string ;;
                  let new_site := site_fetch_zones X (site_new X site_id site_name) in
                  let new_site := site_update_alarm_from_soup X soup new_site in
                  let new_site := site_update_zone_from_soup X soup new_site in
                  assign (fun o => set_sites (_sites o ++ [new_site]) o)
                else ret tt
            | None => ret tt
            end
          else
            LOG WARNING
                ("Couldn't find site id for '" ++ site_name ++ "' in '"
                   ++ signout_link ++ "'")%string
      end
  | None => LOG ERROR "ADT Pulse accounts with MULTIPLE sites not supported!!!"
  end.

Definition _update_sites (soup : Soup) : M unit :=
  ss <- attr _sites ;;
  match ss with
  | [] => _initialize_sites soup
  | _ :: _ =>
      if (1 <? List.length ss)%nat then
        LOG ERROR
            "('pyadtpulse DOES NOT support an ADT account ', 'with multiple sites yet!!!')"
      else ret tt
  end ;;
  assign (fun o =>
            set_sites
              (map (fun site =>
                      site_update_zone_from_soup X soup
                        (site_update_alarm_from_soup X soup site))
                   (_sites o))
              o).

Definition _close_response (response : option nat) : M unit :=
  match response with
  | None => ret tt
  | Some id =>
      r <- response_at id ;;
      if closed r then ret tt else response_close id
  end.

(* ------------------------------------------------------------------ *)
(** ** The request executor *)

(** [repr] of a dictionary of strings, for the log. *)
Definition dict_repr (d : Dict) : string :=
  ("{" ++ String.concat ", "
            (map (fun kv => "'" ++ fst kv ++ "': '" ++ snd kv ++ "'") d)
       ++ "}")%string.

Definition RECOVERABLE_ERRORS : list Z := [429; 500; 502; 503; 504]%Z.

(** [_async_query] below its first statement: everything after the
    automatic login.  [None] from the [try] block stands for the three
    [return None] inside it. *)
Definition _async_query_request (uri method : string)
           (extra_params : option Dict)
           (extra_headers : option Dict) (timeout : Z) : M (option nat) :=
  s <- attr _session ;;
  match s with
  | None => raise (RuntimeError "ClientSession not initialized")
  | Some _ =>
      url' <- make_url uri ;;
      let new_headers :=
        if Py.str_in uri (ADT_HTTP_REFERER_URIS K)
        then [("Accept", default_accept K)]
        else [("Accept", "*/*")] in
      LOG DEBUG ("Updating HTTP headers: " ++ dict_repr new_headers)%string ;;
      session_headers_update new_headers ;;
      LOG DEBUG ("Attempting " ++ method ++ " " ++ url')%string ;;
      attempt <-
        try_except
          (if String.eqb method "GET" then
             response <-
               async_with
                 (session_request "GET" url' extra_params extra_headers (Some timeout))
                 (fun response => response_text response ;; ret response) ;;
             raise_for_status response ;;
             ret (Some response)
           else if String.eqb method "POST" then
             response <-
               async_with
                 (session_request "POST" url' extra_params extra_headers (Some timeout))
                 (fun response => response_text response ;; ret response) ;;
             raise_for_status response ;;
             ret (Some response)
           else
             LOG ERROR ("Invalid request method " ++ method)%string ;;
             ret None)
          (fun e =>
             match e with
             | ClientResponseError code =>
                 Some (LOG ERROR
                           ("Received HTTP error code " ++ Py.str_of_Z code
                              ++ " in request to ADT Pulse")%string ;;
                       ret None)
             | ClientConnectionError =>
                 Some (LOG ERROR "An exception occurred in request to ADT Pulse" ;;
                       ret None)
             | _ => None
             end) ;;
      match attempt with
      | None => ret None
      | Some response =>
          (if Py.str_in uri (ADT_HTTP_REFERER_URIS K) then
             referer <-
               (if String.eqb uri (ADT_DEVICE_URI K) then
                  make_url (ADT_SYSTEM_URI K)
                else
                  r <- response_at response ;;
                  LOG DEBUG ("Setting Referer to: " ++ url r)%string ;;
                  ret (url r)) ;;
             session_headers_update [("Referer", referer)]
           else ret tt) ;;
          ret (Some response)
      end
  end.

(* ------------------------------------------------------------------ *)
(** ** Login *)

(** [asyncio.create_task]: a new task object, not yet run. *)
Definition create_task (k : TaskKind) : M nat :=
  id <- gets (fun w => List.length (tasks (env w))) ;;
  around (fun v =>
            set_tasks
              (tasks v ++ [{| kind := k; phase := Created; cancel_requested := false |}])
              v) ;;
  ret id.

Definition task_at (id : nat) : M (option Task) :=
  gets (fun w => nth_error (tasks (env w)) id).

Definition task_put (id : nat) (f : Task -> Task) : M unit :=
  around (fun v => set_tasks (update_nth id f (tasks v)) v).

Definition moved_to (p : TaskPhase) (t : Task) : Task :=
  {| kind := kind t; phase := p; cancel_requested := false |}.

(** The statements of [_sync_check_task] before its loop. *)
Definition sync_check_enter : M unit :=
  LOG DEBUG "creating Pulse sync check task" ;;
  u <- attr _updates_exist ;;
  match u with
  | None => raise (RuntimeError "Sync check task started without update event initialized")
  | Some _ => ret tt
  end.

(** The statements of [_keepalive_task] before its loop. *)
Definition keepalive_enter : M unit :=
  LOG DEBUG "creating Pulse keepalive task" ;;
  a <- attr _authenticated ;;
  match a with
  | None => raise (RuntimeError "Keepalive task is runnng without an authenticated event")
  | Some _ => ret tt
  end.

(** [while self._authenticated.is_set()]: the task sleeps again, or ends. *)
Definition keepalive_while (response : option nat) : M TaskPhase :=
  a <- attr _authenticated ;;
  match a with
  | None => raise (AttributeError "'NoneType' object has no attribute 'is_set'")
  | Some true => ret (Sleeping response)
  | Some false => ret Finished
  end.

(** A task up to its first [asyncio.sleep]. *)
Definition task_enter (k : TaskKind) : M TaskPhase :=
  match k with
  | SyncCheck => sync_check_enter ;; ret (Sleeping None)
  | Keepalive => keepalive_enter ;; keepalive_while None
  end.

(** The first run the loop gives a task it was handed and that nobody has
    cancelled since: to its first sleep, or to the exception that ends
    it. *)
Definition task_first_run (id : nat) : M unit :=
  t <- task_at id ;;
  match t with
  | Some t =>
      match phase t, cancel_requested t with
      | Created, false =>
          reached <-
            try_except (task_enter (kind t)) (fun e => Some (ret (Crashed e))) ;;
          task_put id (moved_to reached)
      | _, _ => ret tt
      end
  | None => ret tt
  end.

Fixpoint for_each (f : nat -> M unit) (ids : list nat) : M unit :=
  match ids with
  | [] => ret tt
  | id :: rest => f id ;; for_each f rest
  end.

(** [await asyncio.sleep(0)] after [asyncio.create_task]: the coroutine
    gives the loop one turn, in which the tasks [made], handed to the loop
    before, take their first run; then the coroutine goes on. *)
Definition asyncio_sleep_0 (made : list nat) : M unit :=
  for_each task_first_run made ;;
  suspend ;;
  around (fun v => set_clock (clock v + 0)%Z v) ;;
  emit (Slept 0%Z).

(** [self._authenticated.set()] and [.clear()] *)
Definition authenticated_put (b : bool) : M unit :=
  a <- attr _authenticated ;;
  match a with
  | None => raise (AttributeError "'NoneType' object has no attribute 'set'")
  | Some _ => assign (set_authenticated (Some b))
  end.

(** [async_login].  Its own request passes [force_login=False], so the
    executor's automatic login is skipped and the request part runs alone.
    [made] and [made'] are the tasks this call creates. *)
Definition async_login : M unit :=
  emit (Enter InLogin) ;;
  s <- attr _session ;;
  match s with
  | None =>
      assign (set_session (Some {| headers := []; session_closed := false |})) ;;
      session_headers_update (ADT_DEFAULT_HTTP_HEADERS K)
  | Some _ => ret tt
  end ;;
  assign (set_authenticated (Some false)) ;;
  c <- attr _creds ;;
  LOG DEBUG ("Authenticating to ADT Pulse cloud service as " ++ _username c)%string ;;
  _async_fetch_version ;;
  response <-
    _async_query_request (ADT_LOGIN_URI K) "POST"
      (Some [("partner", "adt"); ("usernameForm", _username c);
             ("passwordForm", _password c); ("fingerprint", _fingerprint c);
             ("sun", "yes")])
      None 10%Z ;;
  soup <- make_soup response ERROR "Could not log into ADT Pulse site" ;;
  match soup with
  | None => authenticated_put false
  | Some soup =>
      if soup_warnMsgContents X soup then
        LOG ERROR ("Invalid ADT Pulse response: ): " ++ soup_warnMsgText X soup)%string ;;
        authenticated_put false
      else
        authenticated_put true ;;
        now <- time_time ;;
        assign (set_last_timeout_reset now) ;;
        _update_sites soup ;;
        now <- time_time ;;
        assign (set_sync_timestamp now) ;;
        st <- attr _sync_task ;;
        made <-
          match st with
          | None =>
              t <- create_task SyncCheck ;; assign (set_sync_task (Some t)) ;; ret [t]
          | Some _ => ret []
          end ;;
        tt' <- attr _timeout_task ;;
        made' <-
          match tt' with
          | None =>
              t <- create_task Keepalive ;; assign (set_timeout_task (Some t)) ;; ret [t]
          | Some _ => ret []
          end ;;
        u <- attr _updates_exist ;;
        match u with
        | None => assign (set_updates_exist (Some false))
        | Some _ => ret tt
        end ;;
        asyncio_sleep_0 (made ++ made')
  end.

(** [_async_query]: [force_login and not self.is_connected] decides on the
    automatic login, then the request is made either way. *)
Definition _async_query (uri method : string) (extra_params : option Dict)
           (extra_headers : option Dict) (force_login : bool) (timeout : Z)
  : M (option nat) :=
  need <- (if force_login then c <- is_connected ;; ret (negb c) else ret false) ;;
  (if need then async_login else ret tt) ;;
  _async_query_request uri method extra_params extra_headers timeout.

(* ------------------------------------------------------------------ *)
(** ** Content refresh *)

Definition _query_orb (level : Level) (error_message : string) : M (option Soup) :=
  response <- _async_query (ADT_ORB_URI K) "GET" None None true 1%Z ;;
  make_soup response level error_message.

Definition async_update : M bool :=
  emit (Enter InUpdate) ;;
  LOG DEBUG "Checking ADT Pulse cloud service for updates" ;;
  soup <- _query_orb INFO "Error returned from ADT Pulse service check" ;;
  match soup with
  | Some soup => _update_sites soup ;; ret true
  | None => ret false
  end.


(* ------------------------------------------------------------------ *)
(** ** Background tasks

    A task is run by the loop from where it stands to the next time it
    sleeps, or to its end.  How one pass of a [try] statement leaves it:
    [Next r] goes on to the next iteration with the local variable
    [response] holding [r], [Return] ends the task. *)

Inductive Flow : Type := Next (response : option nat) | Return.

(** The [except asyncio.CancelledError] clause of the keepalive task; it
    closes what the local variable [response] holds when the exception
    arrives. *)
Definition keepalive_cancelled {A} (response : option nat) (returned : A)
  : Exn -> option (M A) :=
  fun e =>
    match e with
    | CancelledError =>
        Some (LOG DEBUG "ADT Pulse timeout task cancelled" ;;
              _close_response response ;;
              ret returned)
    | _ => None
    end.

(** The [try] statement of [_keepalive_task], in two parts: up to the
    assignment [response = await ...], and after it. *)
Definition keepalive_try (response : option nat) : M Flow :=
  got <-
    try_except
      (asyncio_sleep (ADT_TIMEOUT_INTERVAL K) ;;
       LOG DEBUG "Resetting timeout" ;;
       r <- _async_query (ADT_TIMEOUT_URI K) "POST" None None true 1%Z ;;
       ret (Some r))
      (keepalive_cancelled response None) ;;
  match got with
  | None => ret Return
  | Some response =>
      try_except
        (ok <- handle_response response INFO
                 "Failed resetting ADT Pulse cloud timeout" ;;
         if ok then _close_response response ;; ret (Next response)
         else _close_response response ;; ret (Next response))
        (keepalive_cancelled response Return)
  end.

Definition _keepalive_task (from : TaskPhase) : M TaskPhase :=
  match from with
  | Created => task_enter Keepalive
  | Sleeping response =>
      fl <- keepalive_try response ;;
      match fl with
      | Return => ret Finished
      | Next r => keepalive_while r
      end
  | ended => ret ended
  end.

Definition sync_check_cancelled {A} (response : option nat) (returned : A)
  : Exn -> option (M A) :=
  fun e =>
    match e with
    | CancelledError =>
        Some (LOG DEBUG "ADT Pulse sync check task cancelled" ;;
              _close_response response ;;
              ret returned)
    | _ => None
    end.

(** [self._updates_exist.set()] *)
Definition updates_exist_set : M unit :=
  u <- attr _updates_exist ;;
  match u with
  | None => raise (AttributeError "'NoneType' object has no attribute 'set'")
  | Some _ => assign (set_updates_exist (Some true))
  end.

(** What one iteration of the sync check does with the response it got. *)
Definition sync_check_react (response : option nat) : M Flow :=
  match response with
  | None => ret (Next response)
  | Some id =>
      text <- response_text id ;;
      ok <- handle_response response ERROR "Error querying ADT sync" ;;
      if negb ok then
        _close_response response ;; ret (Next response)
      else if negb (re_match sync_pattern text) then
        LOG WARNING
            "Unexpected sync check format (\d+[-]\d+[-]\d+), forcing re-auth" ;;
        LOG DEBUG ("Received " ++ text ++ " from ADT Pulse site")%string ;;
        _close_response response ;;
        async_login ;;
        ret (Next response)
      else if Py.endswith text "-0-0" then
        LOG DEBUG
            ("Sync token " ++ text ++ " indicates updates may exist, requerying")%string ;;
        _close_response response ;;
        now <- time_time ;;
        assign (set_sync_timestamp now) ;;
        updates_exist_set ;;
        updated <- async_update ;;
        (if updated then ret tt
         else LOG DEBUG "Pulse data update from sync task failed") ;;
        ret (Next response)
      else
        LOG DEBUG
            ("Sync token " ++ text ++ " indicates no remote updates to process")%string ;;
        _close_response response ;;
        now <- time_time ;;
        assign (set_sync_timestamp now) ;;
        ret (Next response)
  end.

(** The request of one iteration: sleep for the poll interval, then ask
    the sync-check endpoint. *)
Definition sync_check_poll : M (option nat) :=
  pi <- poll_interval ;;
  asyncio_sleep pi ;;
  ts <- attr _sync_timestamp ;;
  _async_query (ADT_SYNC_CHECK_URI K) "GET"
    (Some [("ts", Py.str_of_Z (float_ms X ts))]) None true 1%Z.

(** The [try] statement of [_sync_check_task], in two parts as above. *)
Definition sync_check_try (response : option nat) : M Flow :=
  got <-
    try_except
      (r <- sync_check_poll ;; ret (Some r))
      (sync_check_cancelled response None) ;;
  match got with
  | None => ret Return
  | Some response =>
      try_except (sync_check_react response)
                 (sync_check_cancelled response Return)
  end.

Definition _sync_check_task (from : TaskPhase) : M TaskPhase :=
  match from with
  | Created => task_enter SyncCheck
  | Sleeping response =>
      fl <- sync_check_try response ;;
      match fl with
      | Return => ret Finished
      | Next r => ret (Sleeping r)
      end
  | ended => ret ended
  end.

(** *** The loop's view of the tasks *)

Definition task_done (t : Task) : bool :=
  match phase t with
  | Created | Sleeping _ => false
  | Finished | Crashed _ | CancelledEarly => true
  end.

Definition cancel_asked (t : Task) : Task :=
  {| kind := kind t; phase := phase t; cancel_requested := true |}.

(** [task.cancel()]: asks for the cancellation and returns; it never
    raises, and says [False] for a task that has ended. *)
Definition task_cancel (id : nat) : M bool :=
  t <- task_at id ;;
  match t with
  | Some t =>
      if task_done t then ret false
      else task_put id cancel_asked ;; ret true
  | None => ret false
  end.

Definition task_body (k : TaskKind) : TaskPhase -> M TaskPhase :=
  match k with
  | SyncCheck => _sync_check_task
  | Keepalive => _keepalive_task
  end.

(** The loop runs task [id] once.  A cancellation asked for reaches the
    task at the sleep it is waking from; a task cancelled before its first
    run never runs; an exception that leaves the task ends it. *)
Definition task_step (id : nat) : M unit :=
  t <- task_at id ;;
  match t with
  | None => ret tt
  | Some t =>
      if task_done t then ret tt
      else
        match phase t, cancel_requested t with
        | Created, true => task_put id (moved_to CancelledEarly)
        | from, asked =>
            outer <- gets (fun w => cancel_in (env w)) ;;
            around (set_cancel_in (if asked then Some O else None)) ;;
            reached <-
              try_except (task_body (kind t) from)
                         (fun e => Some (ret (Crashed e))) ;;
            around (set_cancel_in outer) ;;
            task_put id (moved_to reached)
        end
  end.

Definition all_done (ids : list nat) (ts : list Task) : bool :=
  forallb (fun id => match nth_error ts id with
                     | Some t => task_done t
                     | None => true
                     end) ids.

(** The loop runs tasks in the order [sched] until those of [ids] have
    all ended; the caller is still waiting when [sched] runs out first. *)
Fixpoint run_until (ids : list nat) (sched : list nat) : M unit :=
  ts <- gets (fun w => tasks (env w)) ;;
  if all_done ids ts then ret tt
  else
    match sched with
    | [] => blocked
    | id :: rest =>
        around (set_schedule rest) ;;
        task_step id ;;
        run_until ids rest
    end.

(** [await asyncio.wait(ids)] *)
Definition asyncio_wait (ids : list nat) : M unit :=
  suspend ;;
  sched <- gets (fun w => schedule (env w)) ;;
  run_until ids sched.

(** [await task] *)
Definition await_task (id : nat) : M unit :=
  asyncio_wait [id] ;;
  t <- task_at id ;;
  match option_map phase t with
  | Some (Crashed e) => raise e
  | Some CancelledEarly => raise CancelledError
  | _ => ret tt
  end.

(* ------------------------------------------------------------------ *)
(** ** Logout *)

(** [try: task.cancel() except asyncio.CancelledError: LOG.debug(...); await task] *)
Definition cancel_task (id : nat) (message : string) : M unit :=
  try_except
    (task_cancel id ;; ret tt)
    (fun e =>
       match e with
       | CancelledError => Some (LOG DEBUG message ;; await_task id)
       | _ => None
       end).

(** The loop wakes a task whose handle the coroutine held. *)
Definition wake (handle : option nat) : M unit :=
  match handle with
  | Some t => task_step t
  | None => ret tt
  end.

(** [async_logout].  [cancel()] only asks; the two tasks get their
    [CancelledError] when the coroutine next waits, which is inside its
    request.  Their [except] clauses log and close their own response, and
    the request reads neither, so the loop's turn is taken here at the head
    of the request. *)
Definition async_logout : M unit :=
  emit (Enter InLogout) ;;
  c <- attr _creds ;;
  LOG INFO ("Logging " ++ _username c ++ " out of ADT Pulse")%string ;;
  tt' <- attr _timeout_task ;;
  match tt' with
  | Some t => cancel_task t "Pulse timeout task successfully cancelled"
  | None => ret tt
  end ;;
  st <- attr _sync_task ;;
  match st with
  | Some t => cancel_task t "Pulse sync check task successfully cancelled"
  | None => ret tt
  end ;;
  assign (set_timeout_task None) ;;
  assign (set_sync_task None) ;;
  wake tt' ;;
  wake st ;;
  _async_query (ADT_LOGOUT_URI K) "GET" None None true 10%Z ;;
  s <- attr _session ;;
  match s with
  | Some s =>
      if session_closed s then ret tt
      else
        suspend ;;
        assign (set_session (Some {| headers := headers s; session_closed := true |}))
  | None => ret tt
  end ;;
  now <- time_time ;;
  assign (set_last_timeout_reset now) ;;
  a <- attr _authenticated ;;
  match a with
  | Some _ => assign (set_authenticated (Some false))
  | None => ret tt
  end.

(* ------------------------------------------------------------------ *)
(** ** The synchronous entry points *)

(** [asyncio.run_coroutine_threadsafe(coro, self._loop)]: the coroutine is
    handed to the loop, and a future comes back at once. *)
Definition run_coroutine_threadsafe (coro : Coro) : M unit :=
  l <- attr _loop ;;
  match l with
  | None => raise (AttributeError "'NoneType' object has no attribute 'call_soon_threadsafe'")
  | Some lp =>
      assign (set_loop (Some {| submitted := submitted lp ++ [coro];
                                loop_closed := loop_closed lp |}))
  end.

Definition run_coro (coro : Coro) : M unit :=
  match coro with
  | CoLogin => async_login
  | CoLogout => async_logout
  | CoUpdate => async_update ;; ret tt
  | CoQuery uri method extra_params extra_headers force_login timeout =>
      _async_query uri method extra_params extra_headers force_login timeout ;;
      ret tt
  end.

(** The loop runs what was submitted, in order; an exception stays in the
    future of its coroutine. *)
Fixpoint run_submitted (coros : list Coro) : M unit :=
  match coros with
  | [] => ret tt
  | coro :: rest =>
      try_except (run_coro coro) (fun _ => Some (ret tt)) ;;
      run_submitted rest
  end.

(** [future.result()] on the future of the coroutine submitted last: the
    caller waits while the loop runs the earlier ones and then [mine],
    whose outcome it gets. *)
Definition future_result {A} (mine : M A) : M A :=
  l <- attr _loop ;;
  match l with
  | None => raise (AttributeError "'NoneType' object has no attribute 'result'")
  | Some lp =>
      assign (set_loop (Some {| submitted := []; loop_closed := loop_closed lp |})) ;;
      run_submitted (removelast (submitted lp)) ;;
      mine
  end.

Definition _sync_loop : M unit :=
  async_login ;;
  st <- attr _sync_task ;;
  tt' <- attr _timeout_task ;;
  match st, tt' with
  | Some a, Some b => asyncio_wait [a; b]
  | _, _ => ret tt
  end.

(** [_pulse_session_thread]; [run_until_complete] drives [_sync_loop] to
    its end. *)
Definition _pulse_session_thread : M unit :=
  LOG DEBUG "creating Pulse background thread" ;;
  assign (set_loop (Some {| submitted := []; loop_closed := false |})) ;;
  _sync_loop ;;
  assign (set_loop None) ;;
  assign (set_session_thread None).

(** [login]; [Thread.run()] calls the thread's target in the calling
    thread. *)
Definition login : M unit :=
  lock_acquire ;;
  th <- attr _session_thread ;;
  match th with
  | None =>
      assign (set_session_thread
                (Some {| thread_name := "PyADTPulse Session"; daemon := true |})) ;;
      lock_release ;;
      _pulse_session_thread
  | Some _ =>
      l <- attr _loop ;;
      match l with
      | None => raise AssertionError
      | Some _ =>
          run_coroutine_threadsafe CoLogin ;;
          lock_release
      end
  end.

Definition logout : M unit :=
  l <- attr _loop ;;
  match l with
  | None => raise (RuntimeError "Attempting to call sync logout without sync login")
  | Some _ => run_coroutine_threadsafe CoLogout
  end.

Definition query (uri method : string) (extra_params : option Dict)
           (extra_headers : option Dict) (force_login : bool) (timeout : Z)
  : M (option nat) :=
  l <- attr _loop ;;
  match l with
  | None => raise (RuntimeError "Attempting to run sync query from async login")
  | Some _ =>
      run_coroutine_threadsafe
        (CoQuery uri method extra_params extra_headers force_login timeout) ;;
      future_result
        (_async_query uri method extra_params extra_headers force_login timeout)
  end.

Definition update : M bool :=
  l <- attr _loop ;;
  match l with
  | None => raise (RuntimeError "Attempting to run sync update from async login")
  | Some _ =>
      run_coroutine_threadsafe CoUpdate ;;
      future_result async_update
  end.

(* ------------------------------------------------------------------ *)
(** ** Construction *)

(** The attributes [__init__] sets before it logs in. *)
Definition fresh (creds : Creds) (service_host user_agent : string)
           (websession : option ClientSession) (poll_interval : Time)
           (now : Time) : PyADTPulse Site :=
  {| _session :=
       option_map
         (fun s => {| headers := dict_update (ADT_DEFAULT_HTTP_HEADERS K) (headers s);
                      session_closed := session_closed s |})
         websession;
     _creds := creds;
     _user_agent := user_agent;
     _api_version := ADT_DEFAULT_VERSION K;
     _sync_task := None;
     _timeout_task := None;
     _authenticated := None;
     _updates_exist := None;
     _loop := None;
     _session_thread := None;
     _attribute_lock := 0;
     _last_timeout_reset := now;
     _sync_timestamp := 0%Z;
     _sites := [];
     _api_host := service_host;
     _poll_interval := poll_interval |}.

(** [PyADTPulse(...)] in the environment [v]: the exception of the
    constructor, or the client and what its login left of the
    environment. *)
Definition __init__ (username password fingerprint : option string)
           (service_host user_agent : string)
           (websession : option ClientSession) (do_login : bool)
           (poll_interval : Time) (v : Env) : Res (World Site) :=
  match _init_login_info username password fingerprint with
  | Raise e => Raise e
  | Blocked => Blocked
  | Ok creds =>
      let w := {| self := fresh creds service_host user_agent websession
                                poll_interval (clock v);
                  env := v |} in
      if do_login && match websession with None => true | Some _ => false end
      then
        match login w with
        | (Ok _, w') => Ok w'
        | (Raise e, _) => Raise e
        | (Blocked, _) => Blocked
        end
      else Ok w
  end.

(* ------------------------------------------------------------------ *)
(** ** Everything a client can be made to do *)

Inductive Operation : Type :=
| call_set_service_host (host : string)
| call_make_url (uri : string)
| get_poll_interval
| put_poll_interval (interval : Time)
| get_username
| get_version
| get_loop
| get_is_threaded
| get_sites
| get_updates_exist
| get_is_connected
| call_login
| call_logout
| call_query (uri method : string) (extra_params extra_headers : option Dict)
           (force_login : bool) (timeout : Z)
| call_update
| call_async_login
| call_async_logout
| call_async_query (uri method : string) (extra_params extra_headers : option Dict)
                 (force_login : bool) (timeout : Z)
| call_async_update
| call_wait_for_update
| loop_runs_task (id : nat).

Definition perform (op : Operation) : M unit :=
  match op with
  | call_set_service_host host => set_service_host host
  | call_make_url uri => make_url uri ;; ret tt
  | get_poll_interval => poll_interval ;; ret tt
  | put_poll_interval interval => poll_interval_setter interval
  | get_username => username ;; ret tt
  | get_version => version ;; ret tt
  | get_loop => loop ;; ret tt
  | get_is_threaded => is_threaded ;; ret tt
  | get_sites => sites ;; ret tt
  | get_updates_exist => updates_exist ;; ret tt
  | get_is_connected => is_connected ;; ret tt
  | call_login => login
  | call_logout => logout
  | call_query uri method extra_params extra_headers force_login timeout =>
      query uri method extra_params extra_headers force_login timeout ;; ret tt
  | call_update => update ;; ret tt
  | call_async_login => async_login
  | call_async_logout => async_logout
  | call_async_query uri method extra_params extra_headers force_login timeout =>
      _async_query uri method extra_params extra_headers force_login timeout ;; ret tt
  | call_async_update => async_update ;; ret tt
  | call_wait_for_update => wait_for_update
  | loop_runs_task id => task_step id
  end.


(* ------------------------------------------------------------------ *)
(** ** Observations used in the statements *)

(** The [Accept] header the executor sets, and the address it asks. *)
Definition accept_for (uri : string) : Dict :=
  if Py.str_in uri (ADT_HTTP_REFERER_URIS K)
  then [("Accept", default_accept K)]
  else [("Accept", "*/*")].

Definition url_of (w : World Site) (uri : string) : string :=
  (_api_host (self w) ++ API_PREFIX K ++ _api_version (self w) ++ uri)%string.

(** Does the executor log in before the request? *)
Definition logs_in_first (force_login : bool) (w : World Site) : bool :=
  force_login && negb (is_set (_authenticated (self w))).

(** What the request part logs before the request goes out. *)
Definition announced (uri method : string) (w : World Site) : list Event :=
  [Log DEBUG ("Updating HTTP headers: " ++ dict_repr (accept_for uri))%string;
   Log DEBUG ("Attempting " ++ method ++ " " ++ url_of w uri)%string].

Definition supported (method : string) : Prop := method = "GET" \/ method = "POST".


(** What the request part logs after a good answer. *)
Definition referer_note (uri final : string) : list Event :=
  if Py.str_in uri (ADT_HTTP_REFERER_URIS K) then
    if String.eqb uri (ADT_DEVICE_URI K) then []
    else [Log DEBUG ("Setting Referer to: " ++ final)%string]
  else [].

(** What the request part returns, by the portal's next answer. *)
Definition outcome_of (w : World Site) : option nat :=
  match server (env w) (served (env w)) with
  | Answer st _ _ =>
      if (400 <=? st)%Z then None else Some (List.length (responses (env w)))
  | NoAnswer => None
  end.

(** [asks_from force_login w0 w]: [w] is the world in which [_async_query],
    called in [w0], makes its request: [w0] itself, or what the automatic
    login left of it. *)
Definition asks_from (force_login : bool) (w0 w : World Site) : Prop :=
  if logs_in_first force_login w0 then async_login w0 = (Ok tt, w) else w = w0.

(** Every page made from a response with this body shows the error panel. *)
Definition shows_error (body : string) : Prop :=
  forall r soup,
    text r = body -> ext_make_soup X r = Some soup ->
    soup_warnMsgContents X soup = true.

(** The coroutines entered so far, in order. *)
Fixpoint entries (tr : list Event) : list Entry :=
  match tr with
  | [] => []
  | Enter f :: tr' => f :: entries tr'
  | _ :: tr' => entries tr'
  end.

Definition entry_eqb (a b : Entry) : bool :=
  match a, b with
  | InLogin, InLogin | InLogout, InLogout | InUpdate, InUpdate => true
  | _, _ => false
  end.

(** How often [f] was entered. *)
Definition entered (f : Entry) (w : World Site) : nat :=
  List.length (filter (entry_eqb f) (entries (trace (env w)))).

(** The requests made so far, in order. *)
Fixpoint requests (tr : list Event) : list Event :=
  match tr with
  | [] => []
  | Request m u p h t :: tr' => Request m u p h t :: requests tr'
  | _ :: tr' => requests tr'
  end.

(** Is the response behind a handle closed?  A variable that holds no
    handle has nothing open. *)
Definition released (response : option nat) (w : World Site) : Prop :=
  match response with
  | None => True
  | Some id => closed (nth id (responses (env w)) no_response) = true
  end.

(* ------------------------------------------------------------------ *)
(** * Sync tokens *)

Lemma chars_append s1 s2 :
  Py.chars (s1 ++ s2)%string = Py.chars s1 ++ Py.chars s2.
Proof.
  unfold Py.chars. induction s1 as [|c s1 IH]; cbn; [reflexivity | now rewrite IH].
Qed.

Lemma digits_nilempty d : Forall (fun c => is_digit c = true) (Py.chars (NilEmpty.string_of_uint d)).
Proof. induction d; cbn; constructor; auto. Qed.

Lemma digits_str_of_N n : Forall (fun c => is_digit c = true) (Py.chars (Py.str_of_N n)).
Proof.
  unfold Py.str_of_N, NilZero.string_of_uint.
  destruct (N.to_uint n) eqn:E; try (rewrite <- E; apply digits_nilempty);
    try apply digits_nilempty.
  cbn. constructor; [reflexivity | constructor].
Qed.

Lemma str_of_N_nonempty n : Py.chars (Py.str_of_N n) <> [].
Proof.
  unfold Py.str_of_N, NilZero.string_of_uint.
  destruct (N.to_uint n); cbn; discriminate.
Qed.

Lemma nilempty_inj d d' :
  NilEmpty.string_of_uint d = NilEmpty.string_of_uint d' -> d = d'.
Proof.
  intros H. pose proof (NilEmpty.usu d) as H1. pose proof (NilEmpty.usu d') as H2.
  rewrite H in H1. congruence.
Qed.

Lemma str_of_N_zero n : Py.str_of_N n = "0" <-> n = 0%N.
Proof.
  split.
  - unfold Py.str_of_N, NilZero.string_of_uint. intros H.
    rewrite <- (DecimalN.Unsigned.of_to n).
    destruct (N.to_uint n) eqn:E; try reflexivity;
      try (change "0" with (NilEmpty.string_of_uint (Decimal.D0 Decimal.Nil)) in H;
           apply nilempty_inj in H; rewrite H; reflexivity).
  - intros ->. reflexivity.
Qed.


Definition digits (l : list ascii) : Prop := Forall (fun c => is_digit c = true) l.

(** A run of digits matches [\d+], whatever follows it matching the rest. *)
Lemma plus_digits k ds rest :
  ds <> [] -> digits ds -> (forall p, k p rest = true) ->
  Re.one is_digit (Re.star is_digit k) (ds ++ rest) = true.
Proof.
  intros Hne Hd Hk. destruct ds as [|d ds]; [congruence|]. clear Hne.
  inversion Hd as [|? ? Hd1 Hd2]; subst. cbn [app Re.one]. rewrite Hd1. cbn [andb].
  clear Hd Hd1. revert d. induction ds as [|e ds IH]; intros d.
  - cbn [app]. destruct rest; cbn [Re.star]; rewrite Hk; reflexivity.
  - inversion Hd2 as [|? ? He Hds]; subst. cbn [app Re.star]. rewrite He. cbn [andb].
    rewrite (IH Hds). apply orb_true_r.
Qed.

Lemma token_chars a b c :
  Py.chars (token a b c)
  = Py.chars (Py.str_of_N a) ++ "-"%char :: Py.chars (Py.str_of_N b)
      ++ "-"%char :: Py.chars (Py.str_of_N c).
Proof. unfold token. rewrite !chars_append. reflexivity. Qed.

Lemma digits_rev l : digits l -> digits (rev l).
Proof. apply Forall_rev. Qed.

(** Reading a digit run backwards up to the dash before it: it is ["0"]
    exactly when a [0] and then the dash are read. *)
Lemma zero_then_dash ds k rest :
  ds <> [] -> digits ds ->
  Py.starts_with ("0"%char :: "-"%char :: k) (rev ds ++ "-"%char :: rest)
  = (if list_eq_dec ascii_dec ds ["0"%char] then Py.starts_with k rest else false).
Proof.
  intros Hne Hd. apply digits_rev in Hd.
  assert (Hne' : rev ds <> []).
  { intros H. apply Hne. rewrite <- (rev_involutive ds), H. reflexivity. }
  destruct (rev ds) as [|x [|y l]] eqn:E; [congruence| |].
  - assert (Hds : ds = [x]) by (rewrite <- (rev_involutive ds), E; reflexivity).
    subst ds. cbn [app Py.starts_with].
    destruct (list_eq_dec ascii_dec [x] ["0"%char]) as [H|H].
    + injection H as ->. reflexivity.
    + destruct (Ascii.eqb "0" x) eqn:Ex; [|reflexivity].
      apply Ascii.eqb_eq in Ex. subst x. congruence.
  - assert (Hds : ds = rev l ++ [y; x]).
    { rewrite <- (rev_involutive ds), E. cbn. rewrite <- !app_assoc. reflexivity. }
    destruct (list_eq_dec ascii_dec ds ["0"%char]) as [H|H].
    + rewrite H in Hds. destruct (rev l) as [|? [|? ?]]; discriminate.
    + cbn [app Py.starts_with].
      inversion Hd as [|? ? _ Hd']; subst. inversion Hd' as [|? ? Hy _]; subst.
      destruct (Ascii.eqb "-" y) eqn:Ey.
      * apply Ascii.eqb_eq in Ey. subst y. discriminate.
      * rewrite andb_false_r. reflexivity.
Qed.

(** The token ends in [-0-0] exactly when its last two integers are zero. *)
Lemma token_endswith a b c :
  Py.endswith (token a b c) "-0-0" = ((b =? 0)%N && (c =? 0)%N)%bool.
Proof.
  unfold Py.endswith. rewrite token_chars.
  change (rev (Py.chars "-0-0")) with ["0"%char; "-"%char; "0"%char; "-"%char].
  rewrite rev_app_distr. cbn [rev]. rewrite rev_app_distr. cbn [rev].
  rewrite <- !app_assoc. cbn [app].
  rewrite zero_then_dash by (apply str_of_N_nonempty || apply digits_str_of_N).
  destruct (list_eq_dec ascii_dec (Py.chars (Py.str_of_N c)) ["0"%char]) as [Hc|Hc].
  - assert (Hc0 : c = 0%N).
    { apply str_of_N_zero. rewrite <- (string_of_list_ascii_of_string (Py.str_of_N c)).
      unfold Py.chars in Hc. rewrite Hc. reflexivity. }
    subst c. rewrite andb_true_r.
    rewrite zero_then_dash by (apply str_of_N_nonempty || apply digits_str_of_N).
    destruct (list_eq_dec ascii_dec (Py.chars (Py.str_of_N b)) ["0"%char]) as [Hb|Hb].
    + assert (Hb0 : b = 0%N).
      { apply str_of_N_zero. rewrite <- (string_of_list_ascii_of_string (Py.str_of_N b)).
        unfold Py.chars in Hb. rewrite Hb. reflexivity. }
      subst b. reflexivity.
    + destruct (N.eqb_spec b 0) as [->|]; [|reflexivity].
      exfalso. apply Hb. reflexivity.
  - destruct (N.eqb_spec c 0) as [->|]; [|symmetry; apply andb_false_r].
    exfalso. apply Hc. reflexivity.
Qed.


(* ------------------------------------------------------------------ *)
(** * Reasoning about coroutines *)

(** [keeps I m]: running [m] keeps the invariant [I], whatever the outcome. *)
Definition keeps {A} (I : World Site -> Prop) (m : M A) : Prop :=
  forall w, I w -> I (snd (m w)).

Lemma keeps_ret {A} I (a : A) : keeps I (ret a).
Proof. intros w H; exact H. Qed.

Lemma keeps_raise {A} I e : keeps I (@raise A e).
Proof. intros w H; exact H. Qed.

Lemma keeps_blocked {A} I : keeps I (@blocked A).
Proof. intros w H; exact H. Qed.

Lemma keeps_gets {A} I (f : World Site -> A) : keeps I (gets f).
Proof. intros w H; exact H. Qed.

Lemma keeps_attr {A} I (f : PyADTPulse Site -> A) : keeps I (attr f).
Proof. intros w H; exact H. Qed.

Lemma keeps_bind {A B} I (m : M A) (f : A -> M B) :
  keeps I m -> (forall a, keeps I (f a)) -> keeps I (bind m f).
Proof.
  intros Hm Hf w H. unfold bind.
  specialize (Hm w H). destruct (m w) as [[a|e|] w1]; cbn in *; auto.
  apply Hf; exact Hm.
Qed.

Lemma keeps_try_except {A} I (body : M A) handler :
  keeps I body ->
  (forall e h, handler e = Some h -> keeps I h) ->
  keeps I (try_except body handler).
Proof.
  intros Hb Hh w H. unfold try_except.
  specialize (Hb w H). destruct (body w) as [[a|e|] w1]; cbn in *; auto.
  destruct (handler e) as [h|] eqn:E; cbn; auto.
  apply (Hh e h E); exact Hb.
Qed.

Lemma keeps_try_finally {A} I (body : M A) cleanup :
  keeps I body -> keeps I cleanup -> keeps I (try_finally body cleanup).
Proof.
  intros Hb Hc w H. unfold try_finally.
  specialize (Hb w H). destruct (body w) as [r w1]; cbn in *.
  specialize (Hc w1 Hb). destruct (cleanup w1) as [[a|e|] w2]; cbn in *; auto.
Qed.

Lemma keeps_for_each I (f : nat -> M unit) ids :
  (forall id, keeps I (f id)) -> keeps I (for_each f ids).
Proof.
  intros Hf. induction ids as [|id rest IH]; cbn [for_each].
  - apply keeps_ret.
  - apply keeps_bind; [apply Hf | intros _; exact IH].
Qed.

Create HintDb keeps discriminated.

#[local] Hint Resolve keeps_ret keeps_raise keeps_blocked keeps_gets keeps_attr : keeps.

Ltac head_of m :=
  lazymatch m with
  | ?f _ => head_of f
  | _ => m
  end.

(** One step through the structure of a coroutine: a lemma already proved,
    a combinator, a case distinction, or the definition of its head. *)
Ltac keeps_step :=
  lazymatch goal with
  | |- keeps _ (bind _ _) => apply keeps_bind; [| intro]
  | |- keeps _ (try_except _ _) =>
      apply keeps_try_except;
      [| let e := fresh "e" in let h := fresh "h" in let E := fresh "E" in
         intros e h E; destruct e; cbn in E; inversion E; subst; clear E]
  | |- keeps _ (try_finally _ _) => apply keeps_try_finally
  | |- keeps _ (for_each _ _) => apply keeps_for_each; intro
  | |- keeps _ (match ?x with _ => _ end) => destruct x
  | |- keeps _ ((match ?x with _ => _ end) _) => destruct x
  | |- keeps _ (assign _) =>
      let w := fresh "w" in let H := fresh "H" in
      intros w H; autounfold with keeps in *; cbn in *; try assumption
  | |- keeps _ (around _) =>
      let w := fresh "w" in let H := fresh "H" in
      intros w H; autounfold with keeps in *; cbn in *; try assumption
  | |- keeps _ (let _ := _ in _) => cbv zeta
  | |- keeps _ ?m =>
      first [ solve [auto with keeps]
            | let h := head_of m in unfold h ]
  end.

Ltac keeps_auto := repeat keeps_step.

(** The credentials are what [c] says. *)
Definition same_creds (c : Creds) (w : World Site) : Prop :=
  _creds (self w) = c.

#[local] Hint Unfold same_creds : keeps.

(** [runs J E m]: from a world in [J], [m] ends in [J] with a value or with
    an exception of [E]; it does not stay blocked. *)
Definition fine {A} (E : Exn -> Prop) (r : Res A) : Prop :=
  match r with
  | Ok _ => True
  | Raise e => E e
  | Blocked => False
  end.

Definition good {A} (J : World Site -> Prop) (E : Exn -> Prop)
           (p : Res A * World Site) : Prop :=
  J (snd p) /\ fine E (fst p).

Definition runs {A} (J : World Site -> Prop) (E : Exn -> Prop) (m : M A) : Prop :=
  forall w, J w -> good J E (m w).

Lemma good_bind {A B} J E (m : M A) (f : A -> M B) w :
  good J E (m w) ->
  (forall a w1, J w1 -> good J E (f a w1)) ->
  good J E (bind m f w).
Proof.
  unfold good, bind. intros [HJ Hr] Hf.
  destruct (m w) as [[a|e|] w1]; cbn in *; auto.
Qed.

Lemma good_bind_gets {A B} J E (g : World Site -> A) (f : A -> M B) w :
  good J E (f (g w) w) -> good J E (bind (gets g) f w).
Proof. exact (fun H => H). Qed.

Lemma good_bind_attr {A B} J E (g : PyADTPulse Site -> A) (f : A -> M B) w :
  good J E (f (g (self w)) w) -> good J E (bind (attr g) f w).
Proof. exact (fun H => H). Qed.

Lemma good_ret {A} J E (a : A) w : J w -> good J E (ret a w).
Proof. intro H; split; [exact H | exact I]. Qed.

Lemma good_raise {A} J (E : Exn -> Prop) e w : J w -> E e -> good J E (@raise A e w).
Proof. intros H He; split; [exact H | exact He]. Qed.

Lemma good_weaken {A} J (E E' : Exn -> Prop) (p : Res A * World Site) :
  good J E p -> (forall e, E e -> E' e) -> good J E' p.
Proof.
  unfold good. intros [HJ Hr] HE. split; [exact HJ|].
  destruct (fst p); cbn in *; auto.
Qed.

(** The body of a [try] may raise what the handler takes, besides [E]. *)
Lemma good_try_except {A} J (E : Exn -> Prop) (body : M A) handler w :
  good J (fun e => E e \/ handler e <> None) (body w) ->
  (forall e h w1, handler e = Some h -> J w1 -> good J E (h w1)) ->
  good J E (try_except body handler w).
Proof.
  unfold good, try_except. intros [HJ Hr] Hh.
  destruct (body w) as [[a|e|] w1]; cbn in *; auto.
  destruct (handler e) as [h|] eqn:Eh.
  - apply (Hh e h w1 Eh HJ).
  - cbn. split; [exact HJ|]. destruct Hr as [Hr|Hr]; [exact Hr | congruence].
Qed.

Lemma good_try_finally {A} J (E : Exn -> Prop) (body : M A) cleanup w :
  good J E (body w) ->
  (forall w1, J w1 -> good J E (cleanup w1)) ->
  good J E (try_finally body cleanup w).
Proof.
  unfold good, try_finally. intros [HJ Hr] Hc.
  destruct (body w) as [r w1]; cbn in *.
  destruct (Hc w1 HJ) as [HJ2 Hr2].
  destruct (cleanup w1) as [[a|e|] w2]; cbn in *; auto.
Qed.

Lemma good_for_each J E (f : nat -> M unit) ids w :
  (forall id w1, J w1 -> good J E (f id w1)) ->
  J w -> good J E (for_each f ids w).
Proof.
  intros Hf. revert w. induction ids as [|id rest IH]; intros w HJ; cbn [for_each].
  - split; [exact HJ | exact I].
  - apply good_bind; [apply Hf; exact HJ | intros _ w1 H1; apply IH; exact H1].
Qed.

(** Worlds in which no cancellation is pending, in which besides a session
    exists, and in which besides the authenticated event exists. *)
Definition calm (w : World Site) : Prop := cancel_in (env w) = None.

Definition wired (w : World Site) : Prop :=
  cancel_in (env w) = None /\ _session (self w) <> None.

Definition signing (w : World Site) : Prop :=
  cancel_in (env w) = None /\ _session (self w) <> None
  /\ _authenticated (self w) <> None.

Definition never (e : Exn) : Prop := False.

(** What [_initialize_sites] raises on a page that names the site and has
    no sign-out link. *)
Definition no_signout_link : Exn :=
  AttributeError "'NoneType' object has no attribute 'get'".

Definition page_lookup (e : Exn) : Prop := e = no_signout_link.

Definition not_cancelled (e : Exn) : Prop := e <> CancelledError.

(** The properties that only read: they give the attribute and leave the
    client as it was, lock included. *)
Lemma is_threaded_eq w :
  is_threaded w
  = (Ok (match _loop (self w) with Some _ => true | None => false end), w).
Proof. destruct w as [[] v]. reflexivity. Qed.

Ltac unfold_reads :=
  unfold is_connected, make_url, version, poll_interval, is_threaded,
    with_lock, try_finally, lock_acquire, lock_release, assign, attr, gets,
    ret, bind, on_self.

Lemma version_eq w : version w = (Ok (_api_version (self w)), w).
Proof. destruct w as [[] v]. unfold_reads. cbn. destruct _loop0; reflexivity. Qed.

Lemma make_url_eq uri w : make_url uri w = (Ok (url_of w uri), w).
Proof. destruct w as [[] v]. unfold_reads. cbn. destruct _loop0; reflexivity. Qed.

Lemma poll_interval_eq w : poll_interval w = (Ok (_poll_interval (self w)), w).
Proof. destruct w as [[] v]. unfold_reads. cbn. destruct _loop0; reflexivity. Qed.

Lemma is_connected_eq w :
  is_connected w = (Ok (is_set (_authenticated (self w))), w).
Proof.
  destruct w as [[] v]. unfold_reads. cbn.
  destruct _loop0, _authenticated0; reflexivity.
Qed.


Lemma good_bind_eq {A B} J E (m : M A) (f : A -> M B) w a :
  m w = (Ok a, w) -> good J E (f a w) -> good J E (bind m f w).
Proof. intros H G. unfold bind. rewrite H. exact G. Qed.

Lemma good_eq {A} J E (m : M A) w a :
  m w = (Ok a, w) -> J w -> good J E (m w).
Proof. intros H G. rewrite H. split; [exact G | exact I]. Qed.

Ltac close_side :=
  cbn in *; rewrite ?Z.add_0_r;
  try solve [ exact I
            | assumption
            | reflexivity
            | discriminate
            | congruence
            | intuition (try discriminate; try congruence; auto) ].

(** Calls whose lemma is used instead of their definition. *)
Ltac run_lemma := fail.

Ltac run_step :=
  first [ run_lemma |
  lazymatch goal with
  | |- good _ _ (bind (gets _) _ _) => apply good_bind_gets
  | |- good _ _ (bind (attr _) _ _) => apply good_bind_attr
  | |- good _ _ (bind time_time _ _) => apply good_bind_gets
  | |- good _ _ (bind is_threaded _ _) => apply (good_bind_eq _ _ _ _ _ _ (is_threaded_eq _))
  | |- good _ _ (bind version _ _) => apply (good_bind_eq _ _ _ _ _ _ (version_eq _))
  | |- good _ _ (bind (make_url _) _ _) => apply (good_bind_eq _ _ _ _ _ _ (make_url_eq _ _))
  | |- good _ _ (bind poll_interval _ _) => apply (good_bind_eq _ _ _ _ _ _ (poll_interval_eq _))
  | |- good _ _ (bind is_connected _ _) => apply (good_bind_eq _ _ _ _ _ _ (is_connected_eq _))
  | |- good _ _ (make_url _ _) => apply (good_eq _ _ _ _ _ (make_url_eq _ _)); close_side
  | |- good _ _ (is_connected _) => apply (good_eq _ _ _ _ _ (is_connected_eq _)); close_side
  | |- good _ _ (bind _ _ _) =>
      apply good_bind;
      [| let a := fresh "a" in let w := fresh "w" in let H := fresh "HJ" in
         intros a w H]
  | |- good _ _ (try_except _ _ _) =>
      apply good_try_except;
      [| let e := fresh "e" in let h := fresh "h" in let w := fresh "w" in
         let E := fresh "E" in let H := fresh "HJ" in
         intros e h w E H; destruct e; cbn in E; inversion E; subst; clear E]
  | |- good _ _ (try_finally _ _ _) =>
      apply good_try_finally;
      [| let w := fresh "w" in let H := fresh "HJ" in intros w H]
  | |- good _ _ (for_each _ _ _) =>
      apply good_for_each;
      [ let id := fresh "id" in let w := fresh "w" in let H := fresh "HJ" in
        intros id w H
      | close_side ]
  | |- good _ _ (ret _ _) => apply good_ret; close_side
  | |- good _ _ (raise _ _) => apply good_raise; close_side
  | |- good _ _ (assign _ _) => split; close_side
  | |- good _ _ (around _ _) => split; close_side
  | |- good _ _ (gets _ _) => split; close_side
  | |- good _ _ (attr _ _) => split; close_side
  | |- good _ _ (blocked _) => exfalso; close_side
  | |- good _ _ ((match ?x with _ => _ end) _) =>
      let E := fresh "E" in destruct x eqn:E; try solve [exfalso; close_side]
  | |- good _ _ ((let _ := _ in _) _) => cbv zeta
  | |- good _ _ (?m _) => let h := head_of m in unfold h
  end ].

Ltac run_auto := repeat run_step.


(* ------------------------------------------------------------------ *)
(** * The credentials *)

Lemma creds_task_step c id : keeps (same_creds c) (task_step id).
Proof. keeps_auto. Qed.

#[local] Hint Resolve creds_task_step : keeps.

Lemma creds_run_until c ids sched : keeps (same_creds c) (run_until ids sched).
Proof.
  induction sched as [|id rest IH]; cbn [run_until]; keeps_auto.
Qed.

#[local] Hint Resolve creds_run_until : keeps.

Lemma creds_run_submitted c coros : keeps (same_creds c) (run_submitted coros).
Proof.
  induction coros as [|coro rest IH]; cbn [run_submitted]; keeps_auto.
Qed.

#[local] Hint Resolve creds_run_submitted : keeps.

Lemma creds_perform c op : keeps (same_creds c) (perform op).
Proof. destruct op; keeps_auto. Qed.

Lemma init_login_info_raises username password fingerprint :
  Py.truthy username = false
  \/ (exists u, username = Some u /\ re_match email_pattern u = false)
  \/ Py.truthy password = false
  \/ Py.truthy fingerprint = false ->
  exists msg, _init_login_info username password fingerprint = Raise (ValueError msg).
Proof.
  intros H. unfold _init_login_info.
  destruct username as [[|a u]|]; try (eexists; reflexivity).
  destruct (re_match email_pattern (String a u)) eqn:Em; cbn [negb];
    try (eexists; reflexivity).
  destruct password as [[|b p]|]; try (eexists; reflexivity).
  destruct fingerprint as [[|d f]|]; try (eexists; reflexivity).
  exfalso. destruct H as [H|[[u' [Hu Hm]]|[H|H]]]; try discriminate H.
  injection Hu as <-. congruence.
Qed.

Lemma init_login_info_stores u p f :
  u <> "" -> re_match email_pattern u = true -> p <> "" -> f <> "" ->
  _init_login_info (Some u) (Some p) (Some f)
  = Ok {| _username := u; _password := p; _fingerprint := f |}.
Proof.
  intros Hu Hm Hp Hf. unfold _init_login_info.
  destruct u as [|a u]; [congruence|]. rewrite Hm. cbn [negb].
  destruct p as [|b p]; [congruence|].
  destruct f as [|d f]; [congruence|]. reflexivity.
Qed.


(* ------------------------------------------------------------------ *)
(** * Before the first login *)

(** C10. On a client whose updates-pending event does not exist yet, the
    [updates_exist] property answers [False] and leaves the client as it
    was, and [wait_for_update] raises [RuntimeError]. *)
Theorem updates_exist_before_login (w : World Site) :
  _updates_exist (self w) = None ->
  updates_exist w = (Ok false, w)
  /\ wait_for_update w = (Raise (RuntimeError "Update event does not exist"), w).
Proof.
  intros H. destruct w as [o v]. destruct o. cbn in H. subst.
  split.
  - unfold updates_exist, is_threaded, with_lock, try_finally, lock_acquire,
      lock_release, assign, attr, gets, ret, bind. cbn.
    destruct _loop0; reflexivity.
  - reflexivity.
Qed.


(* ------------------------------------------------------------------ *)
(** * What single calls do

    [wp m w Q]: the outcome of [m] from [w], and the world it leaves,
    satisfy [Q].  A call is followed statement by statement with the rules
    below. *)

Definition wp {A} (m : M A) (w : World Site)
           (Q : Res A -> World Site -> Prop) : Prop :=
  Q (fst (m w)) (snd (m w)).

Definition after {A B} (f : A -> M B) (Q : Res B -> World Site -> Prop)
  : Res A -> World Site -> Prop :=
  fun r w =>
    match r with
    | Ok a => wp (f a) w Q
    | Raise e => Q (Raise e) w
    | Blocked => Q Blocked w
    end.

Definition caught {A} (handler : Exn -> option (M A))
           (Q : Res A -> World Site -> Prop) : Res A -> World Site -> Prop :=
  fun r w =>
    match r with
    | Raise e =>
        match handler e with
        | Some h => wp h w Q
        | None => Q (Raise e) w
        end
    | other => Q other w
    end.

Definition cleaned {A} (cleanup : M unit) (Q : Res A -> World Site -> Prop)
  : Res A -> World Site -> Prop :=
  fun r w =>
    wp cleanup w
       (fun c w' =>
          match c with
          | Ok _ => Q r w'
          | Raise e => Q (Raise e) w'
          | Blocked => Q Blocked w'
          end).

Lemma wp_bind {A B} (m : M A) (f : A -> M B) w Q :
  wp m w (after f Q) -> wp (bind m f) w Q.
Proof.
  unfold wp, after, bind. destruct (m w) as [[a|e|] w1]; cbn; auto.
Qed.

Lemma wp_try_except {A} (body : M A) handler w Q :
  wp body w (caught handler Q) -> wp (try_except body handler) w Q.
Proof.
  unfold wp, caught, try_except. destruct (body w) as [[a|e|] w1]; cbn; auto.
  destruct (handler e); cbn; auto.
Qed.

Lemma wp_try_finally {A} (body : M A) cleanup w Q :
  wp body w (cleaned cleanup Q) -> wp (try_finally body cleanup) w Q.
Proof.
  unfold wp, cleaned, try_finally. destruct (body w) as [r w1]; cbn.
  unfold wp. destruct (cleanup w1) as [[a|e|] w2]; cbn; exact (fun H => H).
Qed.

Lemma wp_ret {A} (a : A) w (Q : Res A -> World Site -> Prop) :
  Q (Ok a) w -> wp (ret a) w Q.
Proof. exact (fun H => H). Qed.

Lemma wp_raise {A} e w (Q : Res A -> World Site -> Prop) :
  Q (Raise e) w -> wp (raise e) w Q.
Proof. exact (fun H => H). Qed.

Lemma wp_blocked {A} w (Q : Res A -> World Site -> Prop) :
  Q Blocked w -> wp blocked w Q.
Proof. exact (fun H => H). Qed.

Lemma wp_gets {A} (g : World Site -> A) w (Q : Res A -> World Site -> Prop) :
  Q (Ok (g w)) w -> wp (gets g) w Q.
Proof. exact (fun H => H). Qed.

Lemma wp_attr {A} (g : PyADTPulse Site -> A) w (Q : Res A -> World Site -> Prop) :
  Q (Ok (g (self w))) w -> wp (attr g) w Q.
Proof. exact (fun H => H). Qed.

Lemma wp_assign f w (Q : Res unit -> World Site -> Prop) :
  Q (Ok tt) (on_self f w) -> wp (assign f) w Q.
Proof. exact (fun H => H). Qed.

Lemma wp_around f w (Q : Res unit -> World Site -> Prop) :
  Q (Ok tt) (on_env f w) -> wp (around f) w Q.
Proof. exact (fun H => H). Qed.

Lemma wp_eq {A} (m : M A) w r w1 (Q : Res A -> World Site -> Prop) :
  m w = (r, w1) -> Q r w1 -> wp m w Q.
Proof. unfold wp. intros ->. exact (fun H => H). Qed.

Lemma wp_conseq {A} (m : M A) w (P Q : Res A -> World Site -> Prop) :
  wp m w P -> (forall r w1, P r w1 -> Q r w1) -> wp m w Q.
Proof. unfold wp. intros H HPQ. apply HPQ, H. Qed.

Lemma wp_remember {A} (m : M A) w (Q : Res A -> World Site -> Prop) :
  (forall r w1, m w = (r, w1) -> Q r w1) -> wp m w Q.
Proof. intros H. unfold wp. apply H. destruct (m w); reflexivity. Qed.

Lemma wp_inv {A} (m : M A) w r w1 (Q : Res A -> World Site -> Prop) :
  wp m w Q -> m w = (r, w1) -> Q r w1.
Proof. unfold wp. intros H E. rewrite E in H. exact H. Qed.

Lemma closed_after_close id rs :
  closed (nth id (update_nth id mark_closed rs) no_response) = true.
Proof.
  revert id. induction rs as [|r rs IH]; intros [|id]; cbn; auto.
Qed.

Lemma nth_snoc {A} (l : list A) (x d : A) : nth (List.length l) (l ++ [x]) d = x.
Proof. induction l as [|y l IH]; cbn; auto. Qed.

Lemma update_nth_snoc {A} (l : list A) (x : A) (f : A -> A) :
  update_nth (List.length l) f (l ++ [x]) = l ++ [f x].
Proof. induction l as [|y l IH]; cbn; [reflexivity | now rewrite IH]. Qed.

(** Attributes of a changed world, read through the change. *)
Ltac look :=
  cbn [self env on_self on_env
       _session _creds _user_agent _api_version _sync_task _timeout_task
       _authenticated _updates_exist _loop _session_thread _attribute_lock
       _last_timeout_reset _sync_timestamp _sites _api_host _poll_interval
       set_session set_api_version set_sync_task set_timeout_task
       set_authenticated set_updates_exist set_loop set_session_thread
       set_attribute_lock set_last_timeout_reset set_sync_timestamp set_sites
       set_api_host set_poll_interval
       server served clock responses tasks trace cancel_in schedule
       set_served set_clock set_responses set_tasks set_trace set_cancel_in
       set_schedule] in *.

Ltac settle := cbv beta iota delta [after caught cleaned].

(** One statement further. *)
(** Calls that are followed by their lemmas, not by their definitions. *)
Ltac lemma_call m :=
  lazymatch m with
  | _async_fetch_version => idtac
  | _async_query_request _ _ _ _ _ => idtac
  | _async_query _ _ _ _ _ _ => idtac
  | async_login => idtac
  | async_update => idtac
  | make_soup _ _ _ => idtac
  | _update_sites _ => idtac
  | sync_check_poll => idtac
  | sync_check_react _ => idtac
  | task_first_run _ => idtac
  end.

Ltac wp_step :=
  lazymatch goal with
  | |- wp (bind ?m _) _ _ => tryif lemma_call m then fail else apply wp_bind
  | |- wp (try_except ?m _) _ _ =>
      tryif lemma_call m then fail else apply wp_try_except
  | |- wp (try_finally _ _) _ _ => apply wp_try_finally
  | |- wp (ret _) _ _ => apply wp_ret; settle
  | |- wp (raise _) _ _ => apply wp_raise; settle
  | |- wp blocked _ _ => apply wp_blocked; settle
  | |- wp (gets _) _ _ => apply wp_gets; settle
  | |- wp (attr _) _ _ => apply wp_attr; settle
  | |- wp (assign _) _ _ => apply wp_assign; settle
  | |- wp (around _) _ _ => apply wp_around; settle
  | |- wp (make_url _) _ _ => apply (wp_eq _ _ _ _ _ (make_url_eq _ _)); settle
  | |- wp version _ _ => apply (wp_eq _ _ _ _ _ (version_eq _)); settle
  | |- wp poll_interval _ _ => apply (wp_eq _ _ _ _ _ (poll_interval_eq _)); settle
  | |- wp is_connected _ _ => apply (wp_eq _ _ _ _ _ (is_connected_eq _)); settle
  | |- wp is_threaded _ _ => apply (wp_eq _ _ _ _ _ (is_threaded_eq _)); settle
  | |- wp (let _ := _ in _) _ _ => cbv zeta
  | |- wp (match ?x with _ => _ end) _ _ => fail
  | |- wp ?m _ _ =>
      tryif lemma_call m then fail else (let h := head_of m in unfold h)
  end.

Ltac wp_run := repeat (wp_step; look).


Lemma wp_and {A} (m : M A) w (P Q : Res A -> World Site -> Prop) :
  wp m w P -> wp m w Q -> wp m w (fun r w' => P r w' /\ Q r w').
Proof. unfold wp. auto. Qed.

Lemma wp_keeps {A} (m : M A) w I :
  keeps I m -> I w -> wp m w (fun _ w' => I w').
Proof. unfold wp. intros H Hw. apply H, Hw. Qed.

Lemma wp_runs {A} (m : M A) w J E :
  runs J E m -> J w -> wp m w (fun r w' => J w' /\ fine E r).
Proof. unfold wp. intros H Hw. apply H, Hw. Qed.

Lemma wp_good {A} (m : M A) w J E :
  good J E (m w) -> wp m w (fun r w' => J w' /\ fine E r).
Proof. exact (fun H => H). Qed.

Lemma requests_app tr1 tr2 : requests (tr1 ++ tr2) = requests tr1 ++ requests tr2.
Proof.
  induction tr1 as [|e tr1 IH]; cbn; [reflexivity|].
  destruct e; cbn; rewrite IH; reflexivity.
Qed.

Lemma entries_app tr1 tr2 : entries (tr1 ++ tr2) = entries tr1 ++ entries tr2.
Proof.
  induction tr1 as [|e tr1 IH]; cbn; [reflexivity|].
  destruct e; cbn; rewrite IH; reflexivity.
Qed.

(** ** The request part of the executor, by what the portal does *)

Lemma request_failed uri method extra_params extra_headers timeout w st body final :
  wired w -> supported method ->
  server (env w) (served (env w)) = Answer st body final ->
  (400 <= st)%Z ->
  wp (_async_query_request uri method extra_params extra_headers timeout) w
     (fun r w' =>
        r = Ok None
        /\ served (env w') = S (served (env w))
        /\ trace (env w')
           = trace (env w) ++ announced uri method w ++
             [Request method (url_of w uri) extra_params extra_headers (Some timeout);
              Log ERROR ("Received HTTP error code " ++ Py.str_of_Z st
                           ++ " in request to ADT Pulse")%string]).
Proof.
  intros [Hc Hs] Hm Ho Hst. apply Z.leb_le in Hst.
  unfold _async_query_request. wp_run.
  destruct (_session (self w)) as [s|] eqn:Es; [|congruence].
  wp_run. rewrite Es. wp_run.
  destruct Hm; subst method; cbn [String.eqb Ascii.eqb Bool.eqb];
    (wp_run; rewrite Hc; wp_run; rewrite Ho; wp_run;
     rewrite update_nth_snoc, nth_snoc; cbn [status mark_closed]; rewrite Hst;
     wp_run; unfold announced, accept_for;
     (split; [reflexivity|]); (split; [reflexivity|]);
     rewrite <- !app_assoc; reflexivity).
Qed.

Lemma request_unanswered uri method extra_params extra_headers timeout w :
  wired w -> supported method ->
  server (env w) (served (env w)) = NoAnswer ->
  wp (_async_query_request uri method extra_params extra_headers timeout) w
     (fun r w' =>
        r = Ok None
        /\ served (env w') = S (served (env w))
        /\ trace (env w')
           = trace (env w) ++ announced uri method w ++
             [Request method (url_of w uri) extra_params extra_headers (Some timeout);
              Log ERROR "An exception occurred in request to ADT Pulse"]).
Proof.
  intros [Hc Hs] Hm Ho.
  unfold _async_query_request. wp_run.
  destruct (_session (self w)) as [s|] eqn:Es; [|congruence].
  wp_run. rewrite Es. wp_run.
  destruct Hm; subst method; cbn [String.eqb Ascii.eqb Bool.eqb];
    (wp_run; rewrite Hc; wp_run; rewrite Ho; wp_run;
     unfold announced, accept_for;
     (split; [reflexivity|]); (split; [reflexivity|]);
     rewrite <- !app_assoc; reflexivity).
Qed.

Lemma request_answered uri method extra_params extra_headers timeout w st body final :
  wired w -> supported method ->
  server (env w) (served (env w)) = Answer st body final ->
  (st < 400)%Z ->
  wp (_async_query_request uri method extra_params extra_headers timeout) w
     (fun r w' =>
        r = Ok (Some (List.length (responses (env w))))
        /\ served (env w') = S (served (env w))
        /\ responses (env w')
           = responses (env w) ++
             [{| status := st; text := body; url := final; closed := true |}]
        /\ trace (env w')
           = trace (env w) ++ announced uri method w ++
             [Request method (url_of w uri) extra_params extra_headers (Some timeout)]
             ++ referer_note uri final).
Proof.
  intros [Hc Hs] Hm Ho Hst. apply Z.leb_gt in Hst.
  unfold _async_query_request. wp_run.
  destruct (_session (self w)) as [s|] eqn:Es; [|congruence].
  wp_run. rewrite Es. wp_run.
  destruct Hm; subst method; cbn [String.eqb Ascii.eqb Bool.eqb];
    (wp_run; rewrite Hc; wp_run; rewrite Ho; wp_run;
     rewrite update_nth_snoc, nth_snoc; cbn [status mark_closed]; rewrite Hst;
     wp_run; unfold announced, accept_for, referer_note;
     destruct (Py.str_in uri (ADT_HTTP_REFERER_URIS K));
     [ destruct (String.eqb uri (ADT_DEVICE_URI K)) | ];
     wp_run; rewrite ?update_nth_snoc, ?nth_snoc; cbn [url mark_closed]; wp_run;
     (split; [reflexivity|]); (split; [reflexivity|]); (split; [reflexivity|]);
     rewrite <- ?app_assoc; cbn [app]; rewrite ?app_nil_r; reflexivity).
Qed.


Lemma bind_run {A B} (m : M A) (f : A -> M B) w a w1 :
  m w = (Ok a, w1) -> bind m f w = f a w1.
Proof. intros H; unfold bind; now rewrite H. Qed.

(** Without the automatic login, [_async_query] is its request part; with
    it, the login comes first and the request part follows. *)
Lemma async_query_direct uri method extra_params extra_headers force_login timeout w :
  logs_in_first force_login w = false ->
  _async_query uri method extra_params extra_headers force_login timeout w
  = _async_query_request uri method extra_params extra_headers timeout w.
Proof.
  unfold logs_in_first, _async_query. intros H.
  destruct force_login; cbn in H.
  - rewrite (bind_run _ _ w _ w (bind_run _ _ w _ w (is_connected_eq w))).
    unfold ret at 1. rewrite H. reflexivity.
  - reflexivity.
Qed.

Lemma async_query_relogin uri method extra_params extra_headers force_login timeout w :
  logs_in_first force_login w = true ->
  _async_query uri method extra_params extra_headers force_login timeout w
  = (async_login ;;
     _async_query_request uri method extra_params extra_headers timeout) w.
Proof.
  unfold logs_in_first, _async_query. intros H.
  destruct force_login; cbn in H; [|discriminate].
  rewrite (bind_run _ _ w _ w (bind_run _ _ w _ w (is_connected_eq w))).
  unfold ret at 1. rewrite H. reflexivity.
Qed.

Lemma requests_announced uri method w : requests (announced uri method w) = [].
Proof. reflexivity. Qed.

Lemma requests_referer_note uri final : requests (referer_note uri final) = [].
Proof.
  unfold referer_note.
  destruct (Py.str_in uri (ADT_HTTP_REFERER_URIS K)); [|reflexivity].
  destruct (String.eqb uri (ADT_DEVICE_URI K)); reflexivity.
Qed.

(** The request part makes one request, and the portal's answer to it
    decides what it returns. *)
Lemma request_once uri method extra_params extra_headers timeout w :
  wired w -> supported method ->
  wp (_async_query_request uri method extra_params extra_headers timeout) w
     (fun r w' =>
        r = Ok (outcome_of w)
        /\ served (env w') = S (served (env w))
        /\ requests (trace (env w'))
           = requests (trace (env w)) ++
             [Request method (url_of w uri) extra_params extra_headers (Some timeout)]).
Proof.
  intros Hw Hm. unfold outcome_of.
  destruct (server (env w) (served (env w))) as [st body final|] eqn:Ho.
  - destruct (400 <=? st)%Z eqn:Hst.
    + apply Z.leb_le in Hst.
      eapply wp_conseq; [exact (request_failed _ _ _ _ _ _ _ _ _ Hw Hm Ho Hst)|].
      intros r w1 (Hr & Hn & Ht). repeat split; auto.
      rewrite Ht, !requests_app, requests_announced. reflexivity.
    + apply Z.leb_gt in Hst.
      eapply wp_conseq; [exact (request_answered _ _ _ _ _ _ _ _ _ Hw Hm Ho Hst)|].
      intros r w1 (Hr & Hn & _ & Ht). repeat split; auto.
      rewrite Ht, !requests_app, requests_announced, requests_referer_note.
      cbn [requests app]. rewrite ?app_nil_r. reflexivity.
  - eapply wp_conseq; [exact (request_unanswered _ _ _ _ _ _ Hw Hm Ho)|].
    intros r w1 (Hr & Hn & Ht). repeat split; auto.
    rewrite Ht, !requests_app, requests_announced. reflexivity.
Qed.

Lemma async_query_from uri method extra_params extra_headers force_login timeout w0 w :
  asks_from force_login w0 w ->
  _async_query uri method extra_params extra_headers force_login timeout w0
  = _async_query_request uri method extra_params extra_headers timeout w.
Proof.
  unfold asks_from. destruct (logs_in_first force_login w0) eqn:Hl; intros H.
  - rewrite (async_query_relogin _ _ _ _ _ _ _ Hl).
    exact (bind_run async_login
             (fun _ => _async_query_request uri method extra_params extra_headers timeout)
             w0 tt w H).
  - subst w. apply async_query_direct, Hl.
Qed.

(** C8, as the code has it.  Whatever error status the portal answers with
    (400 or above, in [RECOVERABLE_ERRORS] or not), the executor writes the
    same single [ERROR] record naming the status, returns no response, and
    has made the request once. *)
Theorem error_status_logged_at_error_and_not_retried
        uri method extra_params extra_headers force_login timeout w0 w st body final :
  asks_from force_login w0 w ->
  wired w ->
  supported method ->
  server (env w) (served (env w)) = Answer st body final ->
  (400 <= st)%Z ->
  let out :=
    _async_query uri method extra_params extra_headers force_login timeout w0 in
  fst out = Ok None
  /\ served (env (snd out)) = S (served (env w))
  /\ trace (env (snd out))
     = trace (env w) ++ announced uri method w ++
       [Request method (url_of w uri) extra_params extra_headers (Some timeout);
        Log ERROR ("Received HTTP error code " ++ Py.str_of_Z st
                     ++ " in request to ADT Pulse")%string].
Proof.
  intros Hfrom Hw Hm Ho Hst. cbv zeta.
  rewrite (async_query_from _ _ _ _ _ _ _ _ Hfrom).
  exact (request_failed uri method extra_params extra_headers timeout w st body
                        final Hw Hm Ho Hst).
Qed.

(* ------------------------------------------------------------------ *)
(** * Login *)

Definition any_exn (e : Exn) : Prop := True.

Ltac by_running J E :=
  eapply wp_conseq;
  [ apply (wp_good _ _ J E); unfold J, E; run_auto | ].

(** From a world without pending cancellation, [async_login] returns or
    raises what the page lookup raises, and leaves a session and an
    authenticated event. *)
Lemma login_ends w :
  calm w ->
  wp async_login w
     (fun r w' => signing w' /\ (r = Ok tt \/ r = Raise no_signout_link)).
Proof.
  intros Hc. unfold calm in Hc. unfold async_login.
  wp_run.
  destruct (_session (self w)) as [s|] eqn:Es; wp_run.
  all: by_running signing page_lookup.
  all: intros r w1 [HJ Hr]; split; [exact HJ|].
  all: destruct r as [[]|e|]; cbn in Hr; [left; reflexivity | right; congruence | contradiction].
Qed.


Definition auth_is (a : option AsyncEvent) (w : World Site) : Prop :=
  _authenticated (self w) = a.

Definition server_is (srv : nat -> HttpOutcome) (w : World Site) : Prop :=
  server (env w) = srv.

#[local] Hint Unfold auth_is server_is : keeps.

Lemma auth_fetch_version a : keeps (auth_is a) _async_fetch_version.
Proof. keeps_auto. Qed.

Lemma auth_request a uri method extra_params extra_headers timeout :
  keeps (auth_is a)
        (_async_query_request uri method extra_params extra_headers timeout).
Proof. keeps_auto. Qed.

Lemma server_fetch_version srv : keeps (server_is srv) _async_fetch_version.
Proof. keeps_auto. Qed.

(** The version discovery makes one request when a session exists. *)
Lemma fetch_version_once w :
  wired w ->
  wp _async_fetch_version w
     (fun r w' => r = Ok tt /\ served (env w') = S (served (env w))).
Proof.
  intros [Hc Hs]. unfold _async_fetch_version. wp_run.
  destruct (_session (self w)) as [s|] eqn:Es; [|congruence].
  wp_run. rewrite Hc. wp_run.
  destruct (server (env w) (served (env w))) as [st body final|]; wp_run.
  - rewrite ?update_nth_snoc, ?nth_snoc. cbn [status text mark_closed].
    destruct (400 <=? st)%Z; wp_run.
    + unfold version_fallback. wp_run. split; reflexivity.
    + destruct (re_search_version X body); wp_run; split; reflexivity.
  - unfold version_fallback. wp_run. split; reflexivity.
Qed.

(** C2. When the portal's answer to the login request carries the error
    marker, whatever its status, [async_login] returns without raising and
    leaves the authenticated event cleared, so that [is_connected] is
    [False] afterwards.  (The login request is the second request of a
    login: the first one discovers the version.) *)
Theorem login_with_error_marker_stays_cleared w st body final :
  calm w ->
  server (env w) (S (served (env w))) = Answer st body final ->
  shows_error body ->
  let out := async_login w in
  fst out = Ok tt
  /\ _authenticated (self (snd out)) = Some false
  /\ fst (is_connected (snd out)) = Ok false.
Proof.
  intros Hc Ho Hmark.
  enough (H : wp async_login w
                 (fun r w' => r = Ok tt /\ _authenticated (self w') = Some false)).
  { destruct H as [Hr Ha]. cbv zeta. split; [exact Hr|]. split; [exact Ha|].
    rewrite is_connected_eq, Ha. reflexivity. }
  unfold calm in Hc. unfold async_login. wp_run.
  destruct (_session (self w)) as [s|] eqn:Es; wp_run;
    match goal with
    | |- wp _ ?W _ =>
        assert (Hsig : signing W)
          by (unfold signing; look; rewrite ?Es;
              repeat split; [exact Hc | discriminate | discriminate]);
        assert (Hauth : auth_is (Some false) W) by reflexivity;
        assert (Hsrv : server_is (server (env w)) W) by reflexivity;
        assert (Hn : served (env W) = served (env w)) by reflexivity;
        revert Hsig Hauth Hsrv Hn; generalize W; intros w0 Hsig Hauth Hsrv Hn
    end.
  all: assert (Hwired0 : wired w0) by (destruct Hsig as (? & ? & ?); split; assumption).
  all: apply wp_bind; eapply wp_conseq;
    [ apply wp_and; [exact (fetch_version_once w0 Hwired0)|];
      apply wp_and; [exact (wp_keeps _ _ _ (auth_fetch_version _) Hauth)|];
      apply wp_and; [exact (wp_keeps _ _ _ (server_fetch_version _) Hsrv)|];
      apply (wp_good _ _ signing never); unfold signing, never;
      unfold signing in Hsig; unfold _async_fetch_version; run_auto
    | ].
  all: cbv beta; intros r w1 ((Hr & Hn1) & Ha1 & Hs1 & Hsig1 & _); subst r; settle.
  all: unfold auth_is, server_is in *.
  all: assert (Hwired1 : wired w1) by (destruct Hsig1 as (? & ? & ?); split; assumption).
  all: assert (Ho1 : server (env w1) (served (env w1)) = Answer st body final)
    by (rewrite Hs1, Hn1, Hn; exact Ho).
  all: apply wp_bind; destruct (400 <=? st)%Z eqn:Hst;
    [ apply Z.leb_le in Hst;
      eapply wp_conseq;
      [ apply wp_and;
        [ exact (request_failed _ _ _ _ _ _ _ _ _ Hwired1 (or_intror eq_refl) Ho1 Hst)
        | exact (wp_keeps _ _ _ (auth_request _ _ _ _ _ _) Ha1) ]
      | cbv beta; intros r w2 ((Hr & _) & Ha2); subst r; settle;
        unfold auth_is in Ha2; unfold make_soup, authenticated_put; wp_run;
        rewrite Ha2; wp_run; split; reflexivity ]
    | apply Z.leb_gt in Hst;
      eapply wp_conseq;
      [ apply wp_and;
        [ exact (request_answered _ _ _ _ _ _ _ _ _ Hwired1 (or_intror eq_refl) Ho1 Hst)
        | exact (wp_keeps _ _ _ (auth_request _ _ _ _ _ _) Ha1) ]
      | cbv beta; intros r w2 ((Hr & _ & Hresp & _) & Ha2); subst r; settle;
        unfold auth_is in Ha2; unfold make_soup, authenticated_put; wp_run;
        rewrite Hresp, nth_snoc;
        destruct (ext_make_soup X _) as [soup|] eqn:Esoup; wp_run;
        [ rewrite (Hmark {| status := st; text := body; url := final; closed := true |}
                         soup eq_refl Esoup); wp_run
        | ];
        rewrite Ha2; wp_run; split; reflexivity ] ].
Qed.


(** ** Which coroutines a call enters *)

Definition same_entries (l : list Entry) (w : World Site) : Prop :=
  entries (trace (env w)) = l.

Lemma entries_emit_quiet l e :
  match e with Enter _ => False | _ => True end ->
  keeps (same_entries l) (emit e).
Proof.
  intros He w H. unfold same_entries in *. cbn.
  rewrite entries_app, H. destruct e; try contradiction; cbn; apply app_nil_r.
Qed.

#[local] Hint Extern 1 (keeps (same_entries _) (emit _)) =>
  (apply entries_emit_quiet; exact I) : keeps.

#[local] Hint Unfold same_entries : keeps.

Lemma entries_fetch_version l : keeps (same_entries l) _async_fetch_version.
Proof. keeps_auto. Qed.

Lemma entries_request l uri method extra_params extra_headers timeout :
  keeps (same_entries l)
        (_async_query_request uri method extra_params extra_headers timeout).
Proof. keeps_auto. Qed.

Lemma entries_update_sites l soup : keeps (same_entries l) (_update_sites soup).
Proof. keeps_auto. Qed.

Lemma entries_make_soup l response level message :
  keeps (same_entries l) (make_soup response level message).
Proof. keeps_auto. Qed.

Lemma entries_close_response l response :
  keeps (same_entries l) (_close_response response).
Proof. keeps_auto. Qed.

#[local] Hint Resolve entries_fetch_version entries_request entries_update_sites
  entries_make_soup entries_close_response : keeps.

(** [async_login] enters the login once, and nothing else. *)
Lemma login_enters w :
  wp async_login w
     (fun _ w' => entries (trace (env w')) = entries (trace (env w)) ++ [InLogin]).
Proof.
  unfold async_login. apply wp_bind. unfold emit. apply wp_around. settle.
  apply (wp_keeps _ _ (same_entries (entries (trace (env w)) ++ [InLogin]))).
  - keeps_auto.
  - unfold same_entries. look. rewrite entries_app. reflexivity.
Qed.



Definition same_count (f : Entry) (n : nat) (w : World Site) : Prop :=
  entered f w = n.

Lemma same_count_emit f n e :
  match e with Enter g => entry_eqb f g = false | _ => True end ->
  keeps (same_count f n) (emit e).
Proof.
  intros He w H. unfold same_count, entered in *. cbn.
  rewrite entries_app, filter_app, length_app, H.
  destruct e; cbn; try apply Nat.add_0_r. rewrite He. apply Nat.add_0_r.
Qed.

#[local] Hint Extern 1 (keeps (same_count _ _) (emit _)) =>
  (apply same_count_emit; first [exact I | reflexivity]) : keeps.

#[local] Hint Unfold same_count entered : keeps.

Lemma updates_untouched_by_login n : keeps (same_count InUpdate n) async_login.
Proof. keeps_auto. Qed.

Lemma updates_untouched_by_poll n : keeps (same_count InUpdate n) sync_check_poll.
Proof. keeps_auto. Qed.

Lemma login_enters_once w :
  wp async_login w (fun _ w' => entered InLogin w' = S (entered InLogin w)).
Proof.
  eapply wp_conseq; [apply login_enters|]. cbv beta. intros _ w1 H.
  unfold entered. rewrite H, filter_app, length_app. cbn. apply Nat.add_1_r.
Qed.

Lemma update_enters_once w :
  wp async_update w (fun _ w' => entered InUpdate w' = S (entered InUpdate w)).
Proof.
  unfold async_update. apply wp_bind. unfold emit. apply wp_around. settle.
  apply (wp_keeps _ _ (same_count InUpdate (S (entered InUpdate w)))).
  - keeps_auto.
  - unfold same_count, entered. look.
    rewrite entries_app, filter_app, length_app. cbn. apply Nat.add_1_r.
Qed.

(** No update event is ever taken away again. *)
Definition has_updates_event (w : World Site) : Prop :=
  _updates_exist (self w) <> None.

Definition has_session (w : World Site) : Prop := _session (self w) <> None.

#[local] Hint Unfold has_updates_event has_session : keeps.

Ltac keeps_some :=
  keeps_auto;
  try solve [ autounfold with keeps in *; cbn in *; congruence ].

Lemma updates_event_stays_poll : keeps has_updates_event sync_check_poll.
Proof. keeps_some. Qed.

Lemma login_good w : wired w -> good wired page_lookup (async_login w).
Proof.
  intros [Hc Hs]. pose proof (login_ends w Hc) as H. unfold wp in H.
  destruct H as [(H1 & H2 & _) Hr]. split; [split; assumption|].
  destruct Hr as [-> | ->]; [exact I | reflexivity].
Qed.

Ltac run_lemma ::=
  lazymatch goal with
  | |- good _ _ (async_login _) =>
      first [ apply login_good; unfold wired; close_side
            | eapply good_weaken;
              [ apply login_good; unfold wired; close_side
              | unfold page_lookup; close_side ] ]
  end.

Lemma poll_calm : runs calm any_exn sync_check_poll.
Proof. unfold calm, any_exn. intros w HJ. unfold sync_check_poll. run_auto. Qed.

Lemma update_runs : runs wired page_lookup async_update.
Proof. unfold wired. intros w HJ. unfold async_update. run_auto. Qed.

Definition updates_set (w : World Site) : Prop :=
  _updates_exist (self w) = Some true.

Definition stamped (t : Time) (w : World Site) : Prop :=
  _sync_timestamp (self w) = t /\ clock (env w) = t.

Lemma update_keeps_updates_set : runs updates_set any_exn async_update.
Proof. unfold updates_set, any_exn. intros w HJ. unfold async_update. run_auto. Qed.

Lemma update_keeps_stamp t : runs (stamped t) any_exn async_update.
Proof. unfold stamped, any_exn. intros w HJ. unfold async_update. run_auto. Qed.

Lemma wp_bind_last {A B} (m : M A) (f : A -> M B) w (Q : Res B -> World Site -> Prop) :
  (forall a w1, wp (f a) w1 Q) ->
  (forall e w1, Q (Raise e) w1) ->
  (forall w1, Q Blocked w1) ->
  wp (bind m f) w Q.
Proof.
  intros Hf He Hb. unfold wp, bind.
  destruct (m w) as [[a|e|] w1]; cbn; [apply Hf | apply He | apply Hb].
Qed.

Definition returned {A} (r : Res A) : Prop := exists a, r = Ok a.

Definition is_ok {A} (r : Res A) : bool :=
  match r with Ok _ => true | _ => false end.

Lemma not_returned_raise {A} e : ~ @returned A (Raise e).
Proof. intros [a H]. discriminate. Qed.

Lemma not_returned_blocked {A} : ~ @returned A Blocked.
Proof. intros [a H]. discriminate. Qed.

(** The request part returns only with a session. *)
Lemma request_session uri method extra_params extra_headers timeout w :
  wp (_async_query_request uri method extra_params extra_headers timeout) w
     (fun r w' => returned r -> has_session w').
Proof.
  unfold _async_query_request. wp_run.
  destruct (_session (self w)) as [s|] eqn:Es.
  - eapply wp_conseq.
    + apply (wp_keeps _ _ has_session); [keeps_some | unfold has_session; congruence].
    + cbv beta. auto.
  - wp_run. intros H. destruct (not_returned_raise _ H).
Qed.

Lemma poll_session w :
  wp sync_check_poll w (fun r w' => returned r -> has_session w').
Proof.
  unfold sync_check_poll, _async_query.
  do 5 (apply wp_bind_last;
          [ intros ? ?
          | intros ? ? H; destruct (not_returned_raise _ H)
          | intros ? H; destruct (not_returned_blocked H) ]).
  apply request_session.
Qed.


Lemma logins_untouched_by_request n uri method extra_params extra_headers timeout :
  keeps (same_count InLogin n)
        (_async_query_request uri method extra_params extra_headers timeout).
Proof. keeps_auto. Qed.

Lemma wp_same {A} (m m' : M A) w (Q : Res A -> World Site -> Prop) :
  m w = m' w -> wp m' w Q -> wp m w Q.
Proof. unfold wp. intros ->. exact (fun H => H). Qed.

(** While the client is authenticated, the poll does not log in. *)
Lemma poll_without_login w :
  is_set (_authenticated (self w)) = true ->
  wp sync_check_poll w (fun _ w' => entered InLogin w' = entered InLogin w).
Proof.
  intros Hauth. unfold sync_check_poll. wp_run.
  destruct (cancel_in (env w)) as [[|k]|]; wp_run; try reflexivity.
  all: eapply wp_same;
    [ apply async_query_direct; unfold logs_in_first; look; rewrite Hauth;
      reflexivity | ].
  all: apply (wp_keeps _ _ (same_count InLogin (entered InLogin w)));
    [ apply logins_untouched_by_request
    | unfold same_count, entered; look; rewrite entries_app; cbn;
      rewrite app_nil_r; reflexivity ].
Qed.

(** Facts about the world a poll leaves. *)
Lemma after_poll w r w1 :
  calm w -> sync_check_poll w = (r, w1) ->
  calm w1
  /\ entered InUpdate w1 = entered InUpdate w
  /\ (is_set (_authenticated (self w)) = true -> entered InLogin w1 = entered InLogin w)
  /\ (has_updates_event w -> has_updates_event w1)
  /\ (returned r -> has_session w1).
Proof.
  intros Hc Hp.
  pose proof (poll_calm w Hc) as [H1 _].
  pose proof (updates_untouched_by_poll _ w eq_refl) as H2.
  pose proof (poll_without_login w) as H3.
  pose proof (updates_event_stays_poll w) as H4.
  pose proof (poll_session w) as H5.
  unfold wp, same_count in *. rewrite Hp in *. cbn [fst snd] in *.
  repeat split; auto.
Qed.

(** The world in which a tick of the sync check acts on the answer [id]
    it got in [w1]: the answer is closed, the log has grown, and nothing
    else has changed. *)
Definition answer_closed (id : nat) (w1 w2 : World Site) : Prop :=
  self w2 = self w1
  /\ released (Some id) w2
  /\ served (env w2) = served (env w1)
  /\ clock (env w2) = clock (env w1)
  /\ tasks (env w2) = tasks (env w1)
  /\ entries (trace (env w2)) = entries (trace (env w1))
  /\ requests (trace (env w2)) = requests (trace (env w1)).

(** C4, as the code has it.  A tick whose answer [re.match] does not
    accept closes the answer and calls [async_login], once, and leaves the
    world that login leaves; it refreshes nothing.  When the login returns,
    the task goes on to its next iteration; when the login raises (a page
    that names the site and has no sign-out link), the exception leaves the
    tick.  That login is the only one of the tick when the client was
    authenticated at its start (no cancellation pending). *)
Theorem unexpected_token_forces_one_login prev w w1 id :
  calm w ->
  sync_check_poll w = (Ok (Some id), w1) ->
  ext_handle_response X (nth id (responses (env w1)) no_response) = true ->
  re_match sync_pattern (text (nth id (responses (env w1)) no_response))
  = false ->
  let out := sync_check_try prev w in
  (exists w2,
      answer_closed id w1 w2
      /\ snd out = snd (async_login w2)
      /\ (fst (async_login w2) = Ok tt /\ fst out = Ok (Next (Some id))
          \/ fst (async_login w2) = Raise no_signout_link
             /\ fst out = Raise no_signout_link))
  /\ entered InLogin (snd out) = S (entered InLogin w1)
  /\ entered InUpdate (snd out) = entered InUpdate w
  /\ (is_set (_authenticated (self w)) = true ->
      entered InLogin (snd out) = S (entered InLogin w)).
Proof.
  intros Hc Hpoll Hok Hshape.
  destruct (after_poll w _ w1 Hc Hpoll) as (Hc1 & Hu1 & Hl1 & _ & _).
  enough (H : wp (sync_check_try prev) w
                 (fun r w' =>
                    (exists w2,
                        answer_closed id w1 w2
                        /\ w' = snd (async_login w2)
                        /\ (fst (async_login w2) = Ok tt /\ r = Ok (Next (Some id))
                            \/ fst (async_login w2) = Raise no_signout_link
                               /\ r = Raise no_signout_link))
                    /\ entered InLogin w' = S (entered InLogin w1)
                    /\ entered InUpdate w' = entered InUpdate w1)).
  { destruct H as (Hw2 & Hl & Hu). cbv zeta. split; [exact Hw2|].
    split; [exact Hl|]. split; [congruence|].
    intros Ha. rewrite Hl, (Hl1 Ha). reflexivity. }
  unfold sync_check_try.
  apply wp_bind, wp_try_except, wp_bind, (wp_eq _ _ _ _ _ Hpoll). settle.
  wp_run. apply wp_try_except. unfold sync_check_react. wp_run.
  rewrite Hok. wp_run. cbn [negb]. rewrite Hshape. cbn [negb]. wp_run.
  destruct (closed (nth id (responses (env w1)) no_response)) eqn:Ecl; wp_run.
  all: match goal with
       | |- wp _ ?W _ =>
           assert (HcW : calm W) by exact Hc1;
           assert (HaW : answer_closed id w1 W) by
             (unfold answer_closed, released; look;
              rewrite ?entries_app, ?requests_app, ?closed_after_close; cbn;
              rewrite ?app_nil_r; repeat split; auto);
           assert (HlW : entered InLogin W = entered InLogin w1) by
             (unfold entered; look; rewrite !entries_app; cbn; rewrite !app_nil_r;
              reflexivity);
           assert (HuW : entered InUpdate W = entered InUpdate w1) by
             (unfold entered; look; rewrite !entries_app; cbn; rewrite !app_nil_r;
              reflexivity);
           revert HcW HaW HlW HuW; generalize W; intros w2 HcW HaW HlW HuW
       end.
  all: apply wp_bind; eapply wp_conseq;
    [ apply wp_and; [exact (login_ends w2 HcW)|];
      apply wp_and; [exact (login_enters_once w2)|];
      apply wp_and; [exact (wp_keeps _ _ _ (updates_untouched_by_login _) HuW)|];
      apply (wp_remember _ _ (fun r w3 => async_login w2 = (r, w3)));
      intros r w3 E; exact E
    | ].
  all: cbv beta; intros r w3 ((_ & Hr) & Hl3 & Hu3 & E).
  all: unfold same_count in Hu3.
  all: destruct Hr as [-> | ->]; settle; unfold no_signout_link; cbn [sync_check_cancelled];
    wp_run.
  all: (split; [exists w2; rewrite E; cbn [fst snd]; split; [exact HaW|];
                split; [reflexivity|]; first [left; split; reflexivity
                                            | right; split; reflexivity]|]).
  all: split; congruence.
Qed.

(** The client and the requests are the same in two worlds. *)
Definition same_client (w w' : World Site) : Prop :=
  self w' = self w
  /\ served (env w') = served (env w)
  /\ requests (trace (env w')) = requests (trace (env w))
  /\ entries (trace (env w')) = entries (trace (env w)).

(** C3, as the code has it.  A tick whose answer [re.match] accepts closes
    the answer and records the time as the sync timestamp.  Whether it
    refreshes is decided by [endswith("-0-0")] on the whole answer: for an
    answer that is three integers joined by dashes that is the case
    exactly when the last two are zero.  When the answer ends so, the tick
    sets the updates-pending event and calls [async_update], once: it ends
    with the client and the requests that refresh leaves, going on to the
    next iteration when the refresh returns and raising what the refresh
    raises.  Otherwise it changes nothing but the timestamp: no request,
    no refresh, no login, the event as it was (no cancellation
    pending). *)
Theorem token_decides_refresh prev w w1 id :
  calm w ->
  has_updates_event w ->
  sync_check_poll w = (Ok (Some id), w1) ->
  ext_handle_response X (nth id (responses (env w1)) no_response) = true ->
  re_match sync_pattern (text (nth id (responses (env w1)) no_response)) = true ->
  let body := text (nth id (responses (env w1)) no_response) in
  let out := sync_check_try prev w in
  (forall a b c,
      body = token a b c ->
      Py.endswith body "-0-0" = ((b =? 0)%N && (c =? 0)%N)%bool)
  /\ if Py.endswith body "-0-0"
     then (exists w2,
              answer_closed id w1 w2
              /\ let refresh :=
                   async_update
                     (on_self (set_updates_exist (Some true))
                        (on_self (set_sync_timestamp (clock (env w1))) w2)) in
                 same_client (snd refresh) (snd out)
                 /\ ((exists updated, fst refresh = Ok updated)
                     /\ fst out = Ok (Next (Some id))
                     \/ fst refresh = Raise no_signout_link
                        /\ fst out = Raise no_signout_link))
          /\ _updates_exist (self (snd out)) = Some true
          /\ _sync_timestamp (self (snd out)) = clock (env w1)
          /\ entered InUpdate (snd out) = S (entered InUpdate w)
     else fst out = Ok (Next (Some id))
          /\ self (snd out) = set_sync_timestamp (clock (env w1)) (self w1)
          /\ served (env (snd out)) = served (env w1)
          /\ entered InUpdate (snd out) = entered InUpdate w
          /\ entered InLogin (snd out) = entered InLogin w1.
Proof.
  intros Hc Hev Hpoll Hok Hshape. cbv zeta.
  split; [intros a b c ->; apply token_endswith|].
  destruct (after_poll w _ w1 Hc Hpoll) as (Hc1 & Hu1 & _ & Hev1 & Hs1).
  specialize (Hev1 Hev). specialize (Hs1 (ex_intro _ _ eq_refl)).
  unfold has_updates_event in Hev1. unfold has_session in Hs1. unfold calm in Hc1.
  enough (H : wp (sync_check_try prev) w
                 (fun r w' =>
                    if Py.endswith (text (nth id (responses (env w1)) no_response)) "-0-0"
                    then (exists w2,
                             answer_closed id w1 w2
                             /\ let refresh :=
                                  async_update
                                    (on_self (set_updates_exist (Some true))
                                       (on_self (set_sync_timestamp (clock (env w1)))
                                          w2)) in
                                same_client (snd refresh) w'
                                /\ ((exists updated, fst refresh = Ok updated)
                                    /\ r = Ok (Next (Some id))
                                    \/ fst refresh = Raise no_signout_link
                                       /\ r = Raise no_signout_link))
                         /\ _updates_exist (self w') = Some true
                         /\ _sync_timestamp (self w') = clock (env w1)
                         /\ entered InUpdate w' = S (entered InUpdate w1)
                    else r = Ok (Next (Some id))
                         /\ self w' = set_sync_timestamp (clock (env w1)) (self w1)
                         /\ served (env w') = served (env w1)
                         /\ entered InUpdate w' = entered InUpdate w1
                         /\ entered InLogin w' = entered InLogin w1)).
  { unfold wp in H.
    destruct (Py.endswith (text (nth id (responses (env w1)) no_response)) "-0-0").
    - destruct H as (H1 & H2 & H3 & H4). repeat split; auto. congruence.
    - destruct H as (H1 & H2 & H3 & H4 & H5). repeat split; auto. congruence. }
  unfold sync_check_try.
  apply wp_bind, wp_try_except, wp_bind, (wp_eq _ _ _ _ _ Hpoll). settle.
  wp_run. apply wp_try_except. unfold sync_check_react. wp_run.
  rewrite Hok. wp_run. cbn [negb]. rewrite Hshape. cbn [negb].
  destruct (Py.endswith (text (nth id (responses (env w1)) no_response)) "-0-0").
  - (* the refresh *)
    wp_run.
    destruct (closed (nth id (responses (env w1)) no_response)) eqn:Ecl; wp_run;
      unfold updates_exist_set; wp_run;
      (destruct (_updates_exist (self w1)) as [u|] eqn:Eu; [|congruence]);
      wp_run.
    all: match goal with
         | |- wp _ ?W _ =>
             assert (HwW : wired W) by (split; [exact Hc1 | exact Hs1]);
             assert (HuW : updates_set W) by reflexivity;
             assert (HtW : stamped (clock (env w1)) W) by (split; reflexivity);
             assert (HnW : entered InUpdate W = entered InUpdate w1) by
               (unfold entered; look; rewrite ?entries_app; cbn;
                rewrite ?app_nil_r; reflexivity);
             assert (HaW : exists w2,
                        answer_closed id w1 w2
                        /\ W = on_self (set_updates_exist (Some true))
                                 (on_self (set_sync_timestamp (clock (env w1))) w2)) by
               (eexists {| self := self w1; env := _ |};
                split; [|reflexivity];
                unfold answer_closed, released; look;
                rewrite ?entries_app, ?requests_app, ?closed_after_close; cbn;
                rewrite ?app_nil_r; repeat split; auto);
             revert HwW HuW HtW HnW HaW; generalize W; intros w2 HwW HuW HtW HnW HaW
         end.
    all: apply wp_bind; eapply wp_conseq;
      [ apply wp_and; [exact (wp_runs _ _ _ _ update_runs HwW)|];
        apply wp_and; [exact (wp_runs _ _ _ _ update_keeps_updates_set HuW)|];
        apply wp_and; [exact (wp_runs _ _ _ _ (update_keeps_stamp _) HtW)|];
        apply wp_and; [exact (update_enters_once w2)|];
        apply (wp_remember _ _ (fun r w3 => async_update w2 = (r, w3)));
        intros r w3 E; exact E
      | ].
    all: cbv beta; intros r w3 ((_ & Hr) & (Hu3 & _) & ((Ht3 & _) & _) & Hn3 & E).
    all: unfold updates_set in Hu3.
    all: destruct r as [updated|e|]; cbn in Hr; try contradiction; settle.
    all: try (unfold page_lookup in Hr; subst e; unfold no_signout_link;
              cbn [sync_check_cancelled]).
    all: try destruct updated; wp_run.
    all: destruct HaW as (w0 & Ha0 & ->).
    all: (split; [exists w0; split; [exact Ha0|]; cbv zeta; rewrite E; cbn [fst snd];
                  split;
                  [ unfold same_client; look; rewrite ?requests_app, ?entries_app;
                    cbn; rewrite ?app_nil_r; repeat split; reflexivity
                  | first [ left; split; [eexists; reflexivity | reflexivity]
                          | right; split; reflexivity ] ]|]).
    all: (split; [exact Hu3|]); (split; [exact Ht3|]).
    all: unfold entered in *; look; rewrite ?entries_app; cbn; rewrite ?app_nil_r.
    all: congruence.
  - (* nothing to fetch *)
    wp_run.
    destruct (closed (nth id (responses (env w1)) no_response)); wp_run.
    all: split; [reflexivity|]; split; [reflexivity|].
    all: unfold entered; look; rewrite ?entries_app; cbn; rewrite ?app_nil_r.
    all: repeat split; reflexivity.
Qed.

(* ------------------------------------------------------------------ *)
(** * The keepalive task *)

Lemma wp_always {A} (m : M A) w (Q : Res A -> World Site -> Prop) :
  (forall r w', Q r w') -> wp m w Q.
Proof. intros H. apply H. Qed.

(** The first part of the keepalive task's [try] statement: it assigns
    what the query gave, and [CancelledError] only comes out of it when a
    cancellation was pending. *)
Lemma keepalive_query_cancelled w :
  wp (asyncio_sleep (ADT_TIMEOUT_INTERVAL K) ;;
      LOG DEBUG "Resetting timeout" ;;
      r <- _async_query (ADT_TIMEOUT_URI K) "POST" None None true 1%Z ;;
      ret (Some r)) w
     (fun r _ =>
        (r = Raise CancelledError -> cancel_in (env w) <> None)
        /\ r <> Ok None).
Proof.
  apply wp_and.
  - destruct (cancel_in (env w)) as [k|] eqn:Ec.
    + unfold wp. intros _. discriminate.
    + eapply wp_conseq.
      * apply (wp_good _ _ calm not_cancelled). unfold calm, not_cancelled.
        run_auto.
      * cbv beta. intros r w1 [_ Hr] ->. cbn in Hr. congruence.
  - do 3 (apply wp_bind, wp_always; intros [?|?|] ?; settle; try discriminate).
Qed.

(** Statement by statement, with a case for every branch met. *)
Ltac wp_cases :=
  repeat (wp_run;
          try match goal with
              | |- wp (match ?x with _ => _ end) _ _ =>
                  let E := fresh "E" in destruct x eqn:E
              end).

(** C7, as the code has it.  A run of the keepalive task that ends the
    task by returning does so for one of two reasons: a cancellation
    reached it, and then the response its variable held is closed; or the
    guard of its loop found the authenticated event cleared. *)
Theorem keepalive_returns_on_cancellation_or_cleared_event from w :
  let out := _keepalive_task from w in
  fst out = Ok Finished ->
  match from with
  | Created => _authenticated (self (snd out)) = Some false
  | Sleeping response =>
      (cancel_in (env w) <> None /\ released response (snd out))
      \/ _authenticated (self (snd out)) = Some false
  | _ => from = Finished
  end.
Proof.
  cbv zeta.
  change (wp (_keepalive_task from) w
             (fun r w' =>
                r = Ok Finished ->
                match from with
                | Created => _authenticated (self w') = Some false
                | Sleeping response =>
                    (cancel_in (env w) <> None /\ released response w')
                    \/ _authenticated (self w') = Some false
                | _ => from = Finished
                end)).
  destruct from as [|response| |e|]; unfold _keepalive_task.
  - unfold keepalive_enter, keepalive_while. wp_cases;
      first [ discriminate | intros _; assumption ].
  - unfold keepalive_try. apply wp_bind, wp_bind, wp_try_except.
    eapply wp_conseq; [apply keepalive_query_cancelled|].
    cbv beta. intros r w1 [Hcancel Hgot].
    destruct r as [[got|]|e|]; settle.
    + (* the query came back: no cancellation in what follows *)
      unfold handle_response, keepalive_while, _close_response.
      wp_cases; first [ discriminate | intros _; right; assumption ].
    + congruence.
    + (* an exception left the query *)
      destruct e; cbn [keepalive_cancelled]; try discriminate.
      unfold _close_response. wp_cases; intros _; left;
        (split; [exact (Hcancel eq_refl)|]); unfold released; look;
        first [ exact I | assumption | apply closed_after_close ].
    + discriminate.
  - wp_run. reflexivity.
  - wp_run. discriminate.
  - wp_run. discriminate.
Qed.


(* ------------------------------------------------------------------ *)
(** * Where the tasks stand *)

(** Task [id] stands at [p]. *)
Definition stands (id : nat) (p : TaskPhase) (w : World Site) : Prop :=
  option_map phase (nth_error (tasks (env w)) id) = Some p.

#[local] Hint Unfold stands : keeps.

Lemma phase_update_nth_asked id t l :
  option_map phase (nth_error (update_nth t cancel_asked l) id)
  = option_map phase (nth_error l id).
Proof.
  revert id t. induction l as [|x l IH]; intros id t; [destruct t; reflexivity|].
  destruct t as [|t], id as [|id]; cbn; auto.
Qed.

Lemma phase_snoc id p (l : list Task) x :
  option_map phase (nth_error l id) = Some p ->
  option_map phase (nth_error (l ++ [x]) id) = Some p.
Proof.
  intros H. rewrite nth_error_app1; [exact H|].
  apply nth_error_Some. destruct (nth_error l id); [discriminate | discriminate H].
Qed.

(** [task.cancel()] inside its [try]: the cancellation is asked for, the
    [except] clause is never entered, and no task is run. *)
Lemma cancel_task_eq id message w :
  cancel_task id message w
  = (Ok tt,
     match nth_error (tasks (env w)) id with
     | Some t =>
         if task_done t then w
         else on_env (fun v => set_tasks (update_nth id cancel_asked (tasks v)) v) w
     | None => w
     end).
Proof.
  unfold cancel_task, try_except, task_cancel, task_at, task_put, bind, gets,
    around, ret.
  destruct (nth_error (tasks (env w)) id) as [t|]; [|reflexivity].
  destruct (task_done t); reflexivity.
Qed.

Lemma stands_cancel_task id p t message : keeps (stands id p) (cancel_task t message).
Proof.
  intros w H. rewrite cancel_task_eq. cbn [snd].
  destruct (nth_error (tasks (env w)) t) as [x|]; [|exact H].
  destruct (task_done x); [exact H|].
  unfold stands in *. cbn. rewrite phase_update_nth_asked. exact H.
Qed.

#[local] Hint Resolve stands_cancel_task : keeps.

Lemma stands_create_task id p k : keeps (stands id p) (create_task k).
Proof.
  intros w H. unfold stands in *. cbn. apply phase_snoc, H.
Qed.

#[local] Hint Resolve stands_create_task : keeps.

(* ------------------------------------------------------------------ *)
(** * The synchronous login *)

(** A wait for tasks that returns has seen them all ended. *)
Lemma run_until_done ids sched w :
  wp (run_until ids sched) w
     (fun r w' => r = Ok tt -> all_done ids (tasks (env w')) = true).
Proof.
  revert w. induction sched as [|id rest IH]; intros w; cbn [run_until];
    apply wp_bind, wp_gets; settle;
    destruct (all_done ids (tasks (env w))) eqn:E.
  - apply wp_ret. intros _. exact E.
  - apply wp_blocked. discriminate.
  - apply wp_ret. intros _. exact E.
  - apply wp_bind, wp_around; settle. apply wp_bind, wp_always.
    intros [[]|e|] w1; settle; try discriminate. apply IH.
Qed.

(** The world in which the session thread's loop starts [_sync_loop]. *)
Definition thread_world (w : World Site) : World Site :=
  on_self (set_loop (Some {| submitted := []; loop_closed := false |}))
    (on_env (fun v => set_trace (trace v ++ [Log DEBUG "creating Pulse background thread"]) v)
       (on_self (set_session_thread
                   (Some {| thread_name := "PyADTPulse Session"; daemon := true |}))
          w)).

Lemma first_login_eq w :
  _session_thread (self w) = None ->
  login w
  = (_sync_loop ;; assign (set_loop None) ;; assign (set_session_thread None))
      (thread_world w).
Proof.
  destruct w as [[] v]. cbn [self _session_thread]. intros ->. reflexivity.
Qed.

Lemma later_login_eq w th lp :
  _session_thread (self w) = Some th -> _loop (self w) = Some lp ->
  login w
  = (Ok tt,
     on_self (set_loop (Some {| submitted := submitted lp ++ [CoLogin];
                                loop_closed := loop_closed lp |})) w).
Proof.
  destruct w as [[] v]. cbn [self _session_thread _loop]. intros -> ->. reflexivity.
Qed.

(** C6, as the code has it.  A later [login()], made while the session
    thread exists, returns at once: the login coroutine is only queued on
    the loop, nothing of it has run, no request was made.  The first
    [login()] runs the thread's function in the calling thread: when it
    returns, the loop and the thread are gone, and the two background
    tasks that the login coroutine left are both ended. *)
Theorem login_does_not_wait_for_the_login_coroutine :
  (forall w th lp,
      _session_thread (self w) = Some th -> _loop (self w) = Some lp ->
      let out := login w in
      fst out = Ok tt
      /\ option_map submitted (_loop (self (snd out))) = Some (submitted lp ++ [CoLogin])
      /\ env (snd out) = env w
      /\ _authenticated (self (snd out)) = _authenticated (self w))
  /\ (forall w w',
         _session_thread (self w) = None ->
         login w = (Ok tt, w') ->
         _loop (self w') = None /\ _session_thread (self w') = None
         /\ exists w1,
             async_login (thread_world w) = (Ok tt, w1)
             /\ forall a b,
                 _sync_task (self w1) = Some a -> _timeout_task (self w1) = Some b ->
                 all_done [a; b] (tasks (env w')) = true).
Proof.
  split.
  - intros w th lp Hth Hlp. cbv zeta. rewrite (later_login_eq w th lp Hth Hlp).
    cbn [fst snd]. look. repeat split; reflexivity.
  - intros w w' Hth Hlogin. rewrite (first_login_eq w Hth) in Hlogin.
    revert Hlogin. generalize (thread_world w). intros w0 Hlogin.
    refine (wp_inv _ _ _ _
              (fun r w' =>
                 r = Ok tt ->
                 _loop (self w') = None /\ _session_thread (self w') = None
                 /\ exists w1,
                     async_login w0 = (Ok tt, w1)
                     /\ forall a b,
                         _sync_task (self w1) = Some a ->
                         _timeout_task (self w1) = Some b ->
                         all_done [a; b] (tasks (env w')) = true)
              _ Hlogin eq_refl).
    unfold _sync_loop. apply wp_bind, wp_bind, wp_remember.
    intros r w1 E1. destruct r as [[]|e|]; settle; try discriminate.
    apply wp_bind, wp_attr; settle. apply wp_bind, wp_attr; settle.
    destruct (_sync_task (self w1)) as [a|] eqn:Ea;
      [destruct (_timeout_task (self w1)) as [b|] eqn:Eb|].
    + unfold asyncio_wait. apply wp_bind.
      apply wp_always. intros [[]|e|] w2; settle; try discriminate.
      apply wp_bind, wp_gets; settle.
      eapply wp_conseq; [apply run_until_done|]. cbv beta.
      intros r w3 Hdone. destruct r as [[]|e|]; settle; try discriminate.
      wp_run. intros _. split; [reflexivity|]. split; [reflexivity|].
      exists w1. split; [exact E1|].
      intros a' b' Ha Hb. rewrite Ea in Ha. rewrite Eb in Hb.
      injection Ha as <-. injection Hb as <-. exact (Hdone eq_refl).
    + wp_run. intros _. split; [reflexivity|]. split; [reflexivity|].
      exists w1. split; [exact E1|]. intros a' b' _ Hb. congruence.
    + wp_run. intros _. split; [reflexivity|]. split; [reflexivity|].
      exists w1. split; [exact E1|]. intros a' b' Ha. congruence.
Qed.


(* ------------------------------------------------------------------ *)
(** * The executor at its edges *)

(** [d.get(k)] *)
Fixpoint dict_get (k : string) (d : Dict) : option string :=
  match d with
  | [] => None
  | (k', v) :: d' => if String.eqb k k' then Some v else dict_get k d'
  end.

Lemma dict_get_set_same k v d : dict_get k (dict_set k v d) = Some v.
Proof.
  induction d as [|[k' v'] d IH]; cbn.
  - rewrite String.eqb_refl. reflexivity.
  - destruct (String.eqb k k') eqn:E; cbn; [rewrite String.eqb_refl | rewrite E]; auto.
Qed.

Lemma dict_get_set_other k k' v d :
  k <> k' -> dict_get k (dict_set k' v d) = dict_get k d.
Proof.
  intros Hne. apply String.eqb_neq in Hne.
  induction d as [|[k2 v2] d IH]; cbn.
  - rewrite Hne. reflexivity.
  - destruct (String.eqb k' k2) eqn:E; cbn.
    + apply String.eqb_eq in E. subst k2. rewrite Hne. reflexivity.
    + rewrite IH. reflexivity.
Qed.

(** X1. A request method other than GET and POST: the executor has set the
    [Accept] header and announced the attempt, makes no request, writes
    one [ERROR] record that names the method and returns no response. *)
Theorem invalid_method_makes_no_request
        uri method extra_params extra_headers force_login timeout w0 w :
  asks_from force_login w0 w ->
  _session (self w) <> None ->
  method <> "GET" -> method <> "POST" ->
  let out :=
    _async_query uri method extra_params extra_headers force_login timeout w0 in
  fst out = Ok None
  /\ served (env (snd out)) = served (env w)
  /\ responses (env (snd out)) = responses (env w)
  /\ trace (env (snd out))
     = trace (env w) ++ announced uri method w ++
       [Log ERROR ("Invalid request method " ++ method)%string].
Proof.
  intros Hfrom Hs Hg Hp. cbv zeta.
  rewrite (async_query_from _ _ _ _ _ _ _ _ Hfrom).
  apply String.eqb_neq in Hg, Hp.
  change (wp (_async_query_request uri method extra_params extra_headers timeout) w
             (fun r w' =>
                r = Ok None
                /\ served (env w') = served (env w)
                /\ responses (env w') = responses (env w)
                /\ trace (env w')
                   = trace (env w) ++ announced uri method w ++
                     [Log ERROR ("Invalid request method " ++ method)%string])).
  unfold _async_query_request. wp_run.
  destruct (_session (self w)) as [s|] eqn:Es; [|congruence].
  wp_run. rewrite Es. wp_run. rewrite Hg, Hp. wp_run.
  unfold announced, accept_for.
  repeat (split; [reflexivity|]). rewrite <- !app_assoc. reflexivity.
Qed.

(** X2. With no cancellation pending and a portal that answers or refuses
    the connection, the executor raises in two cases only.  Called on a
    client that has no session, and not logging in first, it raises
    [RuntimeError] and has done nothing.  When it logs in first and the
    login raises (a page that names the site and has no sign-out link), it
    raises the same in the world the login left.  In every other case it
    returns. *)
Theorem executor_raises_in_two_cases
        uri method extra_params extra_headers force_login timeout w :
  calm w -> supported method ->
  let out :=
    _async_query uri method extra_params extra_headers force_login timeout w in
  if logs_in_first force_login w then
    fst (async_login w) = Ok tt /\ returned (fst out)
    \/ fst (async_login w) = Raise no_signout_link
       /\ out = (Raise no_signout_link, snd (async_login w))
  else
    match _session (self w) with
    | Some _ => returned (fst out)
    | None => out = (Raise (RuntimeError "ClientSession not initialized"), w)
    end.
Proof.
  intros Hc Hm. cbv zeta.
  destruct (logs_in_first force_login w) eqn:Hl.
  - rewrite (async_query_relogin _ _ _ _ _ _ _ Hl).
    pose proof (login_ends w Hc) as Hret. unfold wp in Hret.
    destruct (async_login w) as [r w1] eqn:El. cbn [fst snd] in *.
    destruct Hret as [(Hc1 & Hs1 & _) [-> | ->]].
    + left. split; [reflexivity|]. rewrite (bind_run _ _ _ _ _ El).
      pose proof (request_once uri method extra_params extra_headers timeout w1
                    (conj Hc1 Hs1) Hm) as H.
      unfold wp in H. destruct H as (-> & _). eexists. reflexivity.
    + right. split; [reflexivity|]. unfold bind. rewrite El. reflexivity.
  - rewrite (async_query_direct _ _ _ _ _ _ _ Hl).
    destruct (_session (self w)) as [s|] eqn:Es.
    + assert (Hw : wired w) by (split; [exact Hc | rewrite Es; discriminate]).
      pose proof (request_once uri method extra_params extra_headers timeout w Hw Hm)
        as H.
      unfold wp in H. destruct H as (-> & _). eexists. reflexivity.
    + unfold _async_query_request, bind, attr, gets. rewrite Es. reflexivity.
Qed.

(** X3. When the portal does not answer, the executor has made the request
    once, writes one [ERROR] record and returns no response. *)
Theorem unanswered_request_returns_none
        uri method extra_params extra_headers force_login timeout w0 w :
  asks_from force_login w0 w ->
  wired w ->
  supported method ->
  server (env w) (served (env w)) = NoAnswer ->
  let out :=
    _async_query uri method extra_params extra_headers force_login timeout w0 in
  fst out = Ok None
  /\ served (env (snd out)) = S (served (env w))
  /\ trace (env (snd out))
     = trace (env w) ++ announced uri method w ++
       [Request method (url_of w uri) extra_params extra_headers (Some timeout);
        Log ERROR "An exception occurred in request to ADT Pulse"].
Proof.
  intros Hfrom Hw Hm Ho. cbv zeta.
  rewrite (async_query_from _ _ _ _ _ _ _ _ Hfrom).
  exact (request_unanswered uri method extra_params extra_headers timeout w Hw Hm Ho).
Qed.

(** X4. When the portal answers with a status below 400, the executor
    returns the handle of a new response object, which holds the answer
    and is already closed; it has made the request once. *)
Theorem answered_request_returns_closed_response
        uri method extra_params extra_headers force_login timeout w0 w st body final :
  asks_from force_login w0 w ->
  wired w ->
  supported method ->
  server (env w) (served (env w)) = Answer st body final ->
  (st < 400)%Z ->
  let out :=
    _async_query uri method extra_params extra_headers force_login timeout w0 in
  let id := List.length (responses (env w)) in
  fst out = Ok (Some id)
  /\ nth id (responses (env (snd out))) no_response
     = {| status := st; text := body; url := final; closed := true |}
  /\ (forall j, j < id ->
                nth j (responses (env (snd out))) no_response
                = nth j (responses (env w)) no_response)
  /\ served (env (snd out)) = S (served (env w)).
Proof.
  intros Hfrom Hw Hm Ho Hst. cbv zeta.
  rewrite (async_query_from _ _ _ _ _ _ _ _ Hfrom).
  pose proof (request_answered uri method extra_params extra_headers timeout w st body
                final Hw Hm Ho Hst) as H.
  unfold wp in H. destruct H as (Hr & Hn & Hresp & _).
  split; [exact Hr|]. rewrite Hresp. split; [apply nth_snoc|].
  split; [|exact Hn]. intros j Hj. apply app_nth1, Hj.
Qed.

(** The headers of the session, if there is one. *)
Definition session_header (k : string) (w : World Site) : option string :=
  match _session (self w) with
  | Some s => dict_get k (headers s)
  | None => None
  end.

(** X5. The headers the executor leaves on the session after an answer with
    a status below 400: [Accept] is the default for the addresses of
    [ADT_HTTP_REFERER_URIS] and [*/*] for the others; [Referer] is set for
    the former only, to the system page for the device address and to the
    address of the response otherwise. *)
Theorem headers_after_answered_request
        uri method extra_params extra_headers timeout w st body final :
  wired w ->
  supported method ->
  server (env w) (served (env w)) = Answer st body final ->
  (st < 400)%Z ->
  let out := _async_query_request uri method extra_params extra_headers timeout w in
  if Py.str_in uri (ADT_HTTP_REFERER_URIS K) then
    session_header "Accept" (snd out) = Some (default_accept K)
    /\ session_header "Referer" (snd out)
       = Some (if String.eqb uri (ADT_DEVICE_URI K)
               then url_of w (ADT_SYSTEM_URI K) else final)
  else
    session_header "Accept" (snd out) = Some "*/*"
    /\ session_header "Referer" (snd out) = session_header "Referer" w.
Proof.
  intros [Hc Hs] Hm Ho Hst. apply Z.leb_gt in Hst. cbv zeta.
  change (wp (_async_query_request uri method extra_params extra_headers timeout) w
             (fun _ w' =>
                if Py.str_in uri (ADT_HTTP_REFERER_URIS K) then
                  session_header "Accept" w' = Some (default_accept K)
                  /\ session_header "Referer" w'
                     = Some (if String.eqb uri (ADT_DEVICE_URI K)
                             then url_of w (ADT_SYSTEM_URI K) else final)
                else
                  session_header "Accept" w' = Some "*/*"
                  /\ session_header "Referer" w' = session_header "Referer" w)).
  unfold _async_query_request. wp_run.
  destruct (_session (self w)) as [s|] eqn:Es; [|congruence].
  wp_run. rewrite Es. wp_run.
  destruct Hm; subst method; cbn [String.eqb Ascii.eqb Bool.eqb];
    (wp_run; rewrite Hc; wp_run; rewrite Ho; wp_run;
     rewrite update_nth_snoc, nth_snoc; cbn [status mark_closed]; rewrite Hst;
     wp_run;
     destruct (Py.str_in uri (ADT_HTTP_REFERER_URIS K));
     [ destruct (String.eqb uri (ADT_DEVICE_URI K)) | ];
     wp_run; rewrite ?update_nth_snoc, ?nth_snoc; cbn [url mark_closed]; wp_run;
     unfold session_header; look; rewrite ?Es; cbn [headers dict_update fold_left fst snd];
     rewrite ?dict_get_set_same;
     rewrite ?(dict_get_set_other "Accept" "Referer") by discriminate;
     rewrite ?(dict_get_set_other "Referer" "Accept") by discriminate;
     rewrite ?dict_get_set_same;
     split; reflexivity).
Qed.

(* ------------------------------------------------------------------ *)
(** * The properties of the client *)

Lemma poll_interval_setter_eq interval w :
  poll_interval_setter interval w = (Ok tt, on_self (set_poll_interval interval) w).
Proof.
  destruct w as [[] v]. unfold poll_interval_setter. unfold_reads. cbn.
  destruct _loop0; reflexivity.
Qed.

(** X6. Setting the poll interval changes that attribute and nothing else,
    whether or not the client is threaded, and reading it afterwards gives
    the value set. *)
Theorem poll_interval_round_trip interval w :
  let out := poll_interval_setter interval w in
  fst out = Ok tt
  /\ snd out = on_self (set_poll_interval interval) w
  /\ poll_interval (snd out) = (Ok interval, snd out).
Proof.
  cbv zeta. rewrite poll_interval_setter_eq. cbn [fst snd].
  split; [reflexivity|]. split; [reflexivity|]. apply poll_interval_eq.
Qed.

Lemma set_service_host_eq host w :
  set_service_host host w
  = (Ok tt,
     on_self
       (fun o =>
          set_session
            (option_map
               (fun s => {| headers :=
                              dict_update (ADT_DEFAULT_HTTP_HEADERS K)
                                (dict_update [("Host", host)] (headers s));
                            session_closed := session_closed s |})
               (_session o))
            (set_api_host ("https://" ++ host)%string o))
       w).
Proof.
  destruct w as [[] v]. unfold set_service_host, session_headers_update.
  unfold_reads. cbn.
  destruct _loop0, _session0; reflexivity.
Qed.

(** X7. [set_service_host] returns, leaves the lock as it was, and makes
    every address that [make_url] builds afterwards start with [https://]
    and the host; on a client with a session, the session's [Host] header
    is the host and its [User-Agent] and [Accept] headers are the
    defaults again. *)
Theorem service_host_decides_urls_and_headers host uri w :
  let out := set_service_host host w in
  fst out = Ok tt
  /\ make_url uri (snd out)
     = (Ok ("https://" ++ host ++ API_PREFIX K ++ _api_version (self w) ++ uri)%string,
        snd out)
  /\ _attribute_lock (self (snd out)) = _attribute_lock (self w)
  /\ (_session (self w) <> None ->
      session_header "Host" (snd out) = Some host
      /\ session_header "User-Agent" (snd out) = Some (default_user_agent K)
      /\ session_header "Accept" (snd out) = Some (default_accept K)).
Proof.
  cbv zeta. rewrite set_service_host_eq. cbn [fst snd].
  split; [reflexivity|]. split.
  { rewrite make_url_eq. unfold url_of. look. reflexivity. }
  split; [reflexivity|].
  intros Hs. unfold session_header. look.
  destruct (_session (self w)) as [s|]; [|congruence].
  cbn [option_map headers ADT_DEFAULT_HTTP_HEADERS dict_update fold_left fst snd].
  rewrite dict_get_set_same.
  rewrite (dict_get_set_other "User-Agent" "Accept") by discriminate.
  rewrite dict_get_set_same.
  rewrite (dict_get_set_other "Host" "Accept") by discriminate.
  rewrite (dict_get_set_other "Host" "User-Agent") by discriminate.
  rewrite dict_get_set_same.
  repeat split; reflexivity.
Qed.

Lemma updates_exist_eq w :
  updates_exist w
  = match _updates_exist (self w) with
    | Some true => (Ok true, on_self (set_updates_exist (Some false)) w)
    | _ => (Ok false, w)
    end.
Proof.
  destruct w as [[] v]. unfold updates_exist. unfold_reads. cbn.
  destruct _loop0, _updates_exist0 as [[|]|]; reflexivity.
Qed.

(** X8. Reading [updates_exist] while the event is set answers [True] once:
    the read clears the event and changes nothing else, and the next read
    answers [False]. *)
Theorem updates_exist_is_read_once w :
  _updates_exist (self w) = Some true ->
  let out := updates_exist w in
  fst out = Ok true
  /\ snd out = on_self (set_updates_exist (Some false)) w
  /\ updates_exist (snd out) = (Ok false, snd out).
Proof.
  intros H. cbv zeta. rewrite updates_exist_eq, H. cbn [fst snd].
  split; [reflexivity|]. split; [reflexivity|].
  rewrite updates_exist_eq. reflexivity.
Qed.

(** X9. [wait_for_update] on an event that is set returns at once and
    clears the event; on an event that is not set it does not return (it
    waits, or the pending cancellation reaches it) and the event stays as
    it is. *)
Theorem wait_for_update_consumes_or_waits w b :
  _updates_exist (self w) = Some b ->
  let out := wait_for_update w in
  if b then
    out = (Ok tt, on_self (set_updates_exist (Some false)) w)
  else
    ~ returned (fst out)
    /\ _updates_exist (self (snd out)) = Some false
    /\ (cancel_in (env w) = None -> out = (Blocked, w)).
Proof.
  intros H. cbv zeta. unfold wait_for_update, bind, attr, gets. rewrite H.
  destruct b; [reflexivity|].
  unfold suspend, bind, gets.
  destruct (cancel_in (env w)) as [[|k]|]; cbn;
    (split; [intros [a Ha]; discriminate|]); (split; [exact H|]);
    first [ discriminate | reflexivity ].
Qed.

(** The operations of the synchronous programming interface. *)
Definition uses_session_thread (op : Operation) : bool :=
  match op with
  | call_login | call_logout | call_query _ _ _ _ _ _ | call_update => true
  | _ => false
  end.

Fixpoint after_all (ops : list Operation) (w : World Site) : World Site :=
  match ops with
  | [] => w
  | op :: rest => after_all rest (snd (perform op w))
  end.

Definition no_loop (w : World Site) : Prop := _loop (self w) = None.

#[local] Hint Unfold no_loop : keeps.

Lemma no_loop_task_step id : keeps no_loop (task_step id).
Proof. keeps_auto. Qed.

#[local] Hint Resolve no_loop_task_step : keeps.

Lemma no_loop_run_until ids sched : keeps no_loop (run_until ids sched).
Proof. induction sched as [|id rest IH]; cbn [run_until]; keeps_auto. Qed.

#[local] Hint Resolve no_loop_run_until : keeps.

Lemma no_loop_perform op :
  uses_session_thread op = false -> keeps no_loop (perform op).
Proof. destruct op; cbn; intros H; try discriminate H; keeps_auto. Qed.

(** X10. A client that has no session loop gets none from the asynchronous
    interface, the properties or the background tasks: after any number of
    such operations, [query], [update] and [logout] still raise
    [RuntimeError] and do nothing. *)
Theorem sync_calls_need_sync_login ops w uri method extra_params extra_headers
        force_login timeout :
  _loop (self w) = None ->
  forallb (fun op => negb (uses_session_thread op)) ops = true ->
  let w' := after_all ops w in
  query uri method extra_params extra_headers force_login timeout w'
  = (Raise (RuntimeError "Attempting to run sync query from async login"), w')
  /\ update w'
     = (Raise (RuntimeError "Attempting to run sync update from async login"), w')
  /\ logout w'
     = (Raise (RuntimeError "Attempting to call sync logout without sync login"), w').
Proof.
  intros Hl Hops. cbv zeta.
  assert (H : _loop (self (after_all ops w)) = None).
  { revert w Hl. induction ops as [|op ops IH]; intros w Hl; [exact Hl|].
    cbn [forallb] in Hops. apply andb_prop in Hops. destruct Hops as [Hop Hrest].
    cbn [after_all]. apply (IH Hrest).
    apply (no_loop_perform op); [|exact Hl].
    destruct (uses_session_thread op); [discriminate Hop | reflexivity]. }
  unfold query, update, logout, bind, attr, gets. rewrite H. repeat split; reflexivity.
Qed.

(** X11. Construction with a web session never logs in, whatever [do_login]
    says: with credentials that pass the check it gives a client and leaves
    the environment untouched, and the session it was given carries the
    default headers. *)
Theorem construction_with_websession_does_not_login
        u p f host agent ws do_login interval v :
  u <> "" -> re_match email_pattern u = true -> p <> "" -> f <> "" ->
  exists w,
    __init__ (Some u) (Some p) (Some f) host agent (Some ws) do_login interval v
    = Ok w
    /\ env w = v
    /\ _authenticated (self w) = None
    /\ _session_thread (self w) = None
    /\ session_header "User-Agent" w = Some (default_user_agent K)
    /\ session_header "Accept" w = Some (default_accept K).
Proof.
  intros Hu Hm Hp Hf. unfold __init__.
  rewrite (init_login_info_stores u p f Hu Hm Hp Hf).
  rewrite andb_false_r. eexists. split; [reflexivity|].
  unfold session_header.
  cbn [self env fresh _session _authenticated _session_thread option_map headers
       ADT_DEFAULT_HTTP_HEADERS dict_update fold_left fst snd].
  rewrite dict_get_set_same.
  rewrite (dict_get_set_other "User-Agent" "Accept") by discriminate.
  rewrite dict_get_set_same. repeat split; reflexivity.
Qed.

(* ------------------------------------------------------------------ *)
(** * Version discovery, login and refresh *)

(** The version [_async_fetch_version] arrives at, by the portal's next
    answer. *)
Definition discovered (w : World Site) : string :=
  match _session (self w) with
  | None => ADT_DEFAULT_VERSION K
  | Some _ =>
      match server (env w) (served (env w)) with
      | Answer st body _ =>
          if (400 <=? st)%Z then ADT_DEFAULT_VERSION K
          else match re_search_version X body with
               | Some v => v
               | None => ADT_DEFAULT_VERSION K
               end
      | NoAnswer => ADT_DEFAULT_VERSION K
      end
  end.

(** X12. With no cancellation pending, the version discovery returns
    whether the portal answers or refuses the connection.  It asks the
    service host once when there is a session and not at all when there is
    none, and it leaves the version found in the answer, or the default
    version when there is no session, no answer, an error status or no
    version in the page. *)
Theorem version_discovery_falls_back_to_default w :
  calm w ->
  let out := _async_fetch_version w in
  fst out = Ok tt
  /\ _api_version (self (snd out)) = discovered w
  /\ requests (trace (env (snd out)))
     = requests (trace (env w)) ++
       match _session (self w) with
       | Some _ => [Request "GET" (_api_host (self w)) None None None]
       | None => []
       end.
Proof.
  intros Hc. unfold calm in Hc. cbv zeta.
  change (wp _async_fetch_version w
             (fun r w' =>
                r = Ok tt
                /\ _api_version (self w') = discovered w
                /\ requests (trace (env w'))
                   = requests (trace (env w)) ++
                     match _session (self w) with
                     | Some _ => [Request "GET" (_api_host (self w)) None None None]
                     | None => []
                     end)).
  unfold _async_fetch_version, discovered, version_fallback. wp_run.
  destruct (_session (self w)) as [s|] eqn:Es; wp_run.
  - rewrite Hc. wp_run.
    destruct (server (env w) (served (env w))) as [st body final|]; wp_run.
    + rewrite ?update_nth_snoc, ?nth_snoc. cbn [status text mark_closed].
      destruct (400 <=? st)%Z; wp_run.
      * repeat (split; [reflexivity|]). rewrite !requests_app. cbn.
        rewrite app_nil_r. reflexivity.
      * destruct (re_search_version X body); wp_run;
          repeat (split; [reflexivity|]); rewrite !requests_app; cbn;
          rewrite ?app_nil_r; reflexivity.
    + repeat (split; [reflexivity|]). rewrite !requests_app. cbn.
      rewrite app_nil_r. reflexivity.
  - repeat (split; [reflexivity|]). rewrite !requests_app. cbn.
    rewrite !app_nil_r. reflexivity.
Qed.

(** The task handles, the sites and the updates event of [w1] are those
    of [w]. *)
Definition kept (w w1 : World Site) : Prop :=
  _sync_task (self w1) = _sync_task (self w)
  /\ _timeout_task (self w1) = _timeout_task (self w)
  /\ _sites (self w1) = _sites (self w)
  /\ _updates_exist (self w1) = _updates_exist (self w).

#[local] Hint Unfold kept : keeps.

Lemma kept_request w uri method extra_params extra_headers timeout :
  keeps (kept w) (_async_query_request uri method extra_params extra_headers timeout).
Proof. keeps_auto. Qed.

(** Up to the login request: [async_login] has made a session if there was
    none, a new authenticated event, and the version request. *)
Lemma login_reaches_request w (Q : Res unit -> World Site -> Prop)
      (rest : option nat -> M unit) :
  calm w ->
  (forall w1,
      signing w1 -> _authenticated (self w1) = Some false ->
      server (env w1) = server (env w) ->
      served (env w1) = S (served (env w)) ->
      tasks (env w1) = tasks (env w) ->
      kept w w1 ->
      wp (response <-
            _async_query_request (ADT_LOGIN_URI K) "POST"
              (Some [("partner", "adt"); ("usernameForm", _username (_creds (self w)));
                     ("passwordForm", _password (_creds (self w)));
                     ("fingerprint", _fingerprint (_creds (self w)));
                     ("sun", "yes")])
              None 10%Z ;;
          rest response) w1 Q) ->
  wp (emit (Enter InLogin) ;;
      s <- attr _session ;;
      match s with
      | None =>
          assign (set_session (Some {| headers := []; session_closed := false |})) ;;
          session_headers_update (ADT_DEFAULT_HTTP_HEADERS K)
      | Some _ => ret tt
      end ;;
      assign (set_authenticated (Some false)) ;;
      c <- attr _creds ;;
      LOG DEBUG ("Authenticating to ADT Pulse cloud service as " ++ _username c)%string ;;
      _async_fetch_version ;;
      response <-
        _async_query_request (ADT_LOGIN_URI K) "POST"
          (Some [("partner", "adt"); ("usernameForm", _username c);
                 ("passwordForm", _password c); ("fingerprint", _fingerprint c);
                 ("sun", "yes")])
          None 10%Z ;;
      rest response) w Q.
Proof.
  intros Hc Hrest. unfold calm in Hc. wp_run.
  destruct (_session (self w)) as [s|] eqn:Es; wp_run;
    match goal with
    | |- wp _ ?W _ =>
        assert (Hsig : signing W)
          by (unfold signing; look; rewrite ?Es;
              repeat split; [exact Hc | discriminate | discriminate]);
        assert (Hauth : auth_is (Some false) W) by reflexivity;
        assert (Hsrv : server_is (server (env w)) W) by reflexivity;
        assert (Hn : served (env W) = served (env w)) by reflexivity;
        assert (Ht : tasks (env W) = tasks (env w)) by reflexivity;
        assert (Hcr : _creds (self W) = _creds (self w)) by reflexivity;
        assert (Hk : kept w W) by (repeat split; reflexivity);
        revert Hsig Hauth Hsrv Hn Ht Hcr Hk; generalize W;
        intros w0 Hsig Hauth Hsrv Hn Ht Hcr Hk
    end.
  all: assert (Hwired0 : wired w0) by (destruct Hsig as (? & ? & ?); split; assumption).
  all: apply wp_bind; eapply wp_conseq;
    [ apply wp_and; [exact (fetch_version_once w0 Hwired0)|];
      apply wp_and; [exact (wp_keeps _ _ _ (auth_fetch_version _) Hauth)|];
      apply wp_and; [exact (wp_keeps _ _ _ (server_fetch_version _) Hsrv)|];
      apply wp_and;
      [ apply (wp_keeps _ _ (fun w' => tasks (env w') = tasks (env w)));
        [keeps_auto | exact Ht] |];
      apply wp_and; [apply (wp_keeps _ _ (kept w)); [keeps_auto | exact Hk] |];
      apply (wp_good _ _ signing never); unfold signing, never;
      unfold signing in Hsig; unfold _async_fetch_version; run_auto
    | ].
  all: cbv beta; intros r w1 ((Hr & Hn1) & Ha1 & Hs1 & Ht1 & Hk1 & Hsig1 & _); subst r;
    settle.
  all: unfold auth_is, server_is in *.
  all: apply Hrest;
    [exact Hsig1 | exact Ha1 | exact Hs1 | congruence | exact Ht1 | exact Hk1].
Qed.

(** The sign-out link is on the page when [_update_sites] asks for it:
    the client has no site yet and the page names one. *)
Definition readable (soup : Soup) (w : World Site) : Prop :=
  _sites (self w) = [] ->
  soup_singlePremise X soup <> None ->
  soup_signoutlink X soup <> None.

(** [_update_sites] changes the sites and the log, and nothing else; it
    raises only for the missing sign-out link. *)
Lemma update_sites_frame soup w :
  wp (_update_sites soup) w
     (fun r w' =>
        (r = Ok tt \/ r = Raise no_signout_link /\ ~ readable soup w)
        /\ exists ss tr,
            self w' = set_sites ss (self w) /\ env w' = set_trace tr (env w)).
Proof.
  unfold _update_sites, _initialize_sites. wp_cases.
  all: split;
    [ first [ left; reflexivity
            | right; split; [reflexivity|]; unfold readable; intros H;
              apply H; [assumption | congruence | assumption] ] |].
  all: first
    [ solve [eexists; eexists; look; split; reflexivity]
    | solve [eexists; exists (trace (env w)); look; split;
             [reflexivity | destruct w as [o v]; destruct v; reflexivity]]
    | exists (_sites (self w)), (trace (env w));
      destruct w as [o v]; destruct o, v; split; reflexivity ].
Qed.

Lemma nth_error_snoc {A} (l : list A) (x : A) :
  nth_error (l ++ [x]) (List.length l) = Some x.
Proof. induction l as [|y l IH]; cbn; auto. Qed.

Lemma nth_error_snoc2 {A} (l : list A) (x y : A) :
  nth_error ((l ++ [x]) ++ [y]) (List.length l) = Some x.
Proof. induction l as [|z l IH]; cbn; auto. Qed.

Lemma nth_error_snoc3 {A} (l : list A) (x y : A) :
  nth_error ((l ++ [x]) ++ [y]) (S (List.length l)) = Some y.
Proof. induction l as [|z l IH]; cbn; auto. Qed.

Lemma nth_error_update_nth_same {A} id (f : A -> A) l t :
  nth_error l id = Some t ->
  nth_error (update_nth id f l) id = Some (f t).
Proof.
  revert id. induction l as [|x l IH]; intros [|id] H; cbn in *; try discriminate; auto.
  injection H as ->. reflexivity.
Qed.

Lemma nth_error_update_nth_other {A} id id' (f : A -> A) l :
  id <> id' ->
  nth_error (update_nth id f l) id' = nth_error l id'.
Proof.
  revert id id'. induction l as [|x l IH]; intros [|id] [|id'] H; cbn; auto.
  congruence.
Qed.

(** The first run of a task just made: the sync check goes to sleep when
    the updates event exists, the keepalive task when the client is
    authenticated. *)
Definition first_log (k : TaskKind) : Event :=
  Log DEBUG (match k with
             | SyncCheck => "creating Pulse sync check task"
             | Keepalive => "creating Pulse keepalive task"
             end).

Definition can_start (k : TaskKind) (w : World Site) : Prop :=
  match k with
  | SyncCheck => _updates_exist (self w) <> None
  | Keepalive => _authenticated (self w) = Some true
  end.

Lemma first_run_sleeps id k w :
  nth_error (tasks (env w)) id
  = Some {| kind := k; phase := Created; cancel_requested := false |} ->
  can_start k w ->
  task_first_run id w
  = (Ok tt,
     on_env (fun v =>
               set_tasks
                 (update_nth id (moved_to (Sleeping None)) (tasks (set_trace (trace v ++ [first_log k]) v)))
                 (set_trace (trace v ++ [first_log k]) v))
            w).
Proof.
  intros Ht Hs.
  unfold task_first_run, task_at, bind, gets. rewrite Ht. cbn [phase cancel_requested kind].
  destruct k; cbn [can_start] in Hs.
  - destruct (_updates_exist (self w)) as [u|] eqn:Eu; [|congruence].
    unfold try_except, task_enter, sync_check_enter, LOG, emit, around, bind, attr, gets,
      ret, task_put. cbn. rewrite Eu. reflexivity.
  - unfold try_except, task_enter, keepalive_enter, keepalive_while, LOG, emit, around,
      bind, attr, gets, ret, task_put. cbn. rewrite Hs. cbn. rewrite Hs. reflexivity.
Qed.

(** What a login that the portal accepts leaves. *)
Definition new_sync (w : World Site) : nat :=
  match _sync_task (self w) with
  | Some a => a
  | None => List.length (tasks (env w))
  end.

Definition new_keepalive (w : World Site) : nat :=
  match _timeout_task (self w) with
  | Some b => b
  | None =>
      match _sync_task (self w) with
      | Some _ => List.length (tasks (env w))
      | None => S (List.length (tasks (env w)))
      end
  end.

Lemma login_accepted w st body final soup :
  calm w ->
  server (env w) (S (served (env w))) = Answer st body final ->
  (st < 400)%Z ->
  ext_make_soup X {| status := st; text := body; url := final; closed := true |}
  = Some soup ->
  soup_warnMsgContents X soup = false ->
  readable soup w ->
  wp async_login w
     (fun r w' =>
        r = Ok tt
        /\ signing w'
        /\ _authenticated (self w') = Some true
        /\ _updates_exist (self w') <> None
        /\ _last_timeout_reset (self w') = clock (env w')
        /\ _sync_timestamp (self w') = clock (env w')
        /\ served (env w') = S (S (served (env w)))
        /\ _sync_task (self w') = Some (new_sync w)
        /\ _timeout_task (self w') = Some (new_keepalive w)
        /\ (_sync_task (self w) = None -> stands (new_sync w) (Sleeping None) w')
        /\ (_timeout_task (self w) = None ->
            stands (new_keepalive w) (Sleeping None) w')).
Proof.
  intros Hc Ho Hst Hsoup Hwarn Hread.
  unfold async_login. apply login_reaches_request; [exact Hc|].
  intros w1 Hsig1 Ha1 Hs1 Hn1 Ht1 Hk1.
  assert (Hwired1 : wired w1) by (destruct Hsig1 as (? & ? & ?); split; assumption).
  assert (Ho1 : server (env w1) (served (env w1)) = Answer st body final)
    by (rewrite Hs1, Hn1; exact Ho).
  apply wp_bind. eapply wp_conseq.
  { apply wp_and;
      [ exact (request_answered _ _ _ _ _ _ _ _ _ Hwired1 (or_intror eq_refl) Ho1 Hst) |].
    apply wp_and; [exact (wp_keeps _ _ _ (auth_request _ _ _ _ _ _) Ha1)|].
    apply wp_and; [exact (wp_keeps _ _ _ (kept_request _ _ _ _ _ _) Hk1)|].
    apply wp_and;
      [ apply (wp_keeps _ _ (fun w' => tasks (env w') = tasks (env w)));
        [keeps_auto | exact Ht1] |].
    apply (wp_good _ _ wired never). unfold wired, never.
    unfold wired in Hwired1. unfold _async_query_request. run_auto. }
  cbv beta.
  intros r w2 ((Hr & Hn2 & Hresp & _) & Ha2 & Hk2 & Ht2 & (Hc2 & Hses2) & _).
  subst r. settle.
  destruct Hk2 as (Hks & Hkt & Hksites & Hku).
  unfold auth_is, calm in *.
  unfold make_soup, authenticated_put. wp_run.
  rewrite Hresp, nth_snoc, Hsoup. wp_run. rewrite Hwarn. wp_run. rewrite Ha2.
  wp_run. apply wp_bind. eapply wp_conseq; [apply update_sites_frame|].
  cbv beta. intros r w3 (Hr & ss & tr & Hself & Henv).
  destruct Hr as [-> | [_ Hnot]].
  2: { exfalso. apply Hnot. unfold readable in *. look. rewrite Hksites. exact Hread. }
  settle.
  destruct w3 as [o3 v3]. cbn [self env] in Hself, Henv. subst o3 v3.
  unfold new_sync, new_keepalive, stands.
  wp_run. rewrite Hks.
  destruct (_sync_task (self w)) as [a|] eqn:Ea; wp_run; rewrite Hkt;
    destruct (_timeout_task (self w)) as [b|] eqn:Eb; wp_run; rewrite Hku;
    destruct (_updates_exist (self w)) as [u|] eqn:Eu; wp_run;
    unfold asyncio_sleep_0; cbn [app for_each]; wp_run.
  all: repeat
         ((apply wp_bind; eapply wp_eq;
           [ apply first_run_sleeps; look;
             [ first
                 [ apply nth_error_snoc
                 | rewrite nth_error_app1 by (rewrite length_app; cbn; lia);
                   apply nth_error_snoc
                 | rewrite nth_error_update_nth_other
                     by (rewrite ?length_app; cbn; lia);
                   apply nth_error_snoc ]
             | cbn [can_start]; look; first [reflexivity | congruence | discriminate] ]
           | settle; look ]);
          wp_run).
  all: rewrite ?Hc2; wp_run.
  all: split; [reflexivity|].
  all: split;
    [unfold signing; look; repeat split; [exact Hc2 | exact Hses2 | discriminate]|].
  all: split; [reflexivity|].
  all: split; [look; rewrite ?Hku; discriminate|].
  all: split; [look; rewrite Z.add_0_r; reflexivity|].
  all: split; [look; rewrite Z.add_0_r; reflexivity|].
  all: split; [look; rewrite Hn2, Hn1; reflexivity|].
  all: rewrite <- ?Ht2; look; rewrite ?length_app; cbn [List.length];
    rewrite ?Nat.add_1_r.
  all: split; [first [exact Hks | reflexivity]|].
  all: split; [first [exact Hkt | reflexivity]|].
  all: split; intros Hn; try discriminate Hn.
  all: repeat first
         [ rewrite nth_error_update_nth_other by lia
         | erewrite nth_error_update_nth_same
             by first [ apply nth_error_snoc | apply nth_error_snoc2
                      | apply nth_error_snoc3
                      | rewrite nth_error_update_nth_other by lia;
                        first [ apply nth_error_snoc | apply nth_error_snoc2
                              | apply nth_error_snoc3 ] ] ].
  all: reflexivity.
Qed.

(** X13. A login that the portal accepts (an answer to the login request
    with a status below 400, a page without the error panel and with the
    sign-out link where [_update_sites] asks for it), with no cancellation
    pending: [async_login] returns having made two requests, the
    authenticated event is set, the updates event exists, both time stamps
    are the time of the login, both task handles are set, and the tasks
    the login made have had their first run and sleep. *)
Theorem accepted_login_sets_up_the_session w st body final soup :
  calm w ->
  server (env w) (S (served (env w))) = Answer st body final ->
  (st < 400)%Z ->
  ext_make_soup X {| status := st; text := body; url := final; closed := true |}
  = Some soup ->
  soup_warnMsgContents X soup = false ->
  readable soup w ->
  let out := async_login w in
  fst out = Ok tt
  /\ is_connected (snd out) = (Ok true, snd out)
  /\ _updates_exist (self (snd out)) <> None
  /\ _last_timeout_reset (self (snd out)) = clock (env (snd out))
  /\ _sync_timestamp (self (snd out)) = clock (env (snd out))
  /\ served (env (snd out)) = S (S (served (env w)))
  /\ _sync_task (self (snd out)) = Some (new_sync w)
  /\ _timeout_task (self (snd out)) = Some (new_keepalive w)
  /\ (_sync_task (self w) = None -> stands (new_sync w) (Sleeping None) (snd out))
  /\ (_timeout_task (self w) = None ->
      stands (new_keepalive w) (Sleeping None) (snd out)).
Proof.
  intros Hc Ho Hst Hsoup Hwarn Hread. cbv zeta.
  destruct (login_accepted w st body final soup Hc Ho Hst Hsoup Hwarn Hread)
    as (H1 & _ & H3 & H4 & H5 & H6 & H7 & H8 & H9 & H10 & H11).
  split; [exact H1|].
  split; [rewrite is_connected_eq, H3; reflexivity|].
  repeat split; assumption.
Qed.

(** The tasks there are, and the two handles. *)
Definition tasks_are (l : list Task) (a b : nat) (w : World Site) : Prop :=
  tasks (env w) = l /\ _sync_task (self w) = Some a /\ _timeout_task (self w) = Some b.

#[local] Hint Unfold tasks_are : keeps.

(** X14. A login made while both task handles exist makes no task and
    leaves the handles as they are, whatever the portal answers. *)
Theorem login_keeps_existing_tasks w a b :
  _sync_task (self w) = Some a ->
  _timeout_task (self w) = Some b ->
  let out := async_login w in
  tasks (env (snd out)) = tasks (env w)
  /\ _sync_task (self (snd out)) = Some a
  /\ _timeout_task (self (snd out)) = Some b.
Proof.
  intros Ha Hb. cbv zeta.
  change (wp async_login w (fun _ w' => tasks_are (tasks (env w)) a b w')).
  remember (tasks (env w)) as l eqn:El.
  assert (H0 : tasks_are l a b w) by (repeat split; [symmetry|..]; assumption).
  assert (Hstep : forall A B (m : M A) (f : A -> M B) w0,
             keeps (tasks_are l a b) m -> tasks_are l a b w0 ->
             (forall x w1, tasks_are l a b w1 ->
                           wp (f x) w1 (fun _ w' => tasks_are l a b w')) ->
             wp (bind m f) w0 (fun _ w' => tasks_are l a b w')).
  { intros A B m f w0 Hk Hw Hf. apply wp_bind.
    eapply wp_conseq; [exact (wp_keeps _ _ _ Hk Hw)|].
    cbv beta. intros r w1 H1. destruct r; settle; auto. }
  unfold async_login.
  apply Hstep; [keeps_auto | exact H0 |]. intros _ w1 H1.
  apply Hstep; [keeps_auto | exact H1 |]. intros s w2 H2.
  apply Hstep; [keeps_auto | exact H2 |]. intros _ w3 H3.
  apply Hstep; [keeps_auto | exact H3 |]. intros _ w4 H4.
  apply Hstep; [keeps_auto | exact H4 |]. intros c w5 H5.
  apply Hstep; [keeps_auto | exact H5 |]. intros _ w6 H6.
  apply Hstep; [keeps_auto | exact H6 |]. intros _ w7 H7.
  apply Hstep; [keeps_auto | exact H7 |]. intros response w8 H8.
  apply Hstep; [keeps_auto | exact H8 |]. intros [soup|] w9 H9.
  2: { apply wp_keeps; [keeps_auto | exact H9]. }
  destruct (soup_warnMsgContents X soup).
  { apply wp_keeps; [keeps_auto | exact H9]. }
  apply Hstep; [keeps_auto | exact H9 |]. intros _ w10 H10.
  apply Hstep; [keeps_auto | exact H10 |]. intros now w11 H11.
  apply Hstep; [keeps_auto | exact H11 |]. intros _ w12 H12.
  apply Hstep; [keeps_auto | exact H12 |]. intros _ w13 H13.
  apply Hstep; [keeps_auto | exact H13 |]. intros now' w14 H14.
  apply Hstep; [keeps_auto | exact H14 |]. intros _ w15 H15.
  destruct H15 as (Ht & Hs & Hb15).
  wp_run. rewrite Hs. wp_run. rewrite Hb15.
  apply wp_ret. settle. cbn [app].
  unfold asyncio_sleep_0. cbn [for_each].
  apply wp_keeps; [keeps_auto | repeat split; assumption].
Qed.

(** The portal does not answer, or answers with an error status. *)
Definition refuses (o : HttpOutcome) : Prop :=
  match o with
  | Answer st _ _ => (400 <= st)%Z
  | NoAnswer => True
  end.

(** X15. A login whose request fails (the portal does not answer it, or
    answers with an error status), with no cancellation pending:
    [async_login] returns without raising, the authenticated event is
    cleared, no task is made, and the last thing logged is the [ERROR]
    record that the login failed. *)
Theorem failed_login_request_stays_cleared w :
  calm w ->
  refuses (server (env w) (S (served (env w)))) ->
  let out := async_login w in
  fst out = Ok tt
  /\ is_connected (snd out) = (Ok false, snd out)
  /\ tasks (env (snd out)) = tasks (env w)
  /\ served (env (snd out)) = S (S (served (env w)))
  /\ exists tr,
      trace (env (snd out)) = tr ++ [Log ERROR "Could not log into ADT Pulse site"].
Proof.
  intros Hc Hout. cbv zeta.
  change (wp async_login w
             (fun r w' =>
                r = Ok tt
                /\ is_connected w' = (Ok false, w')
                /\ tasks (env w') = tasks (env w)
                /\ served (env w') = S (S (served (env w)))
                /\ exists tr,
                    trace (env w')
                    = tr ++ [Log ERROR "Could not log into ADT Pulse site"])).
  unfold async_login. apply login_reaches_request; [exact Hc|].
  intros w1 Hsig1 Ha1 Hs1 Hn1 Ht1 _.
  assert (Hwired1 : wired w1) by (destruct Hsig1 as (? & ? & ?); split; assumption).
  assert (Hout1 : outcome_of w1 = None).
  { unfold outcome_of. rewrite Hs1, Hn1. unfold refuses in Hout.
    destruct (server (env w) (S (served (env w)))) as [st body final|];
      [|reflexivity].
    apply Z.leb_le in Hout. rewrite Hout. reflexivity. }
  apply wp_bind. eapply wp_conseq.
  { apply wp_and;
      [ exact (request_once _ _ _ _ _ w1 Hwired1 (or_intror eq_refl)) |].
    apply wp_and; [exact (wp_keeps _ _ _ (auth_request _ _ _ _ _ _) Ha1)|].
    apply (wp_keeps _ _ (fun w' => tasks (env w') = tasks (env w)));
      [keeps_auto | exact Ht1]. }
  cbv beta. intros r w2 ((Hr & Hn2 & _) & Ha2 & Ht2). subst r. rewrite Hout1. settle.
  unfold auth_is in Ha2.
  unfold make_soup, authenticated_put. wp_run. rewrite Ha2. wp_run.
  split; [reflexivity|].
  split; [rewrite is_connected_eq; reflexivity|].
  split; [exact Ht2|].
  split; [rewrite Hn2, Hn1; reflexivity|].
  eexists. reflexivity.
Qed.

(** What the refresh gets to parse, by the portal's next answer. *)
Definition page_of (w : World Site) : option Soup :=
  match server (env w) (served (env w)) with
  | Answer st body final =>
      if (400 <=? st)%Z then None
      else ext_make_soup X
             {| status := st; text := body; url := final; closed := true |}
  | NoAnswer => None
  end.

Definition sites_are (l : list Site) (w : World Site) : Prop := _sites (self w) = l.

#[local] Hint Unfold sites_are : keeps.


(* ------------------------------------------------------------------ *)
(** * The sites *)

Definition few_sites (w : World Site) : Prop :=
  (List.length (_sites (self w)) <= 1)%nat.

#[local] Hint Unfold few_sites : keeps.

Lemma few_sites_update_sites soup : keeps few_sites (_update_sites soup).
Proof.
  intros w H.
  change (wp (_update_sites soup) w (fun _ w' => few_sites w')).
  unfold few_sites in *. unfold _update_sites, _initialize_sites. wp_cases.
  all: look; rewrite ?length_map, ?length_app; try assumption.
  all: match goal with E : _sites (self _) = _ |- _ => rewrite E in * end.
  all: cbn in *; lia.
Qed.

#[local] Hint Resolve few_sites_update_sites : keeps.

Lemma few_sites_task_step id : keeps few_sites (task_step id).
Proof. keeps_auto. Qed.

#[local] Hint Resolve few_sites_task_step : keeps.

Lemma few_sites_run_until ids sched : keeps few_sites (run_until ids sched).
Proof. induction sched as [|id rest IH]; cbn [run_until]; keeps_auto. Qed.

#[local] Hint Resolve few_sites_run_until : keeps.

Lemma few_sites_run_submitted coros : keeps few_sites (run_submitted coros).
Proof. induction coros as [|coro rest IH]; cbn [run_submitted]; keeps_auto. Qed.

#[local] Hint Resolve few_sites_run_submitted : keeps.

Lemma few_sites_perform op : keeps few_sites (perform op).
Proof. destruct op; keeps_auto. Qed.

(** X17. The client never holds more than one site: a site is only added
    when there is none, so whatever is done with a client that has at most
    one site, it has at most one afterwards (and the branch that reports
    several sites is never taken). *)
Theorem at_most_one_site ops w :
  (List.length (_sites (self w)) <= 1)%nat ->
  (List.length (_sites (self (after_all ops w))) <= 1)%nat.
Proof.
  revert w. induction ops as [|op ops IH]; intros w H; [exact H|].
  cbn [after_all]. apply IH. exact (few_sites_perform op w H).
Qed.

(* ------------------------------------------------------------------ *)
(** * The tasks and their cancellation *)

Lemma poll_not_cancelled : runs calm not_cancelled sync_check_poll.
Proof. unfold calm, not_cancelled. intros w HJ. unfold sync_check_poll. run_auto. Qed.

Lemma react_not_cancelled response : runs calm not_cancelled (sync_check_react response).
Proof.
  unfold calm, not_cancelled. intros w HJ. unfold sync_check_react. run_auto.
Qed.

(** Every way through [sync_check_react] ends in [continue]. *)
Lemma react_goes_on response w :
  wp (sync_check_react response) w (fun r _ => r <> Ok Return).
Proof.
  unfold sync_check_react. destruct response as [id|]; [|apply wp_ret; discriminate].
  repeat first
    [ apply wp_ret; discriminate
    | apply wp_bind_last; [intros ? ? | intros; discriminate | intros; discriminate]
    | match goal with
      | |- wp (if ?c then _ else _) _ _ => destruct c
      end ].
Qed.

(** X18. The sync check task ends by returning only when a cancellation
    reaches it: a run of the task that starts with no cancellation pending
    does not end the task by returning. *)
Theorem sync_check_returns_on_cancellation_only from w :
  let out := _sync_check_task from w in
  fst out = Ok Finished ->
  from = Finished \/ cancel_in (env w) <> None.
Proof.
  cbv zeta.
  change (wp (_sync_check_task from) w
             (fun r _ => r = Ok Finished ->
                         from = Finished \/ cancel_in (env w) <> None)).
  destruct from as [|response| |e|]; unfold _sync_check_task.
  - unfold sync_check_enter. wp_cases; discriminate.
  - destruct (cancel_in (env w)) as [k|] eqn:Ec.
    { apply wp_always. intros _ _ _. right. discriminate. }
    unfold sync_check_try. apply wp_bind, wp_bind, wp_try_except, wp_bind.
    eapply wp_conseq; [exact (wp_runs _ _ _ _ poll_not_cancelled Ec)|].
    cbv beta. intros r w1 [Hc1 Hr].
    destruct r as [got|e|]; settle.
    + apply wp_ret. settle. apply wp_try_except.
      eapply wp_conseq;
        [ apply wp_and;
          [ exact (wp_runs _ _ _ _ (react_not_cancelled got) Hc1)
          | apply react_goes_on ] |].
      cbv beta. intros r w2 [[_ Hr2] Hgo].
      destruct r as [[r'|]|e|]; settle.
      * wp_run. discriminate.
      * congruence.
      * cbn in Hr2. unfold not_cancelled in Hr2.
        destruct e; cbn [sync_check_cancelled]; try discriminate. congruence.
      * discriminate.
    + cbn in Hr. unfold not_cancelled in Hr.
      destruct e; cbn [sync_check_cancelled]; try discriminate. congruence.
    + discriminate.
  - wp_run. intros _. left. reflexivity.
  - wp_run. discriminate.
  - wp_run. discriminate.
Qed.

(** A cancellation due at the sleep: what the two tasks do. *)
Lemma keepalive_cancelled_in_sleep response w :
  cancel_in (env w) = Some 0 ->
  wp (_keepalive_task (Sleeping response)) w
     (fun r w' =>
        r = Ok Finished
        /\ released response w'
        /\ served (env w') = served (env w)
        /\ tasks (env w') = tasks (env w)
        /\ cancel_in (env w') = None
        /\ trace (env w') = trace (env w) ++ [Log DEBUG "ADT Pulse timeout task cancelled"]).
Proof.
  intros Hc. unfold _keepalive_task, keepalive_try, _close_response.
  wp_run. rewrite Hc. wp_run. cbn [keepalive_cancelled]. wp_run.
  destruct response as [id|]; wp_run.
  - destruct (closed (nth id (responses (env w)) no_response)) eqn:Eclosed; wp_run;
      (split; [reflexivity|]); (split; [unfold released; look|]);
      first [ exact Eclosed | apply closed_after_close | repeat split; reflexivity ].
  - repeat split; reflexivity.
Qed.

Lemma sync_check_cancelled_in_sleep response w :
  cancel_in (env w) = Some 0 ->
  wp (_sync_check_task (Sleeping response)) w
     (fun r w' =>
        r = Ok Finished
        /\ released response w'
        /\ served (env w') = served (env w)
        /\ tasks (env w') = tasks (env w)
        /\ cancel_in (env w') = None
        /\ trace (env w')
           = trace (env w) ++ [Log DEBUG "ADT Pulse sync check task cancelled"]).
Proof.
  intros Hc. unfold _sync_check_task, sync_check_try, sync_check_poll, _close_response.
  wp_run. rewrite Hc. wp_run. cbn [sync_check_cancelled]. wp_run.
  destruct response as [id|]; wp_run.
  - destruct (closed (nth id (responses (env w)) no_response)) eqn:Eclosed; wp_run;
      (split; [reflexivity|]); (split; [unfold released; look|]);
      first [ exact Eclosed | apply closed_after_close | repeat split; reflexivity ].
  - repeat split; reflexivity.
Qed.

(** X19. A cancellation that is due when a task wakes from its sleep ends
    the task there: either task returns without having made a request,
    with the response its variable held closed, and has logged that it was
    cancelled. *)
Theorem due_cancellation_ends_the_task k response w :
  cancel_in (env w) = Some 0 ->
  let out := task_body k (Sleeping response) w in
  fst out = Ok Finished
  /\ released response (snd out)
  /\ served (env (snd out)) = served (env w)
  /\ trace (env (snd out))
     = trace (env w) ++
       [Log DEBUG (match k with
                   | Keepalive => "ADT Pulse timeout task cancelled"
                   | SyncCheck => "ADT Pulse sync check task cancelled"
                   end)].
Proof.
  intros Hc. cbv zeta. destruct k; cbn [task_body].
  - destruct (sync_check_cancelled_in_sleep response w Hc) as (H1 & H2 & H3 & _ & _ & H4).
    repeat split; assumption.
  - destruct (keepalive_cancelled_in_sleep response w Hc) as (H1 & H2 & H3 & _ & _ & H4).
    repeat split; assumption.
Qed.

Lemma phase_update_nth_same id (f : Task -> Task) l t :
  nth_error l id = Some t ->
  nth_error (update_nth id f l) id = Some (f t).
Proof.
  revert id. induction l as [|x l IH]; intros [|id] H; cbn in *; try discriminate; auto.
  injection H as ->. reflexivity.
Qed.

(** X20. The loop delivers a cancellation that was asked for: when it runs
    a task that waits in its sleep and whose cancellation was requested,
    the task ends, the response its variable held is closed, no request
    is made, and the request for cancellation is used up. *)
Theorem loop_delivers_requested_cancellation id t response w :
  nth_error (tasks (env w)) id = Some t ->
  phase t = Sleeping response ->
  cancel_requested t = true ->
  let out := task_step id w in
  fst out = Ok tt
  /\ nth_error (tasks (env (snd out))) id
     = Some {| kind := kind t; phase := Finished; cancel_requested := false |}
  /\ released response (snd out)
  /\ served (env (snd out)) = served (env w)
  /\ cancel_in (env (snd out)) = cancel_in (env w).
Proof.
  intros Ht Hp Hr. cbv zeta.
  change (wp (task_step id) w
             (fun r w' =>
                r = Ok tt
                /\ nth_error (tasks (env w')) id
                   = Some {| kind := kind t; phase := Finished;
                             cancel_requested := false |}
                /\ released response w'
                /\ served (env w') = served (env w)
                /\ cancel_in (env w') = cancel_in (env w))).
  unfold task_step, task_at. apply wp_bind, wp_gets. settle.
  rewrite Ht. unfold task_done. rewrite Hp, Hr. settle.
  apply wp_bind, wp_gets. settle. apply wp_bind, wp_around. settle.
  apply wp_bind, wp_try_except.
  match goal with
  | |- wp _ ?W _ =>
      assert (HcW : cancel_in (env W) = Some 0) by reflexivity;
      assert (HsW : served (env W) = served (env w)) by reflexivity;
      assert (HtW : tasks (env W) = tasks (env w)) by reflexivity;
      revert HcW HsW HtW; generalize W; intros w0 HcW HsW HtW
  end.
  assert (H : wp (task_body (kind t) (Sleeping response)) w0
                 (fun r w' =>
                    r = Ok Finished
                    /\ released response w'
                    /\ served (env w') = served (env w0)
                    /\ tasks (env w') = tasks (env w0))).
  { destruct (kind t); cbn [task_body].
    - eapply wp_conseq; [exact (sync_check_cancelled_in_sleep response w0 HcW)|].
      cbv beta. intros r w1 (H1 & H2 & H3 & H4 & _). repeat split; assumption.
    - eapply wp_conseq; [exact (keepalive_cancelled_in_sleep response w0 HcW)|].
      cbv beta. intros r w1 (H1 & H2 & H3 & H4 & _). repeat split; assumption. }
  eapply wp_conseq; [exact H|].
  cbv beta. intros r w1 (-> & Hrel & Hs1 & Ht1). settle. unfold task_put. wp_run.
  split; [reflexivity|].
  split; [rewrite Ht1, HtW; exact (phase_update_nth_same id _ _ t Ht)|].
  split; [exact Hrel|]. split; [congruence | reflexivity].
Qed.

(* ------------------------------------------------------------------ *)
(** * Logout *)

(** Task [t] has ended, or its cancellation has been asked for. *)
Definition cancelled (t : nat) (w : World Site) : Prop :=
  match nth_error (tasks (env w)) t with
  | Some x => task_done x = true \/ cancel_requested x = true
  | None => True
  end.

(** What [_close_response] leaves of the response store. *)
Definition closing (response : option nat) (rs : list ClientResponse)
  : list ClientResponse :=
  match response with
  | Some id =>
      if closed (nth id rs no_response) then rs else update_nth id mark_closed rs
  | None => rs
  end.

Definition cancelled_log (k : TaskKind) : Event :=
  Log DEBUG (match k with
             | Keepalive => "ADT Pulse timeout task cancelled"
             | SyncCheck => "ADT Pulse sync check task cancelled"
             end).

Lemma wp_is {A} (m : M A) w a b :
  wp m w (fun r w' => r = a /\ w' = b) -> m w = (a, b).
Proof. unfold wp. intros [H1 H2]. destruct (m w). cbn in *. congruence. Qed.

(** A cancellation due at the sleep, in full: the task logs, closes what
    its variable holds, and returns. *)
Lemma cancelled_in_sleep k response w :
  cancel_in (env w) = Some 0 ->
  task_body k (Sleeping response) w
  = (Ok Finished,
     on_env (fun v =>
               set_responses (closing response (responses v))
                 (set_trace (trace v ++ [cancelled_log k]) (set_cancel_in None v)))
            w).
Proof.
  intros Hc. apply wp_is. destruct k; cbn [task_body cancelled_log].
  - unfold _sync_check_task, sync_check_try, sync_check_poll, _close_response, closing.
    wp_run. rewrite Hc. wp_run. cbn [sync_check_cancelled]. wp_run.
    destruct response as [id|]; wp_run.
    + destruct (closed (nth id (responses (env w)) no_response)) eqn:Eclosed; wp_run;
        (split; [reflexivity|]); unfold on_env; look; rewrite ?Eclosed; reflexivity.
    + split; reflexivity.
  - unfold _keepalive_task, keepalive_try, _close_response, closing.
    wp_run. rewrite Hc. wp_run. cbn [keepalive_cancelled]. wp_run.
    destruct response as [id|]; wp_run.
    + destruct (closed (nth id (responses (env w)) no_response)) eqn:Eclosed; wp_run;
        (split; [reflexivity|]); unfold on_env; look; rewrite ?Eclosed; reflexivity.
    + split; reflexivity.
Qed.

(** The world the loop leaves when it runs a task whose cancellation was
    asked for: a task that waits in its sleep ends there, a task that has
    not run yet never runs. *)
Definition woken (t : nat) (w : World Site) : World Site :=
  match nth_error (tasks (env w)) t with
  | Some x =>
      if task_done x then w
      else
        match phase x with
        | Sleeping r =>
            on_env (fun v =>
                      set_tasks (update_nth t (moved_to Finished) (tasks v))
                        (set_responses (closing r (responses v))
                           (set_trace (trace v ++ [cancelled_log (kind x)]) v)))
                   w
        | _ =>
            on_env (fun v =>
                      set_tasks (update_nth t (moved_to CancelledEarly) (tasks v)) v)
                   w
        end
  | None => w
  end.

Lemma wake_cancelled t w : cancelled t w -> task_step t w = (Ok tt, woken t w).
Proof.
  unfold cancelled, woken, task_step, task_at.
  unfold bind at 1. unfold gets at 1.
  destruct (nth_error (tasks (env w)) t) as [x|] eqn:E; [|reflexivity].
  destruct (task_done x) eqn:Ed; [reflexivity|].
  intros [H|H]; [discriminate|].
  destruct (phase x) as [|r| |e|] eqn:Ep;
    try (unfold task_done in Ed; rewrite Ep in Ed; discriminate); rewrite H.
  - reflexivity.
  - unfold bind, gets, around, try_except, task_put.
    rewrite (cancelled_in_sleep (kind x) r (on_env (set_cancel_in (Some 0)) w) eq_refl).
    reflexivity.
Qed.

(** What does not change when tasks are cancelled and woken. *)
Definition same_frame (w w' : World Site) : Prop :=
  self w' = self w
  /\ server (env w') = server (env w)
  /\ served (env w') = served (env w)
  /\ clock (env w') = clock (env w)
  /\ cancel_in (env w') = cancel_in (env w)
  /\ entries (trace (env w')) = entries (trace (env w))
  /\ requests (trace (env w')) = requests (trace (env w))
  /\ List.length (tasks (env w')) = List.length (tasks (env w)).

Lemma same_frame_refl w : same_frame w w.
Proof. repeat split. Qed.

Lemma same_frame_trans w1 w2 w3 :
  same_frame w1 w2 -> same_frame w2 w3 -> same_frame w1 w3.
Proof.
  unfold same_frame. intros (a1 & a2 & a3 & a4 & a5 & a6 & a7 & a8)
                            (b1 & b2 & b3 & b4 & b5 & b6 & b7 & b8).
  repeat split; congruence.
Qed.

Lemma length_update_nth {A} n (f : A -> A) l :
  List.length (update_nth n f l) = List.length l.
Proof.
  revert n. induction l as [|x l IH]; intros [|n]; cbn; auto.
Qed.

Lemma woken_frame t w : same_frame w (woken t w).
Proof.
  unfold woken. destruct (nth_error (tasks (env w)) t) as [x|];
    [|apply same_frame_refl].
  destruct (task_done x); [apply same_frame_refl|].
  destruct (phase x); unfold same_frame; look;
    rewrite ?entries_app, ?requests_app, ?length_update_nth; cbn;
    rewrite ?app_nil_r; repeat split; reflexivity.
Qed.

Lemma woken_tasks t w :
  tasks (env (woken t w)) = tasks (env w)
  \/ exists p, task_done {| kind := SyncCheck; phase := p; cancel_requested := false |}
               = true
               /\ tasks (env (woken t w)) = update_nth t (moved_to p) (tasks (env w)).
Proof.
  unfold woken. destruct (nth_error (tasks (env w)) t) as [x|]; [|left; reflexivity].
  destruct (task_done x); [left; reflexivity|].
  destruct (phase x); right;
    first [ exists CancelledEarly; split; reflexivity
          | exists Finished; split; reflexivity ].
Qed.

Lemma woken_cancelled t t' w : cancelled t' w -> cancelled t' (woken t w).
Proof.
  intros H. unfold cancelled in *.
  destruct (woken_tasks t w) as [-> | (p & Hp & ->)]; [exact H|].
  destruct (Nat.eq_dec t t') as [<-|Hne].
  - destruct (nth_error (tasks (env w)) t) as [x|] eqn:E.
    + rewrite (nth_error_update_nth_same _ _ _ _ E). left. exact Hp.
    + assert (Hn : nth_error (update_nth t (moved_to p) (tasks (env w))) t = None).
      { apply nth_error_None. rewrite length_update_nth. apply nth_error_None, E. }
      rewrite Hn. exact I.
  - rewrite (nth_error_update_nth_other _ _ _ _ Hne). exact H.
Qed.

Lemma woken_ends t r w : stands t (Sleeping r) w -> stands t Finished (woken t w).
Proof.
  unfold stands, woken. intros H.
  destruct (nth_error (tasks (env w)) t) as [x|] eqn:E; [|discriminate H].
  cbn in H. injection H as Hp. unfold task_done. rewrite Hp. look.
  rewrite (nth_error_update_nth_same _ _ _ _ E). reflexivity.
Qed.

Lemma woken_finished t t' w : stands t' Finished w -> stands t' Finished (woken t w).
Proof.
  unfold stands. intros H.
  destruct (Nat.eq_dec t t') as [<-|Hne].
  - unfold woken.
    destruct (nth_error (tasks (env w)) t) as [x|] eqn:E; [|discriminate H].
    cbn in H. injection H as Hp. unfold task_done. rewrite Hp. rewrite E. cbn.
    rewrite Hp. reflexivity.
  - destruct (woken_tasks t w) as [-> | (p & _ & ->)]; [exact H|].
    rewrite (nth_error_update_nth_other _ _ _ _ Hne). exact H.
Qed.

Lemma woken_other t t' p w : t <> t' -> stands t' p w -> stands t' p (woken t w).
Proof.
  unfold stands. intros Hne H.
  destruct (woken_tasks t w) as [-> | (q & _ & ->)]; [exact H|].
  rewrite (nth_error_update_nth_other _ _ _ _ Hne). exact H.
Qed.

(** The world [task.cancel()] leaves. *)
Definition cancel_req (t : nat) (w : World Site) : World Site :=
  match nth_error (tasks (env w)) t with
  | Some x =>
      if task_done x then w
      else on_env (fun v => set_tasks (update_nth t cancel_asked (tasks v)) v) w
  | None => w
  end.

Lemma cancel_req_frame t w : same_frame w (cancel_req t w).
Proof.
  unfold cancel_req. destruct (nth_error (tasks (env w)) t) as [x|];
    [|apply same_frame_refl].
  destruct (task_done x); [apply same_frame_refl|].
  unfold same_frame; look. rewrite length_update_nth. repeat split; reflexivity.
Qed.

Lemma cancel_req_cancelled t w : cancelled t (cancel_req t w).
Proof.
  unfold cancelled, cancel_req.
  destruct (nth_error (tasks (env w)) t) as [x|] eqn:E; [|rewrite E; exact I].
  destruct (task_done x) eqn:Ed.
  - rewrite E. left. exact Ed.
  - look. rewrite (nth_error_update_nth_same _ _ _ _ E). right. reflexivity.
Qed.

Lemma cancel_req_keeps_cancelled t t' w : cancelled t' w -> cancelled t' (cancel_req t w).
Proof.
  intros H. destruct (Nat.eq_dec t t') as [<-|Hne]; [apply cancel_req_cancelled|].
  unfold cancelled, cancel_req in *.
  destruct (nth_error (tasks (env w)) t) as [x|]; [|exact H].
  destruct (task_done x); [exact H|].
  look. rewrite (nth_error_update_nth_other _ _ _ _ Hne). exact H.
Qed.

Lemma cancel_req_stands t t' p w : stands t' p w -> stands t' p (cancel_req t w).
Proof.
  intros H. unfold cancel_req.
  destruct (nth_error (tasks (env w)) t) as [x|]; [|exact H].
  destruct (task_done x); [exact H|].
  unfold stands in *. look. rewrite phase_update_nth_asked. exact H.
Qed.

(** The same for a handle that may be [None]. *)
Definition cancel_req_opt (h : option nat) (w : World Site) : World Site :=
  match h with Some t => cancel_req t w | None => w end.

Definition woken_opt (h : option nat) (w : World Site) : World Site :=
  match h with Some t => woken t w | None => w end.

Definition cancelled_opt (h : option nat) (w : World Site) : Prop :=
  match h with Some t => cancelled t w | None => True end.

Lemma cancel_handle_eq h message w :
  match h with
  | Some t => cancel_task t message
  | None => ret tt
  end w
  = (Ok tt, cancel_req_opt h w).
Proof. destruct h as [t|]; [apply cancel_task_eq | reflexivity]. Qed.

Lemma wake_eq h w : cancelled_opt h w -> wake h w = (Ok tt, woken_opt h w).
Proof. destruct h as [t|]; [apply wake_cancelled | reflexivity]. Qed.

(** [async_logout] up to its request: the two handles are cleared, the
    tasks they pointed to have ended if they were asleep, and nothing else
    of the client has changed. *)
Definition logout_request : M unit :=
  _async_query (ADT_LOGOUT_URI K) "GET" None None true 10%Z ;;
  s <- attr _session ;;
  match s with
  | Some s =>
      if session_closed s then ret tt
      else
        suspend ;;
        assign (set_session (Some {| headers := headers s; session_closed := true |}))
  | None => ret tt
  end ;;
  now <- time_time ;;
  assign (set_last_timeout_reset now) ;;
  a <- attr _authenticated ;;
  match a with
  | Some _ => assign (set_authenticated (Some false))
  | None => ret tt
  end.

Definition held (t : nat) (w : World Site) : Prop :=
  _timeout_task (self w) = Some t \/ _sync_task (self w) = Some t.

Lemma logout_reaches_request w (Q : Res unit -> World Site -> Prop) :
  (forall w5,
      self w5 = set_sync_task None (set_timeout_task None (self w)) ->
      server (env w5) = server (env w) ->
      served (env w5) = served (env w) ->
      clock (env w5) = clock (env w) ->
      cancel_in (env w5) = cancel_in (env w) ->
      entries (trace (env w5)) = entries (trace (env w)) ++ [InLogout] ->
      requests (trace (env w5)) = requests (trace (env w)) ->
      List.length (tasks (env w5)) = List.length (tasks (env w)) ->
      (forall t r, held t w -> stands t (Sleeping r) w -> stands t Finished w5) ->
      wp logout_request w5 Q) ->
  wp async_logout w Q.
Proof.
  intros Hrest. unfold async_logout.
  apply wp_bind. unfold emit at 1. apply wp_around. settle.
  apply wp_bind, wp_attr. settle. apply wp_bind. unfold LOG, emit. apply wp_around.
  settle. apply wp_bind, wp_attr. settle. look.
  match goal with
  | |- wp _ ?W _ =>
      assert (Hf0 : self W = self w
                    /\ server (env W) = server (env w)
                    /\ served (env W) = served (env w)
                    /\ clock (env W) = clock (env w)
                    /\ cancel_in (env W) = cancel_in (env w)
                    /\ entries (trace (env W)) = entries (trace (env w)) ++ [InLogout]
                    /\ requests (trace (env W)) = requests (trace (env w))
                    /\ tasks (env W) = tasks (env w)) by
        (look; rewrite !entries_app, !requests_app; cbn; rewrite !app_nil_r;
         repeat split; reflexivity);
      revert Hf0; generalize W; intros w0 Hf0
  end.
  destruct Hf0 as (Hs0 & Hv0 & Hn0 & Hk0 & Hc0 & He0 & Hq0 & Ht0).
  set (h1 := _timeout_task (self w)). set (h2 := _sync_task (self w)).
  apply wp_bind, (wp_eq _ _ _ _ _ (cancel_handle_eq h1 _ w0)). settle.
  set (w1 := cancel_req_opt h1 w0).
  assert (Hf1 : same_frame w0 w1)
    by (subst w1; destruct h1; [apply cancel_req_frame | apply same_frame_refl]).
  apply wp_bind, wp_attr. settle.
  assert (Eh2 : _sync_task (self w1) = h2)
    by (destruct Hf1 as (-> & _); rewrite Hs0; reflexivity).
  rewrite Eh2.
  apply wp_bind, (wp_eq _ _ _ _ _ (cancel_handle_eq h2 _ w1)). settle.
  set (w2 := cancel_req_opt h2 w1).
  assert (Hf2 : same_frame w1 w2)
    by (subst w2; destruct h2; [apply cancel_req_frame | apply same_frame_refl]).
  apply wp_bind, wp_assign. settle. apply wp_bind, wp_assign. settle.
  set (w3 := on_self (set_sync_task None) (on_self (set_timeout_task None) w2)).
  assert (Hc1 : cancelled_opt h1 w3).
  { subst w3 w2 w1. destruct h1 as [t1|]; [|exact I]. cbn [cancelled_opt].
    unfold cancelled. look. fold (cancelled t1 (cancel_req_opt h2 (cancel_req t1 w0))).
    destruct h2 as [t2|]; cbn [cancel_req_opt].
    - apply cancel_req_keeps_cancelled, cancel_req_cancelled.
    - apply cancel_req_cancelled. }
  assert (Hc2 : cancelled_opt h2 w3).
  { subst w3 w2. destruct h2 as [t2|]; [|exact I]. cbn [cancelled_opt cancel_req_opt].
    unfold cancelled. look. fold (cancelled t2 (cancel_req t2 w1)).
    apply cancel_req_cancelled. }
  apply wp_bind, (wp_eq _ _ _ _ _ (wake_eq h1 w3 Hc1)). settle.
  set (w4 := woken_opt h1 w3).
  assert (Hf4 : same_frame w3 w4)
    by (subst w4; destruct h1; [apply woken_frame | apply same_frame_refl]).
  assert (Hc2' : cancelled_opt h2 w4).
  { subst w4. destruct h2 as [t2|]; [|exact I]. cbn [cancelled_opt] in *.
    destruct h1 as [t1|]; cbn [woken_opt]; [apply woken_cancelled|]; exact Hc2. }
  apply wp_bind, (wp_eq _ _ _ _ _ (wake_eq h2 w4 Hc2')). settle.
  set (w5 := woken_opt h2 w4).
  assert (Hf5 : same_frame w4 w5)
    by (subst w5; destruct h2; [apply woken_frame | apply same_frame_refl]).
  assert (Hf3 : same_frame (on_self (set_sync_task None) (on_self (set_timeout_task None) w0))
                           w3).
  { subst w3. destruct Hf1 as (a1 & a2 & a3 & a4 & a5 & a6 & a7 & a8).
    destruct Hf2 as (b1 & b2 & b3 & b4 & b5 & b6 & b7 & b8).
    unfold same_frame. look. repeat split; congruence. }
  pose proof (same_frame_trans _ _ _ (same_frame_trans _ _ _ Hf3 Hf4) Hf5) as Hf.
  destruct Hf as (c1 & c2 & c3 & c4 & c5 & c6 & c7 & c8). look.
  apply Hrest; try congruence.
  - intros t r Hheld Hst.
    assert (Hst3 : stands t (Sleeping r) w3).
    { subst w3 w2 w1. unfold stands. look.
      fold (stands t (Sleeping r) (cancel_req_opt h2 (cancel_req_opt h1 w0))).
      assert (Hst0 : stands t (Sleeping r) w0) by (unfold stands; rewrite Ht0; exact Hst).
      destruct h1, h2; cbn [cancel_req_opt]; repeat apply cancel_req_stands; exact Hst0. }
    subst w5 w4. destruct Hheld as [Hh|Hh].
    + fold h1 in Hh. rewrite Hh. cbn [woken_opt].
      destruct h2 as [t2|]; cbn [woken_opt];
        [apply woken_finished|]; apply (woken_ends t r), Hst3.
    + fold h2 in Hh. rewrite Hh. cbn [woken_opt].
      destruct h1 as [t1|]; cbn [woken_opt].
      * destruct (Nat.eq_dec t1 t) as [->|Hne].
        -- apply woken_finished, (woken_ends t r), Hst3.
        -- apply (woken_ends t r), woken_other; [exact Hne | exact Hst3].
      * apply (woken_ends t r), Hst3.
Qed.

(** The request of the logout and what follows it leave a task that has
    ended as it is. *)
Lemma stands_finished_first_run t id : keeps (stands t Finished) (task_first_run id).
Proof.
  intros w H.
  change (wp (task_first_run id) w (fun _ w' => stands t Finished w')).
  unfold task_first_run, task_at, task_put, task_enter, sync_check_enter, keepalive_enter,
    keepalive_while.
  apply wp_bind, wp_gets. settle.
  destruct (nth_error (tasks (env w)) id) as [x|] eqn:E; [|apply wp_ret; exact H].
  destruct (phase x) eqn:Ep; try (apply wp_ret; exact H).
  destruct (cancel_requested x); [apply wp_ret; exact H|].
  assert (Hne : id <> t).
  { intros ->. unfold stands in H. rewrite E in H. cbn in H. congruence. }
  destruct (kind x); wp_cases.
  all: unfold stands in *; look; rewrite (nth_error_update_nth_other _ _ _ _ Hne);
    exact H.
Qed.

#[local] Hint Resolve stands_finished_first_run : keeps.

Lemma stands_finished_logout_request t : keeps (stands t Finished) logout_request.
Proof. keeps_auto. Qed.

Definition no_handles (w : World Site) : Prop :=
  _sync_task (self w) = None /\ _timeout_task (self w) = None.

(** The request of the logout when the client is authenticated: no login
    comes first. *)
Lemma logout_request_direct w5 :
  wired w5 ->
  is_set (_authenticated (self w5)) = true ->
  wp logout_request w5
     (fun r w' =>
        r = Ok tt
        /\ _authenticated (self w') = Some false
        /\ (exists s, _session (self w') = Some s /\ session_closed s = true)
        /\ _last_timeout_reset (self w') = clock (env w')
        /\ served (env w') = S (served (env w5))
        /\ entries (trace (env w')) = entries (trace (env w5))
        /\ kept w5 w').
Proof.
  intros Hw Hauth. unfold logout_request. apply wp_bind.
  eapply wp_same;
    [ apply async_query_direct; unfold logs_in_first; rewrite Hauth; reflexivity |].
  assert (Ha : auth_is (Some true) w5).
  { unfold auth_is. destruct (_authenticated (self w5)) as [[|]|]; try discriminate.
    reflexivity. }
  eapply wp_conseq.
  { apply wp_and; [exact (request_once _ _ _ _ _ w5 Hw (or_introl eq_refl))|].
    apply wp_and; [exact (wp_keeps _ _ _ (auth_request _ _ _ _ _ _) Ha)|].
    apply wp_and;
      [exact (wp_keeps _ _ _ (entries_request _ _ _ _ _ _) (eq_refl : same_entries _ w5))|].
    apply wp_and;
      [ apply (wp_keeps _ _ (kept w5));
        [apply kept_request | repeat split; reflexivity] |].
    apply (wp_good _ _ wired never). unfold wired, never.
    unfold wired in Hw. unfold _async_query_request. run_auto. }
  cbv beta. intros r w6 ((-> & Hn & _) & Ha6 & He6 & Hk6 & (Hc6 & Hs6) & _). settle.
  unfold auth_is, same_entries, kept in *.
  wp_cases.
  all: try (exfalso; congruence).
  all: split; [reflexivity|].
  all: split; [look; reflexivity|].
  all: split;
    [ look; eexists; split; [first [reflexivity | eassumption]|];
      first [reflexivity | assumption] |].
  all: split; [reflexivity|].
  all: split; [look; exact Hn|].
  all: split; [look; exact He6|].
  all: look; exact Hk6.
Qed.

(** The request of the logout when the client is not authenticated and
    the portal accepts the login that comes first. *)
Lemma logout_request_relogin w5 st body final soup :
  calm w5 ->
  is_set (_authenticated (self w5)) = false ->
  no_handles w5 ->
  server (env w5) (S (served (env w5))) = Answer st body final ->
  (st < 400)%Z ->
  ext_make_soup X {| status := st; text := body; url := final; closed := true |}
  = Some soup ->
  soup_warnMsgContents X soup = false ->
  readable soup w5 ->
  wp logout_request w5
     (fun r w' =>
        let a := List.length (tasks (env w5)) in
        r = Ok tt
        /\ _authenticated (self w') = Some false
        /\ _sync_task (self w') = Some a
        /\ _timeout_task (self w') = Some (S a)
        /\ stands a (Sleeping None) w'
        /\ stands (S a) (Sleeping None) w'
        /\ served (env w') = S (S (S (served (env w5))))).
Proof.
  intros Hc Hauth [Hh1 Hh2] Ho Hst Hsoup Hwarn Hread. cbv zeta.
  unfold logout_request. apply wp_bind.
  eapply wp_same;
    [ apply async_query_relogin; unfold logs_in_first; rewrite Hauth; reflexivity |].
  apply wp_bind. eapply wp_conseq;
    [exact (login_accepted w5 st body final soup Hc Ho Hst Hsoup Hwarn Hread)|].
  cbv beta.
  intros r w6 (-> & Hsig & Ha6 & _ & _ & _ & Hn6 & Hs6 & Ht6 & Hst6 & Hkt6). settle.
  unfold new_sync, new_keepalive in *. rewrite Hh1 in *. rewrite Hh2 in *.
  specialize (Hst6 eq_refl). specialize (Hkt6 eq_refl).
  assert (Hw6 : wired w6) by (destruct Hsig as (? & ? & ?); split; assumption).
  eapply wp_conseq.
  { apply wp_and; [exact (request_once _ _ _ _ _ w6 Hw6 (or_introl eq_refl))|].
    apply wp_and;
      [exact (wp_keeps _ _ _ (auth_request _ _ _ _ _ _) (Ha6 : auth_is _ w6))|].
    apply wp_and;
      [ apply (wp_keeps _ _ (kept w6));
        [apply kept_request | repeat split; reflexivity] |].
    apply wp_and;
      [ apply (wp_keeps _ _ (stands (List.length (tasks (env w5))) (Sleeping None)));
        [keeps_auto | exact Hst6] |].
    apply wp_and;
      [ apply (wp_keeps _ _ (stands (S (List.length (tasks (env w5)))) (Sleeping None)));
        [keeps_auto | exact Hkt6] |].
    apply (wp_good _ _ wired never). unfold wired, never.
    unfold wired in Hw6. unfold _async_query_request. run_auto. }
  cbv beta.
  intros r w7 ((-> & Hn7 & _) & Ha7 & Hk7 & Hst7 & Hkt7 & (Hc7 & Hs7) & _). settle.
  unfold auth_is, kept, stands in *. destruct Hk7 as (Hk1 & Hk2 & _).
  wp_cases.
  all: try (exfalso; congruence).
  all: split; [reflexivity|].
  all: split; [look; reflexivity|].
  all: split; [look; congruence|].
  all: split; [look; congruence|].
  all: split; [look; exact Hst7|].
  all: split; [look; exact Hkt7|].
  all: look; congruence.
Qed.

(** C5, as the code has it.  [async_logout] asks for the cancellation of
    the two tasks and clears the handles; the tasks get their
    [CancelledError] when the coroutine waits in its request, so a task
    that a handle pointed to and that was asleep has ended when
    [async_logout] is over.  When the client is authenticated, the final
    state is the one claimed: the event cleared, both handles [None].
    When it is not (a sync check whose re-login the portal rejected, for
    one) and the portal accepts the login, the request of the logout logs
    in first, after the handles were cleared: that login makes two new
    tasks, and [async_logout] ends with the event cleared and both handles
    pointing to tasks that live on. *)
Theorem logout_ends_the_tasks_and_may_start_new_ones w :
  calm w ->
  let out := async_logout w in
  (forall t r, held t w -> stands t (Sleeping r) w -> stands t Finished (snd out))
  /\ (_session (self w) <> None ->
      is_set (_authenticated (self w)) = true ->
      fst out = Ok tt
      /\ _authenticated (self (snd out)) = Some false
      /\ _sync_task (self (snd out)) = None
      /\ _timeout_task (self (snd out)) = None)
  /\ (forall st body final soup,
         is_set (_authenticated (self w)) = false ->
         server (env w) (S (served (env w))) = Answer st body final ->
         (st < 400)%Z ->
         ext_make_soup X {| status := st; text := body; url := final; closed := true |}
         = Some soup ->
         soup_warnMsgContents X soup = false ->
         readable soup w ->
         let a := List.length (tasks (env w)) in
         fst out = Ok tt
         /\ _authenticated (self (snd out)) = Some false
         /\ _sync_task (self (snd out)) = Some a
         /\ _timeout_task (self (snd out)) = Some (S a)
         /\ stands a (Sleeping None) (snd out)
         /\ stands (S a) (Sleeping None) (snd out)).
Proof.
  intros Hc. unfold calm in Hc. cbv zeta. split; [|split].
  - change (wp async_logout w
               (fun _ w' =>
                  forall t r, held t w -> stands t (Sleeping r) w ->
                              stands t Finished w')).
    apply logout_reaches_request. intros w5 _ _ _ _ _ _ _ _ Hends.
    unfold wp. intros t r Hh Hst.
    exact (stands_finished_logout_request t w5 (Hends t r Hh Hst)).
  - intros Hs Hauth.
    change (wp async_logout w
               (fun r w' =>
                  r = Ok tt
                  /\ _authenticated (self w') = Some false
                  /\ _sync_task (self w') = None
                  /\ _timeout_task (self w') = None)).
    apply logout_reaches_request. intros w5 Hself _ _ _ Hc5 _ _ _ _.
    eapply wp_conseq.
    + apply logout_request_direct.
      * split; [congruence | rewrite Hself; exact Hs].
      * rewrite Hself. exact Hauth.
    + cbv beta. intros r w' (H1 & H2 & _ & _ & _ & _ & (Hk1 & Hk2 & _)).
      rewrite Hself in Hk1, Hk2. repeat split; assumption.
  - intros st body final soup Hauth Ho Hst Hsoup Hwarn Hread.
    change (wp async_logout w
               (fun r w' =>
                  r = Ok tt
                  /\ _authenticated (self w') = Some false
                  /\ _sync_task (self w') = Some (List.length (tasks (env w)))
                  /\ _timeout_task (self w') = Some (S (List.length (tasks (env w))))
                  /\ stands (List.length (tasks (env w))) (Sleeping None) w'
                  /\ stands (S (List.length (tasks (env w)))) (Sleeping None) w')).
    apply logout_reaches_request. intros w5 Hself Hv5 Hn5 _ Hc5 _ _ Hlen _.
    eapply wp_conseq.
    + apply (logout_request_relogin w5 st body final soup).
      * unfold calm. congruence.
      * rewrite Hself. exact Hauth.
      * split; rewrite Hself; reflexivity.
      * rewrite Hv5, Hn5. exact Ho.
      * exact Hst.
      * exact Hsoup.
      * exact Hwarn.
      * unfold readable in *. rewrite Hself. exact Hread.
    + cbv beta zeta. rewrite Hlen.
      intros r w' (H1 & H2 & H3 & H4 & H5 & H6 & _). repeat split; assumption.
Qed.

(** X21. [async_logout] on an authenticated client with a session, no
    cancellation pending: it returns having made one request and no login;
    afterwards the client is not connected, its session is closed, and the
    time of the logout is recorded. *)
Theorem logout_clears_and_closes w :
  wired w ->
  is_set (_authenticated (self w)) = true ->
  let out := async_logout w in
  fst out = Ok tt
  /\ is_connected (snd out) = (Ok false, snd out)
  /\ (exists s, _session (self (snd out)) = Some s /\ session_closed s = true)
  /\ _last_timeout_reset (self (snd out)) = clock (env (snd out))
  /\ served (env (snd out)) = S (served (env w))
  /\ entries (trace (env (snd out))) = entries (trace (env w)) ++ [InLogout].
Proof.
  intros [Hc Hs] Hauth. cbv zeta.
  change (wp async_logout w
             (fun r w' =>
                r = Ok tt
                /\ is_connected w' = (Ok false, w')
                /\ (exists s, _session (self w') = Some s /\ session_closed s = true)
                /\ _last_timeout_reset (self w') = clock (env w')
                /\ served (env w') = S (served (env w))
                /\ entries (trace (env w')) = entries (trace (env w)) ++ [InLogout])).
  apply logout_reaches_request. intros w5 Hself _ Hn5 _ Hc5 He5 _ _ _.
  eapply wp_conseq.
  - apply logout_request_direct.
    + split; [congruence | rewrite Hself; exact Hs].
    + rewrite Hself. exact Hauth.
  - cbv beta. intros r w' (H1 & H2 & H3 & H4 & H5 & H6 & _).
    split; [exact H1|]. split; [rewrite is_connected_eq, H2; reflexivity|].
    split; [exact H3|]. split; [exact H4|]. split; congruence.
Qed.

(* ------------------------------------------------------------------ *)
(** * The lock *)

(** The properties and small methods of the client. *)
Definition is_accessor (op : Operation) : bool :=
  match op with
  | call_set_service_host _ | call_make_url _ | get_poll_interval
  | put_poll_interval _ | get_username | get_version | get_loop | get_is_threaded
  | get_sites | get_updates_exist | get_is_connected => true
  | _ => false
  end.

(** X22. Every property and small method of the client returns and leaves
    the attribute lock as it found it, on a threaded client as on any
    other. *)
Theorem accessors_release_the_lock op w :
  is_accessor op = true ->
  let out := perform op w in
  fst out = Ok tt
  /\ _attribute_lock (self (snd out)) = _attribute_lock (self w).
Proof.
  intros Hop. cbv zeta.
  destruct op; try discriminate Hop; cbn [perform].
  - rewrite set_service_host_eq. split; reflexivity.
  - unfold bind. rewrite make_url_eq. split; reflexivity.
  - unfold bind. rewrite poll_interval_eq. split; reflexivity.
  - rewrite poll_interval_setter_eq. split; reflexivity.
  - destruct w as [[] v]. unfold username. unfold_reads. cbn.
    destruct _loop0; split; reflexivity.
  - unfold bind. rewrite version_eq. split; reflexivity.
  - destruct w as [[] v]. unfold loop. unfold_reads. cbn.
    destruct _loop0; split; reflexivity.
  - unfold bind. rewrite is_threaded_eq. split; reflexivity.
  - destruct w as [[] v]. unfold sites. unfold_reads. cbn.
    destruct _loop0; split; reflexivity.
  - unfold bind. rewrite updates_exist_eq.
    destruct (_updates_exist (self w)) as [[|]|]; split; reflexivity.
  - unfold bind. rewrite is_connected_eq. split; reflexivity.
Qed.

(** X23. [login()] on a client that has a session thread but no loop fails
    its assertion with the attribute lock still held: the lock was
    acquired before the assertion and is released only after it. *)
Theorem login_without_loop_keeps_the_lock w th :
  _session_thread (self w) = Some th ->
  _loop (self w) = None ->
  login w
  = (Raise AssertionError,
     on_self (fun o => set_attribute_lock (S (_attribute_lock o)) o) w).
Proof.
  destruct w as [[] v]. cbn [self _session_thread _loop]. intros -> ->. reflexivity.
Qed.

(* ------------------------------------------------------------------ *)
(** * What the two patterns accept *)

Lemma after_all_creds ops w : _creds (self (after_all ops w)) = _creds (self w).
Proof.
  revert w. induction ops as [|op ops IH]; intros w; [reflexivity|].
  cbn [after_all]. rewrite IH. exact (creds_perform (_creds (self w)) op w eq_refl).
Qed.

(** X24. The representation of a client names the class and the username it
    was made with, and stays the same whatever is done with the client. *)
Theorem repr_shows_the_username
        u password fingerprint host agent websession do_login interval v w ops :
  __init__ (Some u) password fingerprint host agent websession do_login interval v
  = Ok w ->
  __repr__ (after_all ops w)
  = (Ok ("<PyADTPulse: " ++ u ++ ">")%string, after_all ops w).
Proof.
  intros H.
  assert (Hu : _username (_creds (self w)) = u).
  { unfold __init__ in H.
    destruct (_init_login_info (Some u) password fingerprint) as [c| |] eqn:Ec;
      try discriminate H.
    assert (Hc : _username c = u).
    { unfold _init_login_info in Ec.
      destruct u as [|a u]; [discriminate Ec|].
      destruct (negb (re_match email_pattern (String a u))); [discriminate Ec|].
      destruct password as [[|b p]|]; try discriminate Ec.
      destruct fingerprint as [[|d f]|]; try discriminate Ec.
      injection Ec as <-. reflexivity. }
    destruct (do_login && _).
    - match type of H with
      | context [login ?w0] =>
          pose proof (creds_perform (_creds (self w0)) call_login w0 eq_refl) as Hk;
          cbn [perform] in Hk; destruct (login w0) as [[a|e|] w1]
      end; inversion H; subst. unfold same_creds in Hk. cbn [snd] in Hk.
      rewrite Hk. reflexivity.
    - inversion H; subst. reflexivity. }
  unfold __repr__, bind, attr, gets, ret. rewrite after_all_creds, Hu. reflexivity.
Qed.

(** X25. The pattern of the sync check is tested at the start of the body
    only: a body that begins with three integers joined by dashes passes
    whatever follows them, and a body that is empty or begins with
    anything but a decimal digit, of whatever script, does not. *)
Theorem sync_pattern_tests_the_start_only :
  (forall a b c rest,
      re_match sync_pattern (token a b c ++ rest)%string = true)
  /\ re_match sync_pattern "" = false
  /\ (forall ch s,
         is_digit ch = false ->
         re_match sync_pattern (String ch s) = false).
Proof.
  split; [|split].
  - intros a b c rest. unfold re_match, sync_pattern, Re.re_match, Re.sync_pattern.
    rewrite chars_append, token_chars. cbn [Re.matches].
    rewrite <- app_assoc. cbn [app]. rewrite <- app_assoc. cbn [app].
    apply plus_digits; [apply str_of_N_nonempty | apply digits_str_of_N |].
    intros p. cbn [Re.one]. cbn [Ascii.eqb Bool.eqb andb].
    apply plus_digits; [apply str_of_N_nonempty | apply digits_str_of_N |].
    intros p'. cbn [Re.one]. cbn [Ascii.eqb Bool.eqb andb].
    apply plus_digits; [apply str_of_N_nonempty | apply digits_str_of_N |].
    reflexivity.
  - reflexivity.
  - intros ch s H. unfold re_match, sync_pattern, Re.re_match, Re.sync_pattern. cbn [Re.matches].
    change (Py.chars (String ch s)) with (ch :: Py.chars s).
    cbn [Re.one]. rewrite H. reflexivity.
Qed.

Lemma star_without_at cls k prev s :
  Forall (fun c => c <> "@"%char) s ->
  Re.star cls (fun _ s' => Re.one (Ascii.eqb "@") k s') prev s = false.
Proof.
  intros H. revert prev. induction H as [|c s Hc Hs IH]; intros prev.
  - reflexivity.
  - cbn [Re.star Re.one].
    assert (E : Ascii.eqb "@" c = false).
    { apply Ascii.eqb_neq. congruence. }
    rewrite E. cbn [andb orb]. rewrite IH. apply andb_false_r.
Qed.

(** X26. A username without an at sign is refused: the constructor's check
    raises [ValueError] for it, whatever the password and fingerprint. *)
Theorem username_without_at_sign_is_refused u password fingerprint :
  u <> "" ->
  (forall c, In c (Py.chars u) -> c <> "@"%char) ->
  _init_login_info (Some u) password fingerprint
  = Raise (ValueError "Username must be an email address").
Proof.
  intros Hne Hat.
  assert (Hm : re_match email_pattern u = false).
  { unfold re_match, email_pattern, Re.re_match, Re.email_pattern. cbn [Re.matches].
    apply Forall_forall in Hat.
    destruct (Py.chars u) as [|c s] eqn:Es.
    - reflexivity.
    - inversion Hat as [|? ? Hc Hs]; subst. cbn [Re.one].
      change (fun (prev : option ascii) (s0 : list ascii) =>
                Re.one (Ascii.eqb "@") ?k s0)
        with (fun (_ : option ascii) (s' : list ascii) =>
                Re.one (Ascii.eqb "@") k s').
      rewrite (star_without_at Re.email_local _ (Some c) s Hs).
      rewrite andb_false_r. apply andb_false_r. }
  unfold _init_login_info. destruct u as [|a u]; [congruence|].
  rewrite Hm. reflexivity.
Qed.

(** The character before the rest, after a run of characters. *)
Fixpoint last_or (prev : option ascii) (ds : list ascii) : option ascii :=
  match ds with
  | [] => prev
  | d :: ds' => last_or (Some d) ds'
  end.

Lemma star_app cls k prev ds rest :
  Forall (fun c => cls c = true) ds ->
  k (last_or prev ds) rest = true ->
  Re.star cls k prev (ds ++ rest) = true.
Proof.
  intros H. revert prev. induction H as [|d ds Hd Hds IH]; intros prev Hk.
  - cbn [app last_or] in *. destruct rest; cbn [Re.star]; rewrite Hk; reflexivity.
  - cbn [app Re.star]. rewrite Hd. cbn [andb].
    rewrite (IH (Some d) Hk). apply orb_true_r.
Qed.

Lemma last_or_holds (P : ascii -> Prop) d ds :
  P d -> Forall P ds -> exists c, last_or (Some d) ds = Some c /\ P c.
Proof.
  intros Hd H. revert d Hd. induction H as [|e ds He Hds IH]; intros d Hd.
  - exists d. split; [reflexivity | exact Hd].
  - cbn [last_or]. apply IH, He.
Qed.

Definition is_letter (c : ascii) : bool := Re.is_upper c || Re.is_lower c.

Lemma letter_is_tld c : is_letter c = true -> Re.email_tld c = true.
Proof.
  unfold is_letter, Re.email_tld.
  destruct (Re.is_upper c), (Re.is_lower c); cbn; intros H;
    try reflexivity; try discriminate H; apply orb_true_r.
Qed.

Lemma letter_is_ascii c : is_letter c = true -> Re.is_ascii c = true.
Proof.
  unfold is_letter, Re.is_upper, Re.is_lower, Re.between, Re.is_ascii. intros H.
  apply Nat.ltb_lt.
  apply orb_true_iff in H. destruct H as [H|H];
    apply andb_true_iff in H; destruct H as [H1 H2];
    apply Nat.leb_le in H1, H2; lia.
Qed.

Lemma letter_is_word c : is_letter c = true -> is_word c = true.
Proof.
  intros H. unfold is_word, Re.is_word. rewrite (letter_is_ascii c H).
  unfold is_letter in H.
  destruct (Re.is_09 c), (Re.is_upper c), (Re.is_lower c); cbn in *;
    try reflexivity; discriminate H.
Qed.

(** X27. The username is tested at its start only: an address (a local part
    that begins with a word character, an at sign, a domain, a dot and two
    or more letters) passes the constructor's check whatever follows it,
    as long as what follows does not begin with a word character. *)
Theorem address_with_trailing_text_is_accepted
        l0 local domain t1 t2 tld rest p f :
  is_word l0 = true ->
  Forall (fun c => Re.email_local c = true) (l0 :: local) ->
  domain <> [] ->
  Forall (fun c => Re.email_domain c = true) domain ->
  Forall (fun c => is_letter c = true) (t1 :: t2 :: tld) ->
  Re.word_opt is_word (hd_error rest) = false ->
  p <> "" -> f <> "" ->
  let u :=
    string_of_list_ascii
      ((l0 :: local) ++ "@"%char :: domain ++ "."%char :: (t1 :: t2 :: tld) ++ rest) in
  _init_login_info (Some u) (Some p) (Some f)
  = Ok {| _username := u; _password := p; _fingerprint := f |}.
Proof.
  intros Hw Hl Hdne Hd Ht Hrest Hp Hf u.
  apply init_login_info_stores; try assumption.
  - subst u. cbn. discriminate.
  - subst u. unfold re_match, email_pattern, Re.re_match, Py.chars.
    rewrite list_ascii_of_string_of_list_ascii.
    unfold Re.email_pattern. cbn [Re.matches].
    inversion Hl as [|? ? Hl0 Hlocal]; subst.
    cbn [app Re.boundary hd_error Re.word_opt xorb Re.one]. rewrite Hw, Hl0.
    cbn [xorb andb].
    apply star_app; [exact Hlocal|].
    cbn [Re.one Ascii.eqb Bool.eqb andb].
    destruct domain as [|d0 domain]; [congruence|].
    inversion Hd as [|? ? Hd0 Hdomain]; subst.
    cbn [app Re.one]. rewrite Hd0. cbn [andb].
    apply star_app; [exact Hdomain|].
    cbn [Re.one Ascii.eqb Bool.eqb andb].
    inversion Ht as [|? ? Ht1 Ht']; subst. inversion Ht' as [|? ? Ht2 Htld]; subst.
    cbn [app Re.one]. rewrite (letter_is_tld _ Ht1), (letter_is_tld _ Ht2).
    cbn [andb].
    apply star_app.
    + eapply Forall_impl; [|exact Htld]. cbv beta. apply letter_is_tld.
    + destruct (last_or_holds (fun c => is_letter c = true) t2 tld Ht2 Htld)
        as (c & -> & Hc).
      unfold Re.boundary. cbn [Re.word_opt]. rewrite (letter_is_word _ Hc), Hrest.
      reflexivity.
Qed.

(* ------------------------------------------------------------------ *)
(** * Ticks of the two tasks *)

(** X28. A tick of the sync check that gets no usable answer (the request
    failed, or the response does not count as a success) closes the
    response if there is one and goes on to the next iteration: no login,
    no refresh, no change to the client. *)
Theorem tick_without_usable_answer_only_closes prev w w1 r :
  calm w ->
  sync_check_poll w = (Ok r, w1) ->
  match r with
  | Some id => ext_handle_response X (nth id (responses (env w1)) no_response) = false
  | None => True
  end ->
  let out := sync_check_try prev w in
  fst out = Ok (Next r)
  /\ released r (snd out)
  /\ self (snd out) = self w1
  /\ served (env (snd out)) = served (env w1)
  /\ entries (trace (env (snd out))) = entries (trace (env w1)).
Proof.
  intros Hc Hpoll Hbad. cbv zeta.
  change (wp (sync_check_try prev) w
             (fun res w' =>
                res = Ok (Next r)
                /\ released r w'
                /\ self w' = self w1
                /\ served (env w') = served (env w1)
                /\ entries (trace (env w')) = entries (trace (env w1)))).
  unfold sync_check_try.
  apply wp_bind, wp_try_except, wp_bind, (wp_eq _ _ _ _ _ Hpoll). settle.
  wp_run. apply wp_try_except. unfold sync_check_react.
  destruct r as [id|]; wp_run.
  - rewrite Hbad. wp_run. cbn [negb]. wp_run.
    destruct (closed (nth id (responses (env w1)) no_response)) eqn:Eclosed; wp_run.
    all: split; [reflexivity|].
    all: split; [unfold released; look; first [exact Eclosed | apply closed_after_close]|].
    all: split; [reflexivity|]. all: split; [reflexivity|].
    all: rewrite entries_app; cbn; apply app_nil_r.
  - repeat split; reflexivity.
Qed.

(** The request part leaves the response it returns closed. *)
Lemma request_leaves_closed uri method extra_params extra_headers timeout w :
  wired w -> supported method ->
  wp (_async_query_request uri method extra_params extra_headers timeout) w
     (fun r w' =>
        r = Ok (outcome_of w)
        /\ served (env w') = S (served (env w))
        /\ released (outcome_of w) w'
        /\ requests (trace (env w'))
           = requests (trace (env w)) ++
             [Request method (url_of w uri) extra_params extra_headers (Some timeout)]).
Proof.
  intros Hw Hm.
  eapply wp_conseq.
  { apply wp_and; [exact (request_once _ _ _ _ _ w Hw Hm)|].
    instantiate (1 := fun _ w' => released (outcome_of w) w').
    unfold outcome_of.
    destruct (server (env w) (served (env w))) as [st body final|] eqn:Ho.
    - destruct (400 <=? st)%Z eqn:Hst.
      + apply wp_always. intros. exact I.
      + apply Z.leb_gt in Hst.
        eapply wp_conseq; [exact (request_answered _ _ _ _ _ _ _ _ _ Hw Hm Ho Hst)|].
        cbv beta. intros r w1 (_ & _ & Hresp & _). unfold released.
        rewrite Hresp, nth_snoc. reflexivity.
    - apply wp_always. intros. exact I. }
  cbv beta. intros r w1 ((H1 & H2 & H3) & H4). repeat split; assumption.
Qed.

Definition reset_at (t : Time) (w : World Site) : Prop := _last_timeout_reset (self w) = t.

#[local] Hint Unfold reset_at : keeps.


End Engine.

(* ------------------------------------------------------------------ *)
(** * A portal to run the client against

    The collaborators and constants are fixed here, so that the client can
    be run: pages are their text, a page counts as a success below status
    400, and the error panel, the site name and the sign-out link are read
    off the page where it has them.  The characters outside ASCII are read
    as Latin-1, and the clock readings of the runs below are whole
    seconds, which [int(t * 1000)] gives back exactly. *)

Fixpoint contains (needle s : list ascii) : bool :=
  Py.starts_with needle s
  || match s with [] => false | _ :: s' => contains needle s' end.

(** What follows the first [needle] in [s], and [s] up to the first
    [stop]. *)
Fixpoint text_after (needle s : list ascii) : option (list ascii) :=
  if Py.starts_with needle s then Some (skipn (List.length needle) s)
  else match s with [] => None | _ :: s' => text_after needle s' end.

Fixpoint upto (stop : ascii) (s : list ascii) : list ascii :=
  match s with
  | [] => []
  | c :: s' => if Ascii.eqb c stop then [] else c :: upto stop s'
  end.

Definition found (needle : string) (stop : ascii) (s : string) : option string :=
  option_map (fun r => string_of_list_ascii (upto stop r))
             (text_after (Py.chars needle) (Py.chars s)).

(** [group(1)] of [re.search("networkid=(.+)&", link)]: what stands
    between the first [networkid=] and the last [&] after it. *)
Definition networkid (link : string) : option string :=
  match text_after (Py.chars "networkid=") (Py.chars link) with
  | Some r =>
      match text_after ["&"%char] (rev r) with
      | Some (c :: back) => Some (string_of_list_ascii (rev (c :: back)))
      | _ => None
      end
  | None => None
  end.

(** [str] of the error panel: the element as BeautifulSoup writes it, with
    its attribute value in double quotes. *)
Definition panel (s : string) : string :=
  match text_after (Py.chars "<div id='warnMsgContents'") (Py.chars s) with
  | Some r =>
      string_of_list_ascii
        (Py.chars "<div id=" ++ [ascii_of_nat 34] ++ Py.chars "warnMsgContents"
           ++ [ascii_of_nat 34] ++ upto "<" r ++ Py.chars "</div>")
  | None => ""
  end.

Definition latin1_alnum (c : ascii) : bool :=
  let n := nat_of_ascii c in
  existsb (Nat.eqb n) [170; 178; 179; 181; 185; 186; 188; 189; 190]
  || ((192 <=? n) && (n <=? 255) && negb (Nat.eqb n 215) && negb (Nat.eqb n 247))%nat.

Definition demoX : External string string :=
  {| ext_handle_response := fun r => (status r <? 400)%Z;
     ext_make_soup := fun r => if (status r <? 400)%Z then Some (text r) else None;
     soup_warnMsgContents :=
       fun s => contains (Py.chars "<div id='warnMsgContents'") (Py.chars s);
     soup_warnMsgText := panel;
     soup_singlePremise := found "<span id='p_singlePremise'>" "<";
     soup_signoutlink := found "<a class='p_signoutlink' href='" "'";
     re_search_version := fun _ => None;
     re_search_networkid := networkid;
     site_new := fun _ name => name;
     site_fetch_zones := fun s => s;
     site_update_alarm_from_soup := fun _ s => s;
     site_update_zone_from_soup := fun _ s => s;
     unicode_decimal := fun _ => false;
     unicode_alnum := latin1_alnum;
     float_ms := fun t => t |}.

Definition demoK : Const :=
  {| default_user_agent := "agent";
     default_accept := "text/html";
     ADT_DEFAULT_VERSION := "24.0.0-117";
     ADT_DEVICE_URI := "/system/device.jsp";
     ADT_HTTP_REFERER_URIS :=
       ["/access/signin.jsp"; "/system/device.jsp"; "/summary/summary.jsp";
        "/system/system.jsp"];
     ADT_LOGIN_URI := "/access/signin.jsp";
     ADT_LOGOUT_URI := "/access/signout.jsp";
     ADT_ORB_URI := "/ajax/orb.jsp";
     ADT_SYNC_CHECK_URI := "/Ajax/SyncCheckServ";
     ADT_SYSTEM_URI := "/system/system.jsp";
     ADT_TIMEOUT_INTERVAL := 300000%Z;
     ADT_TIMEOUT_URI := "/KeepAlive";
     API_PREFIX := "/myhome/";
     DEFAULT_API_HOST := "https://portal.adtpulse.com";
     ADT_DEFAULT_POLL_INTERVAL := 3000%Z |}.

Definition page (body : string) : HttpOutcome :=
  Answer 200%Z body "https://portal.adtpulse.com/myhome/summary/summary.jsp".

(** The page of an account with one site, and the page that rejects a
    login. *)
Definition home_page : string :=
  "<span id='p_singlePremise'>Home</span>"
  ++ "<a class='p_signoutlink' "
  ++ "href='/myhome/access/signout.jsp?networkid=1&partner=adt'>Sign Out</a>".

Definition page_ok : HttpOutcome := page home_page.

Definition page_bad : HttpOutcome := page "<div id='warnMsgContents'>bad</div>".

(** A portal that gives the answers of [srv] in order and then stops
    answering. *)
Definition env0 (srv : list HttpOutcome) (sched : list nat) : Env :=
  {| server := fun n => nth n srv NoAnswer; served := 0; clock := 1000%Z;
     responses := []; tasks := []; trace := []; cancel_in := None;
     schedule := sched |}.

(** The client [PyADTPulse("me@example.com", "pw", "fp", do_login=False)]
    makes in front of that portal. *)
Definition client (srv : list HttpOutcome) (sched : list nat) : World string :=
  {| self := fresh demoK
               {| _username := "me@example.com"; _password := "pw";
                  _fingerprint := "fp" |}
               (DEFAULT_API_HOST demoK) (default_user_agent demoK) None
               (ADT_DEFAULT_POLL_INTERVAL demoK) 1000%Z;
     env := env0 srv sched |}.

Fixpoint after_ops (ops : list Operation) (w : World string) : World string :=
  match ops with
  | [] => w
  | op :: rest => after_ops rest (snd (perform demoX demoK op w))
  end.

(** The client after a login the portal accepted, [next] being what the
    portal answers from then on. *)
Definition logged_in (next : list HttpOutcome) : World string :=
  after_ops [call_async_login] (client (page_ok :: page_ok :: next) []).

(** The last record of the log. *)
Definition last_log (tr : list Event) : option (Level * string) :=
  fold_left (fun acc e => match e with Log l m => Some (l, m) | _ => acc end)
            tr None.

(** What the executor logs last when the portal answers a request of the
    logged-in client with status [st]. *)
Definition failure_record (st : Z) : option (Level * string) :=
  last_log
    (trace (env (snd (_async_query demoX demoK "/ajax/orb.jsp" "GET" None None true 1%Z
                        (logged_in [Answer st "" ""]))))).

Definition logged (msg : string) (tr : list Event) : bool :=
  existsb (fun e => match e with Log _ m => String.eqb m msg | _ => false end) tr.

Lemma pair_of_fst {A B} (p : A * B) a : fst p = a -> p = (a, snd p).
Proof. intros <-. destruct p; reflexivity. Qed.

Example client_constructed srv sched :
  __init__ demoX demoK (Some "me@example.com") (Some "pw") (Some "fp")
           (DEFAULT_API_HOST demoK) (default_user_agent demoK) None false
           (ADT_DEFAULT_POLL_INTERVAL demoK) (env0 srv sched)
  = Ok (client srv sched).
Proof. reflexivity. Qed.

(* ------------------------------------------------------------------ *)
(** * The theorems at work, and where the claims fail *)

Lemma demoX_shows_error : shows_error demoX "<div id='warnMsgContents'>bad</div>".
Proof.
  intros r soup Ht Hs. cbn in Hs. destruct (status r <? 400)%Z; [|discriminate Hs].
  injection Hs as <-. cbn. rewrite Ht. reflexivity.
Defined.



Lemma login_with_error_marker_stays_cleared_witness :
  _authenticated (self (snd (async_login demoX demoK (client [page_ok; page_bad] []))))
  = Some false.
Proof.
  exact (proj1 (proj2 (login_with_error_marker_stays_cleared demoX demoK
                         (client [page_ok; page_bad] []) 200%Z
                         "<div id='warnMsgContents'>bad</div>"
                         "https://portal.adtpulse.com/myhome/summary/summary.jsp"
                         eq_refl eq_refl demoX_shows_error))).
Defined.

(** A tick whose answer ends in [-0-0]. *)
Lemma token_decides_refresh_witness :
  _updates_exist
    (self (snd (sync_check_try demoX demoK None (logged_in [page "4-0-0"; page_ok]))))
  = Some true.
Proof.
  pose proof (token_decides_refresh demoX demoK None
                (logged_in [page "4-0-0"; page_ok])
                (snd (sync_check_poll demoX demoK (logged_in [page "4-0-0"; page_ok])))
                2) as H.
  cbv zeta in H.
  assert (E : Py.endswith
                (text (nth 2 (responses
                                (env (snd (sync_check_poll demoX demoK
                                             (logged_in [page "4-0-0"; page_ok])))))
                           no_response)) "-0-0" = true)
    by (vm_compute; reflexivity).
  rewrite E in H.
  refine (proj1 (proj2 (proj2 (H _ _ _ _ _)))).
  - vm_compute. reflexivity.
  - vm_compute. discriminate.
  - apply pair_of_fst. vm_compute. reflexivity.
  - vm_compute. reflexivity.
  - vm_compute. reflexivity.
Defined.

(** C3 fails here.  The answer [1-00-0] has the shape and its last two
    fields are zero, and the tick neither sets the event nor refreshes;
    the answer [1-2-0-0] begins with the token [1-2-0], whose last two
    fields are not both zero, and the tick sets the event and
    refreshes. *)
Lemma shape_matches_and_suffix_decides :
  let quiet := sync_check_try demoX demoK None (logged_in [page "1-00-0"; page_ok]) in
  let busy := sync_check_try demoX demoK None (logged_in [page "1-2-0-0"; page_ok]) in
  re_match demoX (sync_pattern demoX) "1-00-0" = true
  /\ fst quiet = Ok (Next (Some 2))
  /\ _updates_exist (self (snd quiet)) = Some false
  /\ entered InUpdate (snd quiet) = 0
  /\ served (env (snd quiet)) = 3
  /\ re_match demoX (sync_pattern demoX) "1-2-0-0" = true
  /\ fst busy = Ok (Next (Some 2))
  /\ _updates_exist (self (snd busy)) = Some true
  /\ entered InUpdate (snd busy) = 1
  /\ served (env (snd busy)) = 4.
Proof. vm_compute. repeat split; reflexivity. Qed.

Lemma unexpected_token_forces_one_login_witness :
  let w := logged_in [page "garbage"; page_ok; page_bad] in
  entered InLogin (snd (sync_check_try demoX demoK None w))
  = S (entered InLogin (snd (sync_check_poll demoX demoK w))).
Proof.
  refine (proj1 (proj2 (unexpected_token_forces_one_login demoX demoK None
                          (logged_in [page "garbage"; page_ok; page_bad])
                          (snd (sync_check_poll demoX demoK
                                  (logged_in [page "garbage"; page_ok; page_bad])))
                          2 _ _ _ _))).
  - vm_compute. reflexivity.
  - apply pair_of_fst. vm_compute. reflexivity.
  - vm_compute. reflexivity.
  - vm_compute. reflexivity.
Defined.

(** C4 fails here.  After a tick whose re-login the portal rejected the
    client is not authenticated; the next tick, answered with no token
    again, logs in twice: once when the executor makes its request, and
    once for the answer. *)
Lemma tick_of_unauthenticated_client_logs_in_twice :
  let w :=
    after_ops [loop_runs_task 0]
      (logged_in [page "garbage"; page_ok; page_bad; page_ok; page_ok;
                  page "garbage"; page_ok; page_ok]) in
  let out := sync_check_try demoX demoK (Some 2) w in
  _authenticated (self w) = Some false
  /\ fst out = Ok (Next (Some 7))
  /\ entered InLogin (snd out) = 2 + entered InLogin w
  /\ entered InUpdate (snd out) = entered InUpdate w.
Proof. vm_compute. repeat split; reflexivity. Qed.

Lemma logout_ends_the_tasks_and_may_start_new_ones_witness :
  let out := async_logout demoX demoK (logged_in [page_ok]) in
  stands 0 Finished (snd out) /\ _sync_task (self (snd out)) = None.
Proof.
  cbv zeta.
  destruct (logout_ends_the_tasks_and_may_start_new_ones demoX demoK
              (logged_in [page_ok]) eq_refl) as (HA & HB & _).
  split.
  - apply (HA 0 None); [right; vm_compute; reflexivity | vm_compute; reflexivity].
  - apply HB; [vm_compute; discriminate | vm_compute; reflexivity].
Defined.

(** C5 on two runs.  Login and logout: the event is cleared, the handles
    are empty and both tasks have ended.  The same with a tick in between
    whose re-login the portal rejects: the request of the logout logs in
    again, that login makes two new tasks, and when the logout is over the
    handles point to them and they live on. *)
Lemma logout_on_two_runs :
  (let w := snd (async_logout demoX demoK (logged_in [page_ok])) in
   _authenticated (self w) = Some false
   /\ _sync_task (self w) = None /\ _timeout_task (self w) = None
   /\ map phase (tasks (env w)) = [Finished; Finished])
  /\ (let w :=
        snd (async_logout demoX demoK
               (after_ops [loop_runs_task 0]
                  (logged_in [page "garbage"; page_ok; page_bad; page_ok; page_ok;
                              page_ok]))) in
      _authenticated (self w) = Some false
      /\ _sync_task (self w) = Some 2 /\ _timeout_task (self w) = Some 3
      /\ map phase (tasks (env w))
         = [Finished; Finished; Sleeping None; Sleeping None]).
Proof. vm_compute. repeat split; reflexivity. Qed.

Lemma login_does_not_wait_for_the_login_coroutine_witness :
  let w := snd (login demoX demoK (client [page_ok; page_ok] [])) in
  fst (login demoX demoK w) = Ok tt
  /\ env (snd (login demoX demoK w)) = env w.
Proof.
  cbv zeta.
  destruct (proj1 (login_does_not_wait_for_the_login_coroutine demoX demoK)
              (snd (login demoX demoK (client [page_ok; page_ok] [])))
              {| thread_name := "PyADTPulse Session"; daemon := true |}
              {| submitted := []; loop_closed := false |})
    as (H1 & _ & H2 & _).
  - vm_compute. reflexivity.
  - vm_compute. reflexivity.
  - split; [exact H1 | exact H2].
Defined.

(** C6 on a run.  The first [login()]: the login is done and accepted,
    each task has had its first run, and the call has not returned.  A
    second [login()] made then returns at once, with the coroutine queued
    and no request made. *)
Lemma login_on_a_run :
  let first := login demoX demoK (client [page_ok; page_ok] []) in
  let second := login demoX demoK (snd first) in
  fst first = Blocked
  /\ _authenticated (self (snd first)) = Some true
  /\ served (env (snd first)) = 2
  /\ fst second = Ok tt
  /\ option_map submitted (_loop (self (snd second))) = Some [CoLogin]
  /\ served (env (snd second)) = 2.
Proof. vm_compute. repeat split; reflexivity. Qed.

(** The keepalive task awake after the sync check's re-login was
    rejected. *)
Lemma keepalive_returns_on_cancellation_or_cleared_event_witness :
  let w :=
    after_ops [loop_runs_task 0]
      (logged_in [page "garbage"; page_ok; page_bad; page_ok; page_bad; page_ok]) in
  let out := _keepalive_task demoX demoK (Sleeping None) w in
  (cancel_in (env w) <> None /\ released None (snd out))
  \/ _authenticated (self (snd out)) = Some false.
Proof.
  cbv zeta.
  apply (keepalive_returns_on_cancellation_or_cleared_event demoX demoK (Sleeping None)).
  vm_compute. reflexivity.
Defined.

(** C7 fails here: login, with the first run of both tasks, a tick of the
    sync check whose re-login the portal rejects, and then the keepalive
    task runs and ends, with no cancellation asked for at any time. *)
Lemma keepalive_ends_without_cancellation :
  let w :=
    after_ops [call_async_login; loop_runs_task 0; loop_runs_task 1]
      (client [page_ok; page_ok; page "garbage"; page_ok; page_bad; page_ok;
               page_bad; page_ok] []) in
  map phase (tasks (env w)) = [Sleeping (Some 2); Finished]
  /\ map cancel_requested (tasks (env w)) = [false; false]
  /\ cancel_in (env w) = None
  /\ entered InLogout w = 0
  /\ logged "ADT Pulse timeout task cancelled" (trace (env w)) = false.
Proof. vm_compute. repeat split; reflexivity. Qed.

Lemma error_status_logged_at_error_and_not_retried_witness :
  fst (_async_query demoX demoK "/ajax/orb.jsp" "GET" None None true 1%Z
         (logged_in [Answer 503%Z "" ""]))
  = Ok None.
Proof.
  refine (proj1 (error_status_logged_at_error_and_not_retried demoX demoK
                   "/ajax/orb.jsp" "GET" None None true 1%Z
                   (logged_in [Answer 503%Z "" ""]) (logged_in [Answer 503%Z "" ""])
                   503%Z "" "" _ _ _ _ _)).
  - vm_compute. reflexivity.
  - split; vm_compute; [reflexivity | discriminate].
  - left. reflexivity.
  - vm_compute. reflexivity.
  - lia.
Defined.

(** C8 fails here: 503 is in [RECOVERABLE_ERRORS] and 404 is not, and the
    executor logs both at the same level. *)
Lemma recoverable_status_logged_like_any_other :
  In 503%Z RECOVERABLE_ERRORS
  /\ ~ In 404%Z RECOVERABLE_ERRORS
  /\ failure_record 503
     = Some (ERROR, "Received HTTP error code 503 in request to ADT Pulse")
  /\ failure_record 404
     = Some (ERROR, "Received HTTP error code 404 in request to ADT Pulse").
Proof.
  split; [cbn; tauto|]. split; [cbn; intuition discriminate|].
  split; vm_compute; reflexivity.
Qed.


Lemma updates_exist_before_login_witness :
  updates_exist (client [] []) = (Ok false, client [] []).
Proof.
  exact (proj1 (updates_exist_before_login (client [] []) eq_refl)).
Defined.

(* ------------------------------------------------------------------ *)
(** * More runs against the portal *)

Lemma invalid_method_makes_no_request_witness :
  fst (_async_query demoX demoK "/ajax/orb.jsp" "PUT" None None false 1%Z (logged_in []))
  = Ok None.
Proof.
  refine (proj1 (invalid_method_makes_no_request demoX demoK "/ajax/orb.jsp" "PUT"
                   None None false 1%Z (logged_in []) (logged_in []) _ _ _ _)).
  - reflexivity.
  - vm_compute. discriminate.
  - discriminate.
  - discriminate.
Defined.

Lemma executor_raises_in_two_cases_witness :
  _async_query demoX demoK "/ajax/orb.jsp" "GET" None None false 1%Z (client [] [])
  = (Raise (RuntimeError "ClientSession not initialized"), client [] []).
Proof.
  exact (executor_raises_in_two_cases demoX demoK "/ajax/orb.jsp" "GET"
           None None false 1%Z (client [] []) eq_refl (or_introl eq_refl)).
Defined.

Lemma unanswered_request_returns_none_witness :
  fst (_async_query demoX demoK "/ajax/orb.jsp" "GET" None None true 1%Z (logged_in []))
  = Ok None.
Proof.
  refine (proj1 (unanswered_request_returns_none demoX demoK "/ajax/orb.jsp" "GET"
                   None None true 1%Z (logged_in []) (logged_in []) _ _ _ _)).
  - vm_compute. reflexivity.
  - split; vm_compute; [reflexivity | discriminate].
  - left. reflexivity.
  - vm_compute. reflexivity.
Defined.

Lemma answered_request_returns_closed_response_witness :
  fst (_async_query demoX demoK "/ajax/orb.jsp" "GET" None None true 1%Z
         (logged_in [page_ok]))
  = Ok (Some (List.length (responses (env (logged_in [page_ok]))))).
Proof.
  refine (proj1 (answered_request_returns_closed_response demoX demoK "/ajax/orb.jsp"
                   "GET" None None true 1%Z (logged_in [page_ok]) (logged_in [page_ok])
                   200%Z home_page
                   "https://portal.adtpulse.com/myhome/summary/summary.jsp" _ _ _ _ _)).
  - vm_compute. reflexivity.
  - split; vm_compute; [reflexivity | discriminate].
  - left. reflexivity.
  - vm_compute. reflexivity.
  - lia.
Defined.

Lemma headers_after_answered_request_witness :
  session_header "Accept"
    (snd (_async_query_request demoK "/ajax/orb.jsp" "GET" None None 1%Z
            (logged_in [page_ok])))
  = Some "*/*".
Proof.
  refine (proj1 (headers_after_answered_request demoK "/ajax/orb.jsp" "GET" None None
                   1%Z (logged_in [page_ok]) 200%Z home_page
                   "https://portal.adtpulse.com/myhome/summary/summary.jsp" _ _ _ _)).
  - split; vm_compute; [reflexivity | discriminate].
  - left. reflexivity.
  - vm_compute. reflexivity.
  - lia.
Defined.

(** The client after a tick of the sync check that found updates. *)
Definition with_updates : World string :=
  snd (sync_check_try demoX demoK None (logged_in [page "4-0-0"; page_ok])).

Lemma updates_exist_is_read_once_witness :
  fst (updates_exist with_updates) = Ok true
  /\ fst (updates_exist (snd (updates_exist with_updates))) = Ok false.
Proof.
  destruct (updates_exist_is_read_once with_updates) as (H1 & _ & H3).
  - vm_compute. reflexivity.
  - split; [exact H1 | rewrite H3; reflexivity].
Defined.

Lemma wait_for_update_consumes_or_waits_witness :
  wait_for_update with_updates
  = (Ok tt, on_self (set_updates_exist (Some false)) with_updates).
Proof.
  apply (wait_for_update_consumes_or_waits with_updates true).
  vm_compute. reflexivity.
Defined.

Lemma sync_calls_need_sync_login_witness :
  update demoX demoK
    (after_all demoX demoK [call_async_login; loop_runs_task 0]
       (client [page_ok; page_ok] []))
  = (Raise (RuntimeError "Attempting to run sync update from async login"),
     after_all demoX demoK [call_async_login; loop_runs_task 0]
       (client [page_ok; page_ok] [])).
Proof.
  refine (proj1 (proj2 (sync_calls_need_sync_login demoX demoK
                          [call_async_login; loop_runs_task 0]
                          (client [page_ok; page_ok] []) "" "" None None true 1%Z
                          _ _))).
  - reflexivity.
  - reflexivity.
Defined.

Lemma construction_with_websession_does_not_login_witness :
  exists w,
    __init__ demoX demoK (Some "me@example.com") (Some "pw") (Some "fp")
             "https://portal.adtpulse.com" "agent"
             (Some {| headers := []; session_closed := false |}) true 3000%Z
             (env0 [] [])
    = Ok w
    /\ env w = env0 [] [].
Proof.
  destruct (construction_with_websession_does_not_login demoX demoK
              "me@example.com" "pw" "fp" "https://portal.adtpulse.com" "agent"
              {| headers := []; session_closed := false |} true 3000%Z (env0 [] []))
    as (w & H1 & H2 & _); try discriminate.
  - vm_compute. reflexivity.
  - exists w. split; [exact H1 | exact H2].
Defined.

Lemma version_discovery_falls_back_to_default_witness :
  _api_version (self (snd (_async_fetch_version demoX demoK (logged_in [page_ok]))))
  = discovered demoX demoK (logged_in [page_ok]).
Proof.
  refine (proj1 (proj2 (version_discovery_falls_back_to_default demoX demoK
                          (logged_in [page_ok]) _))).
  vm_compute. reflexivity.
Defined.

Lemma accepted_login_sets_up_the_session_witness :
  let out := async_login demoX demoK (client [page_ok; page_ok] []) in
  is_connected (snd out) = (Ok true, snd out)
  /\ stands 0 (Sleeping None) (snd out)
  /\ stands 1 (Sleeping None) (snd out).
Proof.
  cbv zeta.
  destruct (accepted_login_sets_up_the_session demoX demoK
              (client [page_ok; page_ok] []) 200%Z home_page
              "https://portal.adtpulse.com/myhome/summary/summary.jsp" home_page)
    as (_ & H2 & _ & _ & _ & _ & _ & _ & H9 & H10).
  - reflexivity.
  - reflexivity.
  - lia.
  - reflexivity.
  - vm_compute. reflexivity.
  - intros _ _. vm_compute. discriminate.
  - split; [exact H2|]. split; [exact (H9 eq_refl) | exact (H10 eq_refl)].
Defined.

Lemma login_keeps_existing_tasks_witness :
  tasks (env (snd (async_login demoX demoK (logged_in [page_ok; page_ok]))))
  = tasks (env (logged_in [page_ok; page_ok])).
Proof.
  refine (proj1 (login_keeps_existing_tasks demoX demoK (logged_in [page_ok; page_ok])
                   0 1 _ _)).
  - vm_compute. reflexivity.
  - vm_compute. reflexivity.
Defined.

Lemma failed_login_request_stays_cleared_witness :
  is_connected (snd (async_login demoX demoK (client [page_ok] [])))
  = (Ok false, snd (async_login demoX demoK (client [page_ok] []))).
Proof.
  refine (proj1 (proj2 (failed_login_request_stays_cleared demoX demoK
                          (client [page_ok] []) _ _))).
  - reflexivity.
  - exact I.
Defined.


Lemma at_most_one_site_witness :
  (List.length
     (_sites (self (after_all demoX demoK [call_async_login; call_async_update]
                      (client [page_ok; page_ok; page_ok] [])))) <= 1)%nat.
Proof.
  apply (at_most_one_site demoX demoK). cbn. lia.
Defined.

(** Both tasks asleep, and a cancellation due. *)
Definition about_to_cancel : World string :=
  on_env (set_cancel_in (Some 0)) (logged_in [page_ok]).

Lemma sync_check_returns_on_cancellation_only_witness :
  Sleeping None = Finished \/ cancel_in (env about_to_cancel) <> None.
Proof.
  apply (sync_check_returns_on_cancellation_only demoX demoK (Sleeping None)
           about_to_cancel).
  vm_compute. reflexivity.
Defined.

Lemma due_cancellation_ends_the_task_witness :
  fst (task_body demoX demoK Keepalive (Sleeping None) about_to_cancel) = Ok Finished.
Proof.
  refine (proj1 (due_cancellation_ends_the_task demoX demoK Keepalive None
                   about_to_cancel _)).
  reflexivity.
Defined.

(** Both tasks asleep, and the cancellation of the keepalive task asked
    for. *)
Definition cancel_asked_for : World string :=
  snd (task_cancel 1 (logged_in [page_ok])).

Lemma loop_delivers_requested_cancellation_witness :
  nth_error (tasks (env (snd (task_step demoX demoK 1 cancel_asked_for)))) 1
  = Some {| kind := Keepalive; phase := Finished; cancel_requested := false |}.
Proof.
  refine (proj1 (proj2 (loop_delivers_requested_cancellation demoX demoK 1
                          {| kind := Keepalive; phase := Sleeping None;
                             cancel_requested := true |}
                          None cancel_asked_for _ _ _))).
  - vm_compute. reflexivity.
  - reflexivity.
  - reflexivity.
Defined.

Lemma logout_clears_and_closes_witness :
  fst (async_logout demoX demoK (logged_in [page_ok])) = Ok tt.
Proof.
  refine (proj1 (logout_clears_and_closes demoX demoK (logged_in [page_ok]) _ _)).
  - split; vm_compute; [reflexivity | discriminate].
  - vm_compute. reflexivity.
Defined.

Lemma accessors_release_the_lock_witness :
  _attribute_lock (self (snd (perform demoX demoK get_is_connected (logged_in []))))
  = _attribute_lock (self (logged_in [])).
Proof.
  exact (proj2 (accessors_release_the_lock demoX demoK get_is_connected (logged_in [])
                  eq_refl)).
Defined.

(** The client between the making of the session thread and the making
    of its loop. *)
Definition thread_without_loop : World string :=
  on_self (set_session_thread
             (Some {| thread_name := "PyADTPulse Session"; daemon := true |}))
    (client [] []).

Lemma login_without_loop_keeps_the_lock_witness :
  fst (login demoX demoK thread_without_loop) = Raise AssertionError.
Proof.
  exact (f_equal fst
           (login_without_loop_keeps_the_lock demoX demoK thread_without_loop
              {| thread_name := "PyADTPulse Session"; daemon := true |}
              eq_refl eq_refl)).
Defined.

Lemma repr_shows_the_username_witness :
  fst (__repr__ (after_all demoX demoK [call_async_login] (client [page_ok; page_ok] [])))
  = Ok "<PyADTPulse: me@example.com>".
Proof.
  rewrite (repr_shows_the_username demoX demoK "me@example.com" (Some "pw") (Some "fp")
             (DEFAULT_API_HOST demoK) (default_user_agent demoK) None false
             (ADT_DEFAULT_POLL_INTERVAL demoK) (env0 [page_ok; page_ok] [])
             (client [page_ok; page_ok] []) [call_async_login] eq_refl).
  reflexivity.
Defined.

Lemma username_without_at_sign_is_refused_witness :
  _init_login_info demoX (Some "nobody") (Some "pw") (Some "fp")
  = Raise (ValueError "Username must be an email address").
Proof.
  apply username_without_at_sign_is_refused.
  - discriminate.
  - intros c H. cbn in H.
    repeat (destruct H as [<-|H]; [discriminate|]). contradiction.
Defined.

Lemma address_with_trailing_text_is_accepted_witness :
  _init_login_info demoX (Some "j.doe@mail.example.org, Jane Doe") (Some "pw")
                   (Some "fp")
  = Ok {| _username := "j.doe@mail.example.org, Jane Doe"; _password := "pw";
          _fingerprint := "fp" |}.
Proof.
  apply (address_with_trailing_text_is_accepted demoX
           "j"%char (Py.chars ".doe") (Py.chars "mail.example") "o"%char "r"%char
           ["g"%char] (Py.chars ", Jane Doe") "pw" "fp").
  - reflexivity.
  - repeat constructor.
  - discriminate.
  - repeat constructor.
  - repeat constructor.
  - reflexivity.
  - discriminate.
  - discriminate.
Defined.

Lemma tick_without_usable_answer_only_closes_witness :
  fst (sync_check_try demoX demoK None (logged_in [Answer 500%Z "" ""]))
  = Ok (Next None).
Proof.
  refine (proj1 (tick_without_usable_answer_only_closes demoX demoK None
                   (logged_in [Answer 500%Z "" ""])
                   (snd (sync_check_poll demoX demoK (logged_in [Answer 500%Z "" ""])))
                   None _ _ _)).
  - vm_compute. reflexivity.
  - apply pair_of_fst. vm_compute. reflexivity.
  - exact I.
Defined.

